(** * ASTHRA backend: the plan normalizer, the plan fetcher and the chat handler

    A shallow embedding of [backend/app.py]: the values that [json.loads]
    produces, the few Python operations the code applies to them (truthiness,
    [or], [dict.get], iteration, [str.strip]), exceptions as an error result,
    and the three functions [_normalize_plan], [_call_ai_plan] and [chat]. *)

From Stdlib Require Import List String Ascii NArith ZArith Bool Lia.
From Stdlib Require Import DecimalString.
From Stdlib Require Import Floats.SpecFloat.
Import ListNotations.

Set Warnings "-register-all".

(** ** Python strings

    A Python [str] is a sequence of Unicode code points. *)

Definition pystr := list N.

(** A literal of the source, written as an ASCII string. *)
Definition lit (s : string) : pystr := map N_of_ascii (list_ascii_of_string s).

Fixpoint str_eqb (a b : pystr) : bool :=
  match a, b with
  | [], [] => true
  | x :: a', y :: b' => N.eqb x y && str_eqb a' b'
  | _, _ => false
  end.

(** The code points that [str.strip()] removes (those for which
    [str.isspace] holds). *)
Definition is_space (c : N) : bool :=
  ((9 <=? c) && (c <=? 13) || (28 <=? c) && (c <=? 32)
   || (c =? 133) || (c =? 160) || (c =? 5760)
   || (8192 <=? c) && (c <=? 8202)
   || (c =? 8232) || (c =? 8233) || (c =? 8239) || (c =? 8287)
   || (c =? 12288))%N.

Fixpoint lstrip (s : pystr) : pystr :=
  match s with
  | [] => []
  | c :: s' => if is_space c then lstrip s' else s
  end.

Definition rstrip (s : pystr) : pystr := rev (lstrip (rev s)).

(** [s.strip()] *)
Definition strip (s : pystr) : pystr := rstrip (lstrip s).

(** A string made of whitespace only (the empty string included). *)
Definition blank (s : pystr) : bool := forallb is_space s.

Definition is_nil {A} (l : list A) : bool :=
  match l with [] => true | _ => false end.

(** ** Values

    What [json.loads] returns: [None], [bool], [int], [float], [str], [list]
    and [dict] with string keys.  A dict keeps its insertion order, which is
    the order of iteration. *)

Inductive json : Type :=
| JNull
| JBool (b : bool)
| JInt (z : Z)
| JFloat (f : spec_float)
| JStr (s : pystr)
| JList (l : list json)
| JObj (d : list (pystr * json)).

Definition type_name (v : json) : string :=
  match v with
  | JNull => "NoneType"
  | JBool _ => "bool"
  | JInt _ => "int"
  | JFloat _ => "float"
  | JStr _ => "str"
  | JList _ => "list"
  | JObj _ => "dict"
  end.

(** ** Exceptions *)

Inductive exn_class :=
| AttributeError
| TypeError
| KeyError
| IndexError
| OtherException      (* any other subclass of Exception *)
| BaseExceptionOnly.  (* KeyboardInterrupt, SystemExit, ...: not an Exception *)

(** An exception: its class and the text [str(exc)] gives. *)
Record exn := Exn { exn_class_of : exn_class; exn_str : pystr }.

(** [isinstance(exc, Exception)] *)
Definition is_Exception (e : exn) : bool :=
  match exn_class_of e with
  | BaseExceptionOnly => false
  | _ => true
  end.

Inductive result (A : Type) : Type :=
| Ok (a : A)
| Raise (e : exn).
Arguments Ok {A} a.
Arguments Raise {A} e.

Definition rbind {A B} (r : result A) (k : A -> result B) : result B :=
  match r with
  | Ok a => k a
  | Raise e => Raise e
  end.

Declare Scope res_scope.
Delimit Scope res_scope with res.
Notation "x <- c ;; k" := (rbind c (fun x => k))
  (at level 61, c at next level, right associativity) : res_scope.
Local Open Scope res_scope.

Fixpoint mapM {A B} (f : A -> result B) (l : list A) : result (list B) :=
  match l with
  | [] => Ok []
  | a :: l' => b <- f a ;; bs <- mapM f l' ;; Ok (b :: bs)
  end.

(** The interpreter's wording of the two errors the normalizer can meet. *)
Definition no_attribute (v : json) (attr : string) : exn :=
  Exn AttributeError
      (lit ("'" ++ type_name v ++ "' object has no attribute '" ++ attr ++ "'")).

Definition not_iterable (v : json) : exn :=
  Exn TypeError (lit ("'" ++ type_name v ++ "' object is not iterable")).

(** ** The Python operations the code uses *)

(** [bool(v)] *)
Definition truthy (v : json) : bool :=
  match v with
  | JNull => false
  | JBool b => b
  | JInt z => negb (z =? 0)%Z
  | JFloat (S754_zero _) => false
  | JFloat _ => true
  | JStr s => negb (is_nil s)
  | JList l => negb (is_nil l)
  | JObj d => negb (is_nil d)
  end.

(** [a or b] *)
Definition py_or (a b : json) : json := if truthy a then a else b.

Fixpoint dict_get (d : list (pystr * json)) (key : pystr) : option json :=
  match d with
  | [] => None
  | (k, v) :: d' => if str_eqb k key then Some v else dict_get d' key
  end.

Definition dict_field (d : list (pystr * json)) (key : pystr) (default : json)
  : json :=
  match dict_get d key with Some x => x | None => default end.

(** [v.get(key, default)]: only a dict has [get]. *)
Definition py_get (v : json) (key : pystr) (default : json) : result json :=
  match v with
  | JObj d => Ok (dict_field d key default)
  | _ => Raise (no_attribute v "get")
  end.

(** The items of [for x in v]: a list gives its elements, a str its
    characters, a dict its keys; nothing else is iterable. *)
Definition py_iter (v : json) : result (list json) :=
  match v with
  | JList l => Ok l
  | JStr s => Ok (map (fun c => JStr [c]) s)
  | JObj d => Ok (map (fun kv => JStr (fst kv)) d)
  | _ => Raise (not_iterable v)
  end.

(** [b.strip()]: only a str has [strip]. *)
Definition py_strip (b : json) : result json :=
  match b with
  | JStr s => Ok (JStr (strip s))
  | _ => Raise (no_attribute b "strip")
  end.

(** [bool(str(b).strip())].  [str] of a str is the str itself; [str] of
    [None], a bool, a number, a list or a dict is ["None"], ["True"], digits,
    ["[...]"], ["{...}"], which no [strip] empties. *)
Definition str_strip_truthy (b : json) : bool :=
  match b with
  | JStr s => negb (is_nil (strip s))
  | _ => true
  end.

(** ** [_normalize_plan] *)

(** [[b.strip() for b in items if str(b).strip()]] *)
Fixpoint clean (items : list json) : result (list json) :=
  match items with
  | [] => Ok []
  | b :: rest =>
      if str_strip_truthy b
      then s <- py_strip b ;; r <- clean rest ;; Ok (s :: r)
      else clean rest
  end.

(** The comprehension of line 266 on a section's bullets. *)
Definition cleaned_bullets (section : json) : result (list json) :=
  bl <- py_get section (lit "bullets") (JList []) ;;
  items <- py_iter bl ;;
  clean items.

(** The body of the loop over the sections (lines 265-267): the dict that is
    appended. *)
Definition normalize_section (section : json) : result json :=
  h <- py_get section (lit "heading") JNull ;;
  let heading := py_or h (JStr (lit "Section")) in
  bullets <- cleaned_bullets section ;;
  Ok (JObj [(lit "heading", heading);
            (lit "bullets",
             py_or (JList bullets) (JList [JStr (lit "Details pending.")]))]).

Definition _normalize_plan (plan : json) (fallback_message : pystr)
  : result json :=
  t <- py_get plan (lit "title") JNull ;;
  let title := py_or t (JStr (lit "ASTHRA Project Documentation")) in
  s <- py_get plan (lit "summary") JNull ;;
  let summary :=
    py_or s (JStr (lit "Generated documentation for: " ++ fallback_message)) in
  secs <- py_get plan (lit "sections") (JList []) ;;
  items <- py_iter secs ;;
  sections <- mapM normalize_section items ;;
  let sections :=
    if is_nil sections
    then [JObj [(lit "heading", JStr (lit "Overview"));
                (lit "bullets", JList [summary])]]
    else sections in
  cl <- py_get plan (lit "claims") (JList []) ;;
  citems <- py_iter cl ;;
  cleaned <- clean citems ;;
  let claims :=
    py_or (JList cleaned)
          (JList [JStr (lit "Automated documentation generation based on user input.")]) in
  c <- py_get plan (lit "certificate_note") JNull ;;
  let certificate_note := py_or c (JStr (lit "Generated via ASTHRA.")) in
  Ok (JObj [(lit "title", title);
            (lit "summary", summary);
            (lit "sections", JList sections);
            (lit "claims", claims);
            (lit "certificate_note", certificate_note)]).

(** ** The typed plan

    The dict that [_normalize_plan] returns (lines 280-286), and the dict it
    appends for a section (line 267), when every leaf is a string. *)

Record PlanSection := {
  sec_heading : pystr;
  sec_bullets : list pystr
}.

Record DocumentationPlan := {
  dp_title : pystr;
  dp_summary : pystr;
  dp_sections : list PlanSection;
  dp_claims : list pystr;
  dp_certificate_note : pystr
}.

Definition section_json (s : PlanSection) : json :=
  JObj [(lit "heading", JStr (sec_heading s));
        (lit "bullets", JList (map JStr (sec_bullets s)))].

Definition plan_json (p : DocumentationPlan) : json :=
  JObj [(lit "title", JStr (dp_title p));
        (lit "summary", JStr (dp_summary p));
        (lit "sections", JList (map section_json (dp_sections p)));
        (lit "claims", JList (map JStr (dp_claims p)));
        (lit "certificate_note", JStr (dp_certificate_note p))].

(** The DocumentationPlan invariants: non-empty title, summary and
    certificate note, at least one section, at least one bullet in every
    section, at least one claim. *)
Definition plan_invariants (p : DocumentationPlan) : bool :=
  negb (is_nil (dp_title p))
  && negb (is_nil (dp_summary p))
  && negb (is_nil (dp_certificate_note p))
  && negb (is_nil (dp_sections p))
  && forallb (fun s => negb (is_nil (sec_bullets s))) (dp_sections p)
  && negb (is_nil (dp_claims p)).

(** A string that [strip] leaves as it is and that is not empty. *)
Definition trimmed (s : pystr) : bool :=
  negb (is_nil s) && str_eqb (strip s) s.

(** Every heading is non-empty and every bullet and claim is [trimmed]. *)
Definition plan_trimmed (p : DocumentationPlan) : bool :=
  forallb (fun s => negb (is_nil (sec_heading s)) && forallb trimmed (sec_bullets s))
          (dp_sections p)
  && forallb trimmed (dp_claims p).

(** *** Inputs of the expected types

    A field that is absent, or present with a value that [P] accepts. *)
Definition absent_or (P : json -> bool) (d : list (pystr * json)) (key : string)
  : bool :=
  match dict_get d (lit key) with
  | None => true
  | Some v => P v
  end.

Definition is_str (v : json) : bool :=
  match v with JStr _ => true | _ => false end.

(** A string, or a value that [or] replaces by the default. *)
Definition str_or_falsy (v : json) : bool := is_str v || negb (truthy v).

Definition list_of (P : json -> bool) (v : json) : bool :=
  match v with JList l => forallb P l | _ => false end.

Definition expected_section (s : json) : bool :=
  match s with
  | JObj d => absent_or str_or_falsy d "heading"
              && absent_or (list_of is_str) d "bullets"
  | _ => false
  end.

Definition expected_plan (plan : json) : bool :=
  match plan with
  | JObj d => absent_or str_or_falsy d "title"
              && absent_or str_or_falsy d "summary"
              && absent_or (list_of expected_section) d "sections"
              && absent_or (list_of is_str) d "claims"
              && absent_or str_or_falsy d "certificate_note"
  | _ => false
  end.

(** ** Subscripting and [str.join], as the handler and the fetcher use them *)

(** [v[key]] for a string key. *)
Definition py_item (v : json) (key : string) : result json :=
  match v with
  | JObj d =>
      match dict_get d (lit key) with
      | Some x => Ok x
      | None => Raise (Exn KeyError (lit ("'" ++ key ++ "'")))
      end
  | JList _ =>
      Raise (Exn TypeError (lit "list indices must be integers or slices, not str"))
  | JStr _ =>
      Raise (Exn TypeError (lit "string indices must be integers, not 'str'"))
  | _ =>
      Raise (Exn TypeError (lit ("'" ++ type_name v ++ "' object is not subscriptable")))
  end.

(** [v[0]] *)
Definition py_item0 (v : json) : result json :=
  match v with
  | JList (x :: _) => Ok x
  | JList [] => Raise (Exn IndexError (lit "list index out of range"))
  | JStr (c :: _) => Ok (JStr [c])
  | JStr [] => Raise (Exn IndexError (lit "string index out of range"))
  | JObj _ => Raise (Exn KeyError (lit "0"))
  | _ =>
      Raise (Exn TypeError (lit ("'" ++ type_name v ++ "' object is not subscriptable")))
  end.

Fixpoint join_from (i : nat) (sep : pystr) (items : list json) : result pystr :=
  match items with
  | [] => Ok []
  | v :: rest =>
      match v with
      | JStr s =>
          tl <- join_from (S i) sep rest ;;
          Ok (if is_nil rest then s else s ++ sep ++ tl)
      | _ =>
          Raise (Exn TypeError
                   (lit ("sequence item " ++ NilEmpty.string_of_uint (Nat.to_uint i)
                         ++ ": expected str instance, " ++ type_name v ++ " found")))
      end
  end.

(** [sep.join(items)]: every item has to be a str. *)
Definition py_join (sep : pystr) (items : list json) : result pystr :=
  join_from 0 sep items.

(** ** Process-wide state and collaborators

    The module globals that [_init_ai_provider] leaves behind, and the
    collaborators, which are kept abstract: the provider SDKs, [json.loads]
    and the four document builders, which write files through reportlab,
    python-pptx and zipfile and may fail. *)

Record world := {
  AI_ENABLED : bool;
  AI_PROVIDER : pystr;
  AI_MODEL : pystr;
  AI_STATUS_MSG : pystr;
  (* [client]: [None], or the OpenAI / Azure client.  The function is
     [client.chat.completions.create(model, messages=[system, user])]
     followed by [.choices[0].message.content]. *)
  client : option (pystr -> pystr -> pystr -> result json);
  (* [genai]: [None] when the package is missing.  The function is
     [GenerativeModel(model).generate_content(prompt).text]. *)
  genai : option (pystr -> pystr -> result json);
  (* [bedrock_client]: the function is
     [invoke_model(modelId, body)["body"].read()], the argument being the
     text of the one user message. *)
  bedrock_client : option (pystr -> pystr -> result json);
  json_loads : json -> result json;
  _build_report_pdf : json -> result unit;
  _build_ppt : json -> result unit;
  _build_patent_pdf : json -> pystr -> result unit;
  _build_certificates_zip : json -> pystr -> result unit
}.

(** Two counters that the code does not have: how often [_call_ai_plan] was
    entered and how many requests went to a provider. *)
Record counters := {
  fetcher_calls : nat;
  provider_calls : nat
}.

Definition M (A : Type) : Type := counters -> counters * result A.

Definition ret {A} (a : A) : M A := fun st => (st, Ok a).

Definition bind {A B} (m : M A) (k : A -> M B) : M B :=
  fun st =>
    match m st with
    | (st', Ok a) => k a st'
    | (st', Raise e) => (st', Raise e)
    end.

Definition lift {A} (r : result A) : M A := fun st => (st, r).

Definition enter_fetcher : M unit :=
  fun st => ({| fetcher_calls := S (fetcher_calls st);
                provider_calls := provider_calls st |}, Ok tt).

(** One request to a provider's SDK, with its outcome. *)
Definition request {A} (outcome : result A) : M A :=
  fun st => ({| fetcher_calls := fetcher_calls st;
                provider_calls := S (provider_calls st) |}, outcome).

(** [try: body except Exception as exc: handler exc] *)
Definition try_except {A} (body : M A) (handler : exn -> M A) : M A :=
  fun st =>
    match body st with
    | (st', Raise e) => if is_Exception e then handler e st' else (st', Raise e)
    | done => done
    end.

Declare Scope m_scope.
Delimit Scope m_scope with m.
Notation "x <- c ;; k" := (bind c (fun x => k))
  (at level 61, c at next level, right associativity) : m_scope.
Local Open Scope m_scope.

(** ** [_call_ai_plan] *)

Definition _system_prompt : pystr :=
  lit ("You are an assistant that drafts professional documentation. "
       ++ "Return a concise JSON object with: "
       ++ "`title` (string), `summary` (2-3 sentence string), "
       ++ "`sections` (list of {heading, bullets[]}), "
       ++ "`claims` (patent-style bullet points), "
       ++ "`certificate_note` (short phrase for certificates). "
       ++ "Use bullet-ready text, no markdown. Respond with JSON only.").

Definition newline : pystr := [10%N].

Definition provider_is (w : world) (name : string) : bool :=
  str_eqb (AI_PROVIDER w) (lit name).

(** The body of the [try] (lines 207-254). *)
Definition _call_ai_plan_try (w : world) (message : pystr)
  : M (json * option pystr) :=
  match (if provider_is w "openai" || provider_is w "azure"
         then client w else None) with
  | Some create =>
      raw_content <- request (create (AI_MODEL w) _system_prompt message) ;;
      plan <- lift (json_loads w raw_content) ;;
      ret (plan, None)
  | None =>
      if provider_is w "gemini" then
        match genai w with
        | Some generate =>
            raw_content <-
              request (generate (AI_MODEL w)
                         (_system_prompt ++ newline ++ lit "User request:" ++ newline
                          ++ message ++ newline ++ lit "Reply with JSON only.")) ;;
            plan <- lift (json_loads w raw_content) ;;
            ret (plan, None)
        | None => lift (Raise (no_attribute JNull "GenerativeModel"))
        end
      else
        match (if provider_is w "bedrock" then bedrock_client w else None) with
        | Some invoke_model =>
            body <-
              request (invoke_model (AI_MODEL w)
                         (_system_prompt ++ newline ++ lit "User request:" ++ newline
                          ++ message)) ;;
            payload <- lift (json_loads w body) ;;
            content <- lift (py_item payload "content") ;;
            first <- lift (py_item0 content) ;;
            raw_content <- lift (py_item first "text") ;;
            plan <- lift (json_loads w raw_content) ;;
            ret (plan, None)
        | None =>
            ret (JNull,
                 Some (lit "Unsupported provider or client not initialized: "
                       ++ AI_PROVIDER w))
        end
  end.

(** The first component is the plan, [JNull] being Python's [None]. *)
Definition _call_ai_plan (w : world) (message : pystr)
  : M (json * option pystr) :=
  _ <- enter_fetcher ;;
  if negb (AI_ENABLED w) then ret (JNull, Some (AI_STATUS_MSG w))
  else
    try_except (_call_ai_plan_try w message)
               (fun exc => ret (JNull, Some (exn_str exc))).

(** ** [chat] *)

(** The upload, of which only the file name is used. *)
Record upload := { filename : option pystr }.

Definition _fallback_plan (message : pystr) (file : option upload) : json :=
  let file_note :=
    match file with
    | Some f =>
        lit "Uploaded file: "
        ++ match filename f with Some n => n | None => lit "None" end
    | None => lit "No upload provided."
    end in
  JObj
    [(lit "title", JStr (lit "ASTHRA Project Documentation"));
     (lit "summary", JStr (lit "Generated documentation for: " ++ message));
     (lit "sections",
      JList
        [JObj [(lit "heading", JStr (lit "Overview"));
               (lit "bullets",
                JList [JStr (lit "Project statement received and logged.");
                       JStr (lit "ASTHRA generated offline demo content.");
                       JStr file_note])];
         JObj [(lit "heading", JStr (lit "Objectives"));
               (lit "bullets",
                JList [JStr (lit "Demonstrate PDF, PPT, patent draft, and certificates.");
                       JStr (lit "Content is sample-only when AI is disabled.")])];
         JObj [(lit "heading", JStr (lit "Next Steps"));
               (lit "bullets",
                JList [JStr (lit "Enable AI (set OPENAI_API_KEY) for richer drafts.");
                       JStr (lit "Refine requirements and rerun generation.")])]]);
     (lit "claims",
      JList
        [JStr (lit "A system that generates multiple documentation artifacts from one input.");
         JStr (lit "Automated slide and patent-style drafting based on project descriptions.")]);
     (lit "certificate_note",
      JStr (lit "Demo certificate generated in offline mode."))].

Definition _file_urls : list (pystr * pystr) :=
  [(lit "report", lit "http://localhost:8000/files/report.pdf");
   (lit "ppt", lit "http://localhost:8000/files/slides.pptx");
   (lit "patent", lit "http://localhost:8000/files/patent.pdf");
   (lit "certificates", lit "http://localhost:8000/files/certificates.zip")].

(** The locals [plan], [ai_error] and [ai_used] after lines 426-434. *)
Definition chat_plan (w : world) (message : pystr) (file : option upload)
           (mode : pystr) : M (json * option pystr * bool) :=
  let plan := _fallback_plan message file in
  if str_eqb mode (lit "hybrid") then
    fetched <- _call_ai_plan w message ;;
    let '(ai_plan, ai_error) := fetched in
    if truthy ai_plan then
      plan' <- lift (_normalize_plan ai_plan message) ;;
      ret (plan', ai_error, true)
    else ret (plan, ai_error, false)
  else ret (plan, None, false).

(** Which line lines 447-450 add to the reply. *)
Inductive annotation :=
| NoAnnotation
| FallbackReason (e : pystr)
| AIWarning (e : pystr).

Definition annotate (ai_error : option pystr) (ai_used : bool) : annotation :=
  match ai_error with
  | Some e =>
      if negb (is_nil e) && negb ai_used then FallbackReason e
      else if negb (is_nil e) then AIWarning e
      else NoAnnotation
  | None => NoAnnotation
  end.

Definition reply_lines (summary : json) (ai_error : option pystr) (ai_used : bool)
  : list json :=
  summary ::
  match annotate ai_error ai_used with
  | NoAnnotation => []
  | FallbackReason e => [JStr (lit "AI fallback reason: " ++ e)]
  | AIWarning e => [JStr (lit "AI warning: " ++ e)]
  end.

Record ai_status := {
  enabled : bool;
  provider : pystr;
  model : pystr;
  status : pystr;
  mode_requested : pystr;
  mode_used : pystr;
  error : option pystr
}.

Record response := {
  reply : pystr;
  files : list (pystr * pystr);
  ai : ai_status
}.

(** Lines 436-466: the four artifacts, the reply and the response. *)
Definition chat_respond (w : world) (message mode : pystr)
           (plan : json) (ai_error : option pystr) (ai_used : bool)
  : result response :=
  (_ <- _build_report_pdf w plan ;;
   _ <- _build_ppt w plan ;;
   _ <- _build_patent_pdf w plan message ;;
   _ <- _build_certificates_zip w plan message ;;
   summary <- py_item plan "summary" ;;
   text <- py_join newline (reply_lines summary ai_error ai_used) ;;
   Ok {| reply := text;
         files := _file_urls;
         ai := {| enabled := AI_ENABLED w;
                  provider := AI_PROVIDER w;
                  model := AI_MODEL w;
                  status := AI_STATUS_MSG w;
                  mode_requested := mode;
                  mode_used := if ai_used then lit "hybrid" else lit "static";
                  error := ai_error |} |})%res.

Definition chat (w : world) (message : pystr) (file : option upload)
           (mode : pystr) : M response :=
  locals <- chat_plan w message file mode ;;
  let '(plan, ai_error, ai_used) := locals in
  lift (chat_respond w message mode plan ai_error ai_used).

(** ** Sample inputs and auxiliary notions for the properties *)

(** An object with an empty title, one section without heading whose bullets
    are a blank and an untrimmed string, and no claims. *)
Definition sparse_plan : json :=
  JObj [(lit "title", JStr []);
        (lit "sections",
         JList [JObj [(lit "bullets", JList [JStr (lit "  "); JStr (lit " a ")])]]);
        (lit "claims", JList [])].

(** One section whose bullets are all blank, one with a bullet to trim. *)
Definition blank_section_plan : json :=
  JObj [(lit "sections",
         JList [JObj [(lit "heading", JStr (lit "H"));
                      (lit "bullets", JList [JStr (lit "  ")])];
                JObj [(lit "heading", JStr (lit "K"));
                      (lit "bullets", JList [JStr (lit " a "); JStr []])]])].

Definition blank_section_sections : list json :=
  [JObj [(lit "heading", JStr (lit "H"));
         (lit "bullets", JList [JStr (lit "Details pending.")])];
   JObj [(lit "heading", JStr (lit "K"));
         (lit "bullets", JList [JStr (lit "a")])]].

Definition blank_section_out : json :=
  match _normalize_plan blank_section_plan (lit "demo") with
  | Ok out => out
  | Raise _ => JNull
  end.

(** A section whose heading is empty and whose only bullet is blank, and a
    section with a bullet to trim. *)
Definition defaults_plan : json :=
  JObj [(lit "sections",
         JList [JObj [(lit "heading", JStr []);
                      (lit "bullets", JList [JStr (lit "  ")])];
                JObj [(lit "heading", JStr (lit "K"));
                      (lit "bullets", JList [JStr (lit " a ")])]])].

Definition defaults_out : json :=
  match _normalize_plan defaults_plan (lit "demo") with
  | Ok out => out
  | Raise _ => JNull
  end.

Definition tidy_plan : DocumentationPlan :=
  {| dp_title := lit "T";
     dp_summary := lit "S";
     dp_sections := [{| sec_heading := lit "H"; sec_bullets := [lit "a b"] |}];
     dp_claims := [lit "c"];
     dp_certificate_note := lit "n" |}.

(** A plan that satisfies the invariants, with a bullet that starts with a
    space, and the plan the normalizer makes of it. *)
Definition untrimmed_plan : DocumentationPlan :=
  {| dp_title := lit "T";
     dp_summary := lit "S";
     dp_sections := [{| sec_heading := lit "H"; sec_bullets := [lit " a"] |}];
     dp_claims := [lit "c"];
     dp_certificate_note := lit "n" |}.

Definition untrimmed_plan_normalized : DocumentationPlan :=
  {| dp_title := lit "T";
     dp_summary := lit "S";
     dp_sections := [{| sec_heading := lit "H"; sec_bullets := [lit "a"] |}];
     dp_claims := [lit "c"];
     dp_certificate_note := lit "n" |}.

(** The counters after [enter_fetcher]. *)
Definition entered (st : counters) : counters :=
  {| fetcher_calls := S (fetcher_calls st); provider_calls := provider_calls st |}.

(** A call that fails raises an Exception, not a bare BaseException. *)
Definition raises_Exception {A} (r : result A) : Prop :=
  match r with
  | Ok _ => True
  | Raise e => is_Exception e = true
  end.

(** The provider SDKs and [json.loads] fail with Exceptions only (network
    errors, API status errors, [json.JSONDecodeError], ...). *)
Definition failures_are_Exceptions (w : world) : Prop :=
  (forall create m s u, client w = Some create -> raises_Exception (create m s u))
  /\ (forall generate m p, genai w = Some generate -> raises_Exception (generate m p))
  /\ (forall invoke m p, bedrock_client w = Some invoke -> raises_Exception (invoke m p))
  /\ (forall v, raises_Exception (json_loads w v)).

(** The prompts that go to Gemini (line 224) and to Bedrock (line 237). *)
Definition gemini_prompt (message : pystr) : pystr :=
  _system_prompt ++ newline ++ lit "User request:" ++ newline
  ++ message ++ newline ++ lit "Reply with JSON only.".

Definition bedrock_prompt (message : pystr) : pystr :=
  _system_prompt ++ newline ++ lit "User request:" ++ newline ++ message.

(** The provider call of lines 207-252 fails with [e]: the places where
    the selected provider's branch can raise, each with the steps before it
    having returned.  The request raises (network error, timeout, error
    status); the text that came back is not JSON; the Gemini package is
    missing, so that [genai] is [None]; the Bedrock payload has no
    [["content"][0]["text"]]. *)
Inductive provider_call_fails (w : world) (message : pystr) : exn -> Prop :=
| chat_request_fails create e :
    provider_is w "openai" || provider_is w "azure" = true ->
    client w = Some create ->
    create (AI_MODEL w) _system_prompt message = Raise e ->
    provider_call_fails w message e
| chat_reply_malformed create raw_content e :
    provider_is w "openai" || provider_is w "azure" = true ->
    client w = Some create ->
    create (AI_MODEL w) _system_prompt message = Ok raw_content ->
    json_loads w raw_content = Raise e ->
    provider_call_fails w message e
| gemini_sdk_missing :
    provider_is w "gemini" = true ->
    genai w = None ->
    provider_call_fails w message (no_attribute JNull "GenerativeModel")
| gemini_request_fails generate e :
    provider_is w "gemini" = true ->
    genai w = Some generate ->
    generate (AI_MODEL w) (gemini_prompt message) = Raise e ->
    provider_call_fails w message e
| gemini_reply_malformed generate raw_content e :
    provider_is w "gemini" = true ->
    genai w = Some generate ->
    generate (AI_MODEL w) (gemini_prompt message) = Ok raw_content ->
    json_loads w raw_content = Raise e ->
    provider_call_fails w message e
| bedrock_request_fails invoke_model e :
    provider_is w "bedrock" = true ->
    bedrock_client w = Some invoke_model ->
    invoke_model (AI_MODEL w) (bedrock_prompt message) = Raise e ->
    provider_call_fails w message e
| bedrock_body_malformed invoke_model body e :
    provider_is w "bedrock" = true ->
    bedrock_client w = Some invoke_model ->
    invoke_model (AI_MODEL w) (bedrock_prompt message) = Ok body ->
    json_loads w body = Raise e ->
    provider_call_fails w message e
| bedrock_payload_unexpected invoke_model body payload e :
    provider_is w "bedrock" = true ->
    bedrock_client w = Some invoke_model ->
    invoke_model (AI_MODEL w) (bedrock_prompt message) = Ok body ->
    json_loads w body = Ok payload ->
    (content <- py_item payload "content" ;;
     first <- py_item0 content ;;
     py_item first "text")%res = Raise e ->
    provider_call_fails w message e
| bedrock_reply_malformed invoke_model body payload raw_content e :
    provider_is w "bedrock" = true ->
    bedrock_client w = Some invoke_model ->
    invoke_model (AI_MODEL w) (bedrock_prompt message) = Ok body ->
    json_loads w body = Ok payload ->
    (content <- py_item payload "content" ;;
     first <- py_item0 content ;;
     py_item first "text")%res = Ok raw_content ->
    json_loads w raw_content = Raise e ->
    provider_call_fails w message e.

(** Three properties of a computation, from every start state: it leaves the
    count of fetcher calls alone; what it raises is an Exception; what it
    returns is a plan without an error or an error without a plan. *)
Definition keeps_fetcher_calls {A} (m : M A) : Prop :=
  forall st, fetcher_calls (fst (m st)) = fetcher_calls st.

Definition raises_Exceptions {A} (m : M A) : Prop :=
  forall st, raises_Exception (snd (m st)).

Definition plan_or_error (m : M (json * option pystr)) : Prop :=
  forall st,
    match snd (m st) with
    | Ok (plan, err) => err = None \/ plan = JNull
    | Raise _ => True
    end.

(** The four builders return for this plan. *)
Definition builders_succeed (w : world) (plan : json) (message : pystr) : Prop :=
  _build_report_pdf w plan = Ok tt
  /\ _build_ppt w plan = Ok tt
  /\ _build_patent_pdf w plan message = Ok tt
  /\ _build_certificates_zip w plan message = Ok tt.

(** *** Test doubles *)

(** The text [{"title": "T"}]. *)
Definition title_only_text : pystr :=
  lit "{" ++ [34%N] ++ lit "title" ++ [34%N] ++ lit ": "
  ++ [34%N] ++ lit "T" ++ [34%N] ++ lit "}".

(** A stand-in for [json.loads] that knows the two texts used below and
    rejects every other argument. *)
Definition stub_json_loads (raw : json) : result json :=
  match raw with
  | JStr s =>
      if str_eqb s (lit "{}") then Ok (JObj [])
      else if str_eqb s title_only_text
           then Ok (JObj [(lit "title", JStr (lit "T"))])
           else Raise (Exn OtherException
                         (lit "Expecting value: line 1 column 1 (char 0)"))
  | _ =>
      Raise (Exn TypeError
               (lit ("the JSON object must be str, bytes or bytearray, not "
                     ++ type_name raw)))
  end.

(** A process with the given globals and OpenAI client, no other SDK, and
    builders that succeed. *)
Definition stub_world (is_enabled : bool) (provider_name status_msg : string)
           (create : option (pystr -> pystr -> pystr -> result json)) : world :=
  {| AI_ENABLED := is_enabled;
     AI_PROVIDER := lit provider_name;
     AI_MODEL := lit "gpt-4o-mini";
     AI_STATUS_MSG := lit status_msg;
     client := create;
     genai := None;
     bedrock_client := None;
     json_loads := stub_json_loads;
     _build_report_pdf := fun _ => Ok tt;
     _build_ppt := fun _ => Ok tt;
     _build_patent_pdf := fun _ _ => Ok tt;
     _build_certificates_zip := fun _ _ => Ok tt |}.

(** The request to the provider times out. *)
Definition timeout_world : world :=
  stub_world true "openai" "OpenAI ready"
    (Some (fun _ _ _ => Raise (Exn OtherException (lit "Request timed out.")))).

(** The provider answers with the text [{}]. *)
Definition empty_object_world : world :=
  stub_world true "openai" "OpenAI ready" (Some (fun _ _ _ => Ok (JStr (lit "{}")))).

(** The provider answers with the text [{"title": "T"}]. *)
Definition titled_world : world :=
  stub_world true "openai" "OpenAI ready" (Some (fun _ _ _ => Ok (JStr title_only_text))).

(** The provider answers with a text that is not JSON. *)
Definition malformed_world : world :=
  stub_world true "openai" "OpenAI ready"
    (Some (fun _ _ _ => Ok (JStr (lit "Sure, here is the plan")))).

(** Gemini is selected and enabled, but the package is not there. *)
Definition missing_sdk_world : world :=
  stub_world true "gemini" "Gemini ready" None.

(** No credentials were found at start-up. *)
Definition disabled_world : world :=
  stub_world false "auto" "No AI credentials found; running in static mode" None.

Definition fresh : counters := {| fetcher_calls := 0; provider_calls := 0 |}.

Definition titled_plan : json :=
  match _normalize_plan (JObj [(lit "title", JStr (lit "T"))]) (lit "demo") with
  | Ok plan => plan
  | Raise _ => JNull
  end.

Definition one_request : counters := {| fetcher_calls := 1; provider_calls := 1 |}.

Definition no_request : counters := {| fetcher_calls := 1; provider_calls := 0 |}.

(** ** [_init_ai_provider]

    The environment, the optional packages as the imports of lines 27-41
    leave them, and the function, which reads and assigns the module
    globals. *)

(** [os.environ], read through [os.getenv]. *)
Definition environ := pystr -> option pystr.

(** [os.getenv(name)] *)
Definition getenv (env : environ) (name : string) : option pystr :=
  env (lit name).

(** [os.getenv(name, default)] *)
Definition getenv_default (env : environ) (name default : string) : pystr :=
  match env (lit name) with
  | Some v => v
  | None => lit default
  end.

(** [bool(v)] for what [os.getenv] returns: [None] and [""] count as
    false. *)
Definition is_set (v : option pystr) : bool :=
  match v with
  | Some (_ :: _) => true
  | _ => false
  end.

(** [a or b] on two such values. *)
Definition opt_or (a b : option pystr) : option pystr :=
  if is_set a then a else b.

(** The OpenAI / Azure client, as [world] keeps it. *)
Definition openai_client := pystr -> pystr -> pystr -> result json.

(** The Bedrock runtime client, as [world] keeps it. *)
Definition bedrock_runtime := pystr -> pystr -> result json.

(** The packages that the imports found. *)
Record packages := {
  (* [OpenAI(api_key=...)]; [None] when [openai] is not installed. *)
  OpenAI : option (pystr -> result openai_client);
  (* [AzureOpenAI(azure_endpoint=..., api_key=..., api_version=...)] *)
  AzureOpenAI : option (pystr -> pystr -> pystr -> result openai_client);
  (* [genai.configure(api_key=...)], for when [genai] is there. *)
  genai_configure : pystr -> result unit;
  (* [boto3.client(service)]; [None] when [boto3] is not installed. *)
  boto3 : option (pystr -> result bedrock_runtime)
}.

(** The globals that [_init_ai_provider] assigns, the rest of the world
    being kept. *)
Definition assign (w : world) (is_enabled : bool) (provider_name model_name
  status_msg : pystr) (cl : option openai_client) (bc : option bedrock_runtime)
  : world :=
  {| AI_ENABLED := is_enabled;
     AI_PROVIDER := provider_name;
     AI_MODEL := model_name;
     AI_STATUS_MSG := status_msg;
     client := cl;
     genai := genai w;
     bedrock_client := bc;
     json_loads := json_loads w;
     _build_report_pdf := _build_report_pdf w;
     _build_ppt := _build_ppt w;
     _build_patent_pdf := _build_patent_pdf w;
     _build_certificates_zip := _build_certificates_zip w |}.

(** [AI_STATUS_MSG = msg] *)
Definition set_status (w : world) (msg : pystr) : world :=
  assign w (AI_ENABLED w) (AI_PROVIDER w) (AI_MODEL w) msg
         (client w) (bedrock_client w).

(** [AI_PROVIDER = provider] *)
Definition set_provider (w : world) (provider_name : pystr) : world :=
  assign w (AI_ENABLED w) provider_name (AI_MODEL w) (AI_STATUS_MSG w)
         (client w) (bedrock_client w).

(** Lines 52-62: the provider that auto-detection finds, if any. *)
Definition auto_detect (env : environ) : option pystr :=
  if is_set (getenv env "AZURE_OPENAI_ENDPOINT")
     && is_set (getenv env "AZURE_OPENAI_API_KEY")
  then Some (lit "azure")
  else if is_set (getenv env "GEMINI_API_KEY") then Some (lit "gemini")
  else if is_set (getenv env "AWS_ACCESS_KEY_ID")
          || is_set (getenv env "AWS_SESSION_TOKEN")
  then Some (lit "bedrock")
  else if is_set (getenv env "OPENAI_API_KEY") then Some (lit "openai")
  else None.

(** Lines 65-131: the set-up of the selected provider. *)
Definition init_selected (env : environ) (pk : packages) (provider_name : pystr)
           (w : world) : result world :=
  if str_eqb provider_name (lit "openai") then
    match OpenAI pk with
    | None => Ok (set_status w (lit "openai package not installed"))
    | Some new_client =>
        match getenv env "OPENAI_API_KEY" with
        | Some (c :: k) =>
            (cl <- new_client (c :: k) ;;
             Ok (assign w true (AI_PROVIDER w) (AI_MODEL w) (lit "OpenAI ready")
                        (Some cl) (bedrock_client w)))%res
        | _ => Ok (set_status w (lit "OPENAI_API_KEY missing"))
        end
    end
  else if str_eqb provider_name (lit "azure") then
    match AzureOpenAI pk with
    | None => Ok (set_status w (lit "openai package (AzureOpenAI) not installed"))
    | Some new_client =>
        let endpoint := getenv env "AZURE_OPENAI_ENDPOINT" in
        let key := getenv env "AZURE_OPENAI_API_KEY" in
        let model_name :=
          opt_or (getenv env "AZURE_OPENAI_DEPLOYMENT")
                 (getenv env "AZURE_OPENAI_MODEL") in
        let api_version :=
          getenv_default env "AZURE_OPENAI_API_VERSION" "2024-02-01" in
        match endpoint, key, model_name with
        | Some (e :: ep), Some (c :: k), Some (m :: md) =>
            (cl <- new_client (e :: ep) (c :: k) api_version ;;
             Ok (assign w true (AI_PROVIDER w) (m :: md)
                        (lit "Azure OpenAI ready") (Some cl) (bedrock_client w)))%res
        | _, _, _ =>
            Ok (set_status w
                  (lit "Azure OpenAI env vars missing (endpoint/key/deployment)"))
        end
    end
  else if str_eqb provider_name (lit "gemini") then
    match genai w with
    | None => Ok (set_status w (lit "google-generativeai not installed"))
    | Some _ =>
        let model_name := getenv_default env "GEMINI_MODEL" "gemini-1.5-flash" in
        match getenv env "GEMINI_API_KEY" with
        | Some (c :: k) =>
            (_ <- genai_configure pk (c :: k) ;;
             Ok (assign w true (AI_PROVIDER w) model_name (lit "Gemini ready")
                        (client w) (bedrock_client w)))%res
        | _ => Ok (set_status w (lit "GEMINI_API_KEY missing"))
        end
    end
  else if str_eqb provider_name (lit "bedrock") then
    match boto3 pk with
    | None => Ok (set_status w (lit "boto3 not installed for Bedrock"))
    | Some new_client =>
        let model_name :=
          getenv_default env "AWS_BEDROCK_MODEL"
                         "anthropic.claude-3-haiku-20240307-v1:0" in
        match new_client (lit "bedrock-runtime") with
        | Ok bc =>
            Ok (assign w true (AI_PROVIDER w) model_name (lit "AWS Bedrock ready")
                       (client w) (Some bc))
        | Raise exc =>
            if is_Exception exc
            then Ok (set_status w (lit "Bedrock init error: " ++ exn_str exc))
            else Raise exc
        end
    end
  else
    Ok (set_status w (lit "Unknown AI_PROVIDER '" ++ provider_name ++ lit "'")).

Definition _init_ai_provider (env : environ) (pk : packages) (w : world)
  : result world :=
  if str_eqb (AI_PROVIDER w) (lit "auto") then
    match auto_detect env with
    | Some provider_name =>
        init_selected env pk provider_name (set_provider w provider_name)
    | None =>
        Ok (set_status w (lit "No AI credentials found; running in static mode"))
    end
  else init_selected env pk (AI_PROVIDER w) w.

(** The globals as lines 19-25 leave them, before [_init_ai_provider] runs:
    the provider setting is [AI_PROVIDER] (lower-cased), the model is
    [OPENAI_MODEL] or its default. *)
Definition module_globals (env : environ) (provider_setting : pystr) (w : world)
  : world :=
  assign w false provider_setting
         (getenv_default env "OPENAI_MODEL" "gpt-4o-mini")
         (lit "AI not initialized") None None.

(** ** [status] (lines 477-485) *)

Record status_body := {
  sb_ai_enabled : bool;
  sb_provider : pystr;
  sb_model : pystr;
  sb_message : pystr
}.

Definition status_route (w : world) : status_body :=
  let msg :=
    if negb (is_nil (AI_STATUS_MSG w)) then AI_STATUS_MSG w
    else if AI_ENABLED w then lit "AI ready" else lit "AI disabled" in
  {| sb_ai_enabled := AI_ENABLED w;
     sb_provider := AI_PROVIDER w;
     sb_model := AI_MODEL w;
     sb_message := msg |}.

(** *** Environments and packages for the examples *)

(** One variable of an environment. *)
Definition var (name value : string) : string * string := (name, value).

(** An environment given by its list of variables. *)
Fixpoint environ_of (vars : list (string * string)) : environ :=
  fun name =>
    match vars with
    | [] => None
    | (k, v) :: rest =>
        if str_eqb (lit k) name then Some (lit v) else environ_of rest name
    end.

(** A client whose every request times out. *)
Definition timeout_client : openai_client :=
  fun _ _ _ => Raise (Exn OtherException (lit "Request timed out.")).

(** Every package is installed and every constructor returns. *)
Definition all_packages : packages :=
  {| OpenAI := Some (fun _ => Ok timeout_client);
     AzureOpenAI := Some (fun _ _ _ => Ok timeout_client);
     genai_configure := fun _ => Ok tt;
     boto3 := Some (fun _ =>
                      Ok (fun _ _ =>
                            Raise (Exn OtherException (lit "Request timed out.")))) |}.


(** The module before [_init_ai_provider], with [AI_PROVIDER] unset. *)
Definition unconfigured (env : environ) : world :=
  module_globals env (lit "auto") disabled_world.

(** Azure's endpoint and key without a deployment, beside an OpenAI key. *)
Definition azure_half_set : environ :=
  environ_of [var "AZURE_OPENAI_ENDPOINT" "https://example.openai.azure.com";
              var "AZURE_OPENAI_API_KEY" "k1";
              var "OPENAI_API_KEY" "k2"].

(** Everything Azure needs, beside a Gemini and an OpenAI key. *)
Definition azure_full : environ :=
  environ_of [var "OPENAI_API_KEY" "k2";
              var "GEMINI_API_KEY" "k3";
              var "AZURE_OPENAI_ENDPOINT" "https://example.openai.azure.com";
              var "AZURE_OPENAI_API_KEY" "k1";
              var "AZURE_OPENAI_DEPLOYMENT" "gpt-4o"].


(** No variable at all. *)
Definition empty_environ : environ := environ_of [].

(** [_init_ai_provider] on the unconfigured module with every package, or
    the module as it was when the function raises. *)
Definition started (env : environ) : world :=
  match _init_ai_provider env all_packages (unconfigured env) with
  | Ok w => w
  | Raise _ => unconfigured env
  end.

(** Two more properties of a computation, from every start state: it makes
    no request to a provider; it makes exactly one. *)
Definition keeps_provider_calls {A} (m : M A) : Prop :=
  forall st, provider_calls (fst (m st)) = provider_calls st.

Definition one_provider_call {A} (m : M A) : Prop :=
  forall st, provider_calls (fst (m st)) = S (provider_calls st).

(** The four messages of a start-up that enabled a provider. *)
Definition ready_message (msg : pystr) : bool :=
  str_eqb msg (lit "OpenAI ready")
  || str_eqb msg (lit "Azure OpenAI ready")
  || str_eqb msg (lit "Gemini ready")
  || str_eqb msg (lit "AWS Bedrock ready").

(** The input has at least one section to iterate over (for an object whose
    [sections] is a list). *)
Definition has_sections (plan : json) : bool :=
  match plan with
  | JObj d =>
      match dict_field d (lit "sections") (JList []) with
      | JList (_ :: _) => true
      | _ => false
      end
  | _ => false
  end.

(** A string that does not start with whitespace. *)
Definition starts_clean (s : pystr) : bool :=
  match s with
  | [] => true
  | c :: _ => negb (is_space c)
  end.

(** The file name as the f-string of line 153 prints it. *)
Definition printed_filename (f : upload) : pystr :=
  match filename f with
  | Some n => n
  | None => lit "None"
  end.

(** An input without sections and without summary. *)
Definition title_only : json := JObj [(lit "title", JStr (lit "T"))].

(** An upload whose file name ends with a space. *)
Definition spaced_upload : upload := {| filename := Some (lit "notes.txt ") |}.

(** ** The document builders (lines 289-403)

    The builders drive reportlab, zipfile and python-pptx.  A run is modelled
    by the calls it makes on them, in order, each of which may raise;
    [textwrap.wrap] and [str] of a value that is not a string are taken as
    given.  One canvas, zip file or presentation is open at a time, so the
    calls do not name it. *)

Module Render.

Inductive call :=
| NewCanvas (path : pystr)                 (* canvas.Canvas(path, pagesize=LETTER) *)
| SetFont (name : pystr) (size : Z)        (* c.setFont(name, size) *)
| DrawString (x y : Z) (text : json)       (* c.drawString(x, y, text) *)
| ShowPage                                 (* c.showPage() *)
| Save                                     (* c.save() *)
| ZipOpen (path : pystr)                   (* zipfile.ZipFile(path, "w") *)
| ZipWrite (path name : pystr)             (* zipf.write(path, name) *)
| ZipClose                                 (* leaving the [with] block *)
| NewPresentation                          (* Presentation() *)
| AddSlide (layout : Z)                    (* prs.slides.add_slide(prs.slide_layouts[layout]) *)
| SetTitle (text : json)                   (* slide.shapes.title.text = text *)
| SetSubtitle (text : json)                (* slide.placeholders[1].text = text *)
| SetSubtitleSize (points : Z)             (* ...paragraphs[0].font.size = Pt(points) *)
| ClearText                                (* tf.clear() *)
| AddParagraph (text : json) (level : Z)   (* p = tf.add_paragraph(); p.text; p.level *)
| SavePresentation (path : pystr).         (* prs.save(path) *)

(** A computation that makes calls: the calls so far, and a result. *)
Definition R (A : Type) : Type := list call -> list call * result A.

Definition rret {A} (a : A) : R A := fun log => (log, Ok a).

Definition rlift {A} (r : result A) : R A := fun log => (log, r).

Definition rthen {A B} (m : R A) (k : A -> R B) : R B :=
  fun log =>
    match m log with
    | (log', Ok a) => k a log'
    | (log', Raise e) => (log', Raise e)
    end.

Declare Scope r_scope.
Delimit Scope r_scope with r.
Notation "x <- c ;; k" := (rthen c (fun x => k))
  (at level 61, c at next level, right associativity) : r_scope.
Local Open Scope r_scope.

(** [for a in items: s = body(s, a)] *)
Fixpoint for_each {A S} (items : list A) (body : S -> A -> R S) (s : S) : R S :=
  match items with
  | [] => rret s
  | a :: rest => s' <- body s a ;; for_each rest body s'
  end.

(** [str(n)] for a number of a loop. *)
Definition decimal (n : nat) : pystr :=
  lit (NilEmpty.string_of_uint (Nat.to_uint n)).

Section Collaborators.

(** Whether a call raises, given the calls before it. *)
Variable library : list call -> call -> option exn.

(** [textwrap.wrap(text, width=width)] *)
Variable textwrap_wrap : json -> Z -> result (list pystr).

(** [str(v)] for a value that is not a string. *)
Variable str_other : json -> pystr.

(** [str(FILES_DIR)], the directory of the generated files. *)
Variable FILES_DIR : pystr.

(** One call on a library. *)
Definition emit (c : call) : R unit :=
  fun log =>
    (log ++ [c],
     match library log c with
     | None => Ok tt
     | Some e => Raise e
     end).

(** A value inside an f-string. *)
Definition fstr (v : json) : pystr :=
  match v with
  | JStr s => s
  | _ => str_other v
  end.

Definition _wrap_lines (text : json) (width : Z) : result (list pystr) :=
  if truthy text then textwrap_wrap text width else Ok [].

Definition _draw_header (title : json) : R Z :=
  _ <- emit (SetFont (lit "Helvetica-Bold") 20) ;;
  _ <- emit (DrawString 60 770 title) ;;
  _ <- emit (SetFont (lit "Helvetica") 11) ;;
  rret 740%Z.

(** The lines of one text, from [y] downwards (the loops of lines 301-303,
    323-325 and 349-351). *)
Definition draw_lines (x step : Z) (lines : list pystr) (y : Z) : R Z :=
  for_each lines
           (fun y line => _ <- emit (DrawString x y (JStr line)) ;; rret (y - step)%Z)
           y.

Definition _draw_paragraph (text : json) (y : Z) (width : Z) : R Z :=
  lines <- rlift (_wrap_lines text width) ;;
  draw_lines 60 16 lines y.

(** The bullet sign and a space. *)
Definition bullet_mark : pystr := [8226%N; 32%N].

(** The body of the loop over the bullets (lines 323-325). *)
Definition draw_bullet (y : Z) (bullet : json) : R Z :=
  lines <- rlift (_wrap_lines (JStr (bullet_mark ++ fstr bullet)) 90) ;;
  draw_lines 70 14 lines y.

(** The body of the loop over the sections (lines 310-326). *)
Definition draw_section (y : Z) (section : json) : R Z :=
  heading <- rlift (py_item section "heading") ;;
  bullets <- rlift (py_item section "bullets") ;;
  y <- (if (y <? 120)%Z
        then _ <- emit ShowPage ;;
             _draw_header (JStr (lit "ASTHRA Report (cont.)"))
        else rret y) ;;
  _ <- emit (SetFont (lit "Helvetica-Bold") 13) ;;
  _ <- emit (DrawString 60 y heading) ;;
  _ <- emit (SetFont (lit "Helvetica") 11) ;;
  items <- rlift (py_iter bullets) ;;
  y <- for_each items draw_bullet (y - 18)%Z ;;
  rret (y - 6)%Z.

Definition _draw_sections (sections : json) (start_y : Z) : R unit :=
  items <- rlift (py_iter sections) ;;
  _ <- for_each items draw_section start_y ;;
  rret tt.

Definition _build_report_pdf (plan : json) (path : pystr) : R unit :=
  _ <- emit (NewCanvas path) ;;
  title <- rlift (py_item plan "title") ;;
  y <- _draw_header title ;;
  _ <- emit (SetFont (lit "Helvetica") 11) ;;
  summary <- rlift (py_item plan "summary") ;;
  y <- _draw_paragraph summary y 90 ;;
  sections <- rlift (py_item plan "sections") ;;
  _ <- _draw_sections sections (y - 4)%Z ;;
  emit Save.

(** The body of the loop over the claims (lines 349-351), [idx] being the
    number of the claim. *)
Definition draw_claim (state : nat * Z) (claim : json) : R (nat * Z) :=
  let '(idx, y) := state in
  lines <- rlift (_wrap_lines (JStr (decimal idx ++ lit ". " ++ fstr claim)) 90) ;;
  y <- draw_lines 70 14 lines y ;;
  rret (S idx, y).

Definition _build_patent_pdf (plan : json) (message : pystr) (path : pystr)
  : R unit :=
  _ <- emit (NewCanvas path) ;;
  y <- _draw_header (JStr (lit "ASTHRA Patent Draft")) ;;
  _ <- emit (SetFont (lit "Helvetica") 11) ;;
  y <- _draw_paragraph (JStr (lit "Based on: " ++ message)) y 90 ;;
  _ <- emit (SetFont (lit "Helvetica-Bold") 13) ;;
  _ <- emit (DrawString 60 y (JStr (lit "Claims"))) ;;
  _ <- emit (SetFont (lit "Helvetica") 11) ;;
  claims <- rlift (py_item plan "claims") ;;
  items <- rlift (py_iter claims) ;;
  _ <- for_each items draw_claim (1, (y - 18)%Z) ;;
  emit Save.

(** The body of the loop of lines 358-367. *)
Definition build_certificate (plan : json) (message : pystr) (_ : unit) (i : nat)
  : R unit :=
  let name := lit "certificate_" ++ decimal i ++ lit ".pdf" in
  let cert_pdf := FILES_DIR ++ lit "/" ++ name in
  _ <- emit (NewCanvas cert_pdf) ;;
  _ <- emit (SetFont (lit "Helvetica-Bold") 20) ;;
  _ <- emit (DrawString 120 720 (JStr (lit "Certificate #" ++ decimal i))) ;;
  _ <- emit (SetFont (lit "Helvetica") 12) ;;
  _ <- emit (DrawString 120 690 (JStr (lit "For project: " ++ message))) ;;
  note <- rlift (py_item plan "certificate_note") ;;
  _ <- emit (DrawString 120 670 note) ;;
  _ <- emit Save ;;
  emit (ZipWrite cert_pdf name).

(** [with zipfile.ZipFile(path, "w") as zipf: body]: the file is closed on
    the way out, also when the body raises. *)
Definition with_zip (path : pystr) (body : R unit) : R unit :=
  _ <- emit (ZipOpen path) ;;
  fun log =>
    match body log with
    | (log', Ok _) => emit ZipClose log'
    | (log', Raise e) =>
        match emit ZipClose log' with
        | (log'', Ok _) => (log'', Raise e)
        | (log'', Raise e') => (log'', Raise e')
        end
    end.

Definition _build_certificates_zip (plan : json) (message : pystr) (path : pystr)
  : R unit :=
  with_zip path (for_each [1; 2; 3] (build_certificate plan message) tt).

(** The body of the loops of lines 388-391 and 398-401. *)
Definition add_bullet (_ : unit) (text : json) : R unit :=
  emit (AddParagraph text 0).

(** The body of the loop over the sections (lines 384-391). *)
Definition add_section_slide (_ : unit) (section : json) : R unit :=
  _ <- emit (AddSlide 1) ;;
  heading <- rlift (py_item section "heading") ;;
  _ <- emit (SetTitle heading) ;;
  _ <- emit ClearText ;;
  bullets <- rlift (py_item section "bullets") ;;
  items <- rlift (py_iter bullets) ;;
  for_each items add_bullet tt.

Definition _build_ppt (plan : json) (path : pystr) : R unit :=
  _ <- emit NewPresentation ;;
  _ <- emit (AddSlide 0) ;;
  title <- rlift (py_item plan "title") ;;
  _ <- emit (SetTitle title) ;;
  summary <- rlift (py_item plan "summary") ;;
  _ <- emit (SetSubtitle summary) ;;
  _ <- emit (SetSubtitleSize 18) ;;
  sections <- rlift (py_item plan "sections") ;;
  items <- rlift (py_iter sections) ;;
  _ <- for_each items add_section_slide tt ;;
  _ <- emit (AddSlide 1) ;;
  _ <- emit (SetTitle (JStr (lit "Patent-style Claims"))) ;;
  _ <- emit ClearText ;;
  claims <- rlift (py_item plan "claims") ;;
  citems <- rlift (py_iter claims) ;;
  _ <- for_each citems add_bullet tt ;;
  emit (SavePresentation path).

End Collaborators.

(** The calls that a computation adds satisfy [Q], each of them, and the
    value it returns, if it returns, satisfies [P]. *)
Definition emits_with (Q : call -> Prop) {A} (P : A -> Prop) (m : R A) : Prop :=
  forall log,
    exists added,
      fst (m log) = log ++ added
      /\ Forall Q added
      /\ match snd (m log) with
         | Ok a => P a
         | Raise _ => True
         end.

Definition emits_only (Q : call -> Prop) {A} (m : R A) : Prop :=
  emits_with Q (fun _ : A => True) m.

(** How many of the calls are [c.showPage()], and how many add a slide. *)
Definition page_breaks (calls : list call) : nat :=
  List.length (filter (fun c => match c with ShowPage => true | _ => false end) calls).

Definition slides (calls : list call) : nat :=
  List.length (filter (fun c => match c with AddSlide _ => true | _ => false end) calls).

(** The calls that add a slide or set the title of one, in order: the
    slides of the presentation, each with its layout and its title. *)
Definition slide_marks (calls : list call) : list call :=
  filter (fun c => match c with AddSlide _ | SetTitle _ => true | _ => false end)
         calls.

(** A computation adds at most [n] page breaks. *)
Definition breaks_at_most (n : nat) {A} (m : R A) : Prop :=
  forall log, exists added, fst (m log) = log ++ added /\ page_breaks added <= n.

(** A computation that returns has added exactly [n] slides. *)
Definition adds_slides (n : nat) {A} (m : R A) : Prop :=
  forall log log' a,
    m log = (log', Ok a) ->
    exists added, log' = log ++ added /\ slides added = n.

(** The calls that draw [lines] at [x], from [y] downwards by [step]. *)
Fixpoint drawn (x step : Z) (lines : list pystr) (y : Z) : list call :=
  match lines with
  | [] => []
  | line :: rest => DrawString x y (JStr line) :: drawn x step rest (y - step)%Z
  end.

(** The names under which files were added to the zip file. *)
Definition zip_entries (calls : list call) : list pystr :=
  flat_map (fun c => match c with ZipWrite _ name => [name] | _ => [] end) calls.

(** A computation that returns has added these entries to the zip file. *)
Definition writes_entries (names : list pystr) {A} (m : R A) : Prop :=
  forall log log' a,
    m log = (log', Ok a) ->
    exists added, log' = log ++ added /\ zip_entries added = names.

(** A string at the left margin is not below the bottom margin. *)
Definition heading_in_page (c : call) : Prop :=
  match c with
  | DrawString 60 y _ => (120 <= y)%Z
  | _ => True
  end.

End Render.

(** *** Stand-ins for the libraries *)

(** No call raises. *)
Definition quiet_library : list Render.call -> Render.call -> option exn :=
  fun _ _ => None.

(** [textwrap.wrap] on a short text: the text as its one line. *)
Definition one_line : json -> Z -> result (list pystr) :=
  fun text _ =>
    match text with
    | JStr s => Ok [s]
    | _ => Raise (no_attribute text "expandtabs")
    end.

(** A stand-in for [str] on what is not a string. *)
Definition plain_str : json -> pystr := fun _ => lit "?".

(** One section, with one bullet. *)
Definition one_section : json :=
  JList [JObj [(lit "heading", JStr (lit "H"));
               (lit "bullets", JList [JStr (lit "a")])]].

(** A section whose bullets are one string instead of a list of strings. *)
Definition string_bullets : json :=
  JObj [(lit "heading", JStr (lit "H")); (lit "bullets", JStr (lit "a b"))].

Arguments lit : simpl never.

(** * Properties *)

(** ** Strings *)

Lemma str_eqb_refl (a : pystr) : str_eqb a a = true.
Proof.
  induction a as [|x a IH]; simpl; [reflexivity|].
  now rewrite N.eqb_refl, IH.
Qed.

Lemma str_eqb_eq (a b : pystr) : str_eqb a b = true <-> a = b.
Proof.
  split.
  - revert b; induction a as [|x a IH]; intros [|y b]; simpl; try discriminate; auto.
    intros H. apply andb_true_iff in H as [Hx Hr].
    apply N.eqb_eq in Hx. f_equal; auto.
  - intros ->. apply str_eqb_refl.
Qed.

Lemma is_nil_rev {A} (l : list A) : is_nil (rev l) = is_nil l.
Proof.
  destruct l as [|a l]; [reflexivity|]. simpl.
  destruct (rev l); reflexivity.
Qed.

Lemma is_nil_lstrip (s : pystr) : is_nil (lstrip s) = blank s.
Proof.
  induction s as [|c s IH]; [reflexivity|]. simpl.
  destruct (is_space c); simpl; auto.
Qed.

Lemma blank_lstrip (s : pystr) : blank (lstrip s) = blank s.
Proof.
  induction s as [|c s IH]; [reflexivity|]. simpl.
  destruct (is_space c) eqn:E; simpl; [assumption|].
  now rewrite E.
Qed.

Lemma blank_rev (s : pystr) : blank (rev s) = blank s.
Proof.
  unfold blank. induction s as [|c s IH]; [reflexivity|]. simpl.
  rewrite forallb_app, IH. simpl. rewrite andb_true_r. apply andb_comm.
Qed.

(** [strip] empties exactly the blank strings. *)
Lemma is_nil_strip (s : pystr) : is_nil (strip s) = blank s.
Proof.
  unfold strip, rstrip.
  now rewrite is_nil_rev, is_nil_lstrip, blank_rev, blank_lstrip.
Qed.

Lemma trimmed_spec (s : pystr) :
  trimmed s = true -> strip s = s /\ blank s = false.
Proof.
  unfold trimmed. intros H. apply andb_true_iff in H as [Hn He].
  apply str_eqb_eq in He. split; [assumption|].
  rewrite <- is_nil_strip, He. now destruct s.
Qed.

(** ** The comprehension *)

(** On strings the comprehension drops the blank ones and trims the rest. *)
Lemma clean_strings (l : list pystr) :
  clean (map JStr l)
  = Ok (map JStr (map strip (filter (fun s => negb (blank s)) l))).
Proof.
  induction l as [|s l IH]; [reflexivity|].
  simpl. rewrite is_nil_strip.
  destruct (blank s); simpl; rewrite IH; reflexivity.
Qed.

Lemma clean_trimmed (l : list pystr) :
  forallb trimmed l = true -> clean (map JStr l) = Ok (map JStr l).
Proof.
  intros H. rewrite clean_strings. do 2 f_equal.
  induction l as [|s l IH]; [reflexivity|].
  simpl in H. apply andb_true_iff in H as [Hs Hl].
  apply trimmed_spec in Hs as [Hs Hb].
  simpl. rewrite Hb. simpl. now rewrite Hs, IH.
Qed.

(** The first entry that is not a string makes the comprehension raise. *)
Lemma clean_non_string (pre : list pystr) (v : json) (rest : list json) :
  is_str v = false ->
  clean (map JStr pre ++ v :: rest) = Raise (no_attribute v "strip").
Proof.
  intros Hv. induction pre as [|s pre IH].
  - destruct v; try discriminate; reflexivity.
  - simpl. destruct (is_nil (strip s)); simpl; rewrite IH; reflexivity.
Qed.

Lemma strings_of (l : list json) :
  forallb is_str l = true -> exists l', l = map JStr l'.
Proof.
  induction l as [|v l IH]; intros H.
  - now exists [].
  - simpl in H. apply andb_true_iff in H as [Hv Hl].
    destruct (IH Hl) as [l' ->].
    destruct v; try discriminate. now exists (s :: l').
Qed.

Lemma mapM_Forall2 {A B} (f : A -> result B) (l : list A) (l' : list B) :
  mapM f l = Ok l' -> Forall2 (fun a b => f a = Ok b) l l'.
Proof.
  revert l'; induction l as [|a l IH]; intros l' H; simpl in H.
  - injection H as <-. constructor.
  - destruct (f a) as [b|e] eqn:Ea; [|discriminate]. simpl in H.
    destruct (mapM f l) as [bs|e] eqn:El; [|discriminate]. simpl in H.
    injection H as <-. constructor; auto.
Qed.

Lemma mapM_is_nil {A B} (f : A -> result B) (l : list A) (l' : list B) :
  mapM f l = Ok l' -> is_nil l' = is_nil l.
Proof.
  intros H. apply mapM_Forall2 in H. now destruct H.
Qed.

(** ** What a successful run of the normalizer did *)

Lemma normalize_section_inv (section out : json) :
  normalize_section section = Ok out ->
  exists h kept,
    py_get section (lit "heading") JNull = Ok h
    /\ cleaned_bullets section = Ok kept
    /\ out = JObj [(lit "heading", py_or h (JStr (lit "Section")));
                   (lit "bullets",
                    py_or (JList kept) (JList [JStr (lit "Details pending.")]))].
Proof.
  unfold normalize_section. intros H.
  destruct (py_get section (lit "heading") JNull) as [h|e]; [|discriminate].
  simpl in H.
  destruct (cleaned_bullets section) as [kept|e]; [|discriminate].
  simpl in H. injection H as <-.
  exists h, kept. auto.
Qed.

Lemma normalize_plan_inv (plan out : json) (msg : pystr) :
  _normalize_plan plan msg = Ok out ->
  exists d secs_in secs_out citems cleaned,
    plan = JObj d
    /\ py_iter (dict_field d (lit "sections") (JList [])) = Ok secs_in
    /\ mapM normalize_section secs_in = Ok secs_out
    /\ py_iter (dict_field d (lit "claims") (JList [])) = Ok citems
    /\ clean citems = Ok cleaned
    /\ let summary :=
         py_or (dict_field d (lit "summary") JNull)
               (JStr (lit "Generated documentation for: " ++ msg)) in
       out =
       JObj [(lit "title",
              py_or (dict_field d (lit "title") JNull)
                    (JStr (lit "ASTHRA Project Documentation")));
             (lit "summary", summary);
             (lit "sections",
              JList (if is_nil secs_out
                     then [JObj [(lit "heading", JStr (lit "Overview"));
                                 (lit "bullets", JList [summary])]]
                     else secs_out));
             (lit "claims",
              py_or (JList cleaned)
                    (JList [JStr (lit "Automated documentation generation based on user input.")]));
             (lit "certificate_note",
              py_or (dict_field d (lit "certificate_note") JNull)
                    (JStr (lit "Generated via ASTHRA.")))].
Proof.
  intros H. destruct plan; try discriminate.
  unfold _normalize_plan in H. simpl in H.
  destruct (py_iter (dict_field d (lit "sections") (JList [])))
    as [secs_in|e] eqn:Es; [|discriminate].
  simpl in H.
  destruct (mapM normalize_section secs_in) as [secs_out|e] eqn:Em; [|discriminate].
  simpl in H.
  destruct (py_iter (dict_field d (lit "claims") (JList [])))
    as [citems|e] eqn:Ec; [|discriminate].
  simpl in H.
  destruct (clean citems) as [cleaned|e] eqn:Ek; [|discriminate].
  simpl in H. injection H as <-.
  exists d, secs_in, secs_out, citems, cleaned. repeat split; auto.
Qed.

Lemma py_or_list (kept : list json) (default : json) :
  py_or (JList kept) (JList [default])
  = JList (if is_nil kept then [default] else kept).
Proof. destruct kept; reflexivity. Qed.

(** ** Inputs of the expected types *)

Lemma or_default_str (v : json) (default : pystr) :
  str_or_falsy v = true -> is_nil default = false ->
  exists s, py_or v (JStr default) = JStr s /\ is_nil s = false.
Proof.
  unfold str_or_falsy, py_or. intros Hv Hd.
  destruct (truthy v) eqn:Et.
  - rewrite orb_false_r in Hv. destruct v; try discriminate.
    exists s. split; [reflexivity|]. simpl in Et. now destruct s.
  - now exists default.
Qed.

Lemma field_str_or_falsy (d : list (pystr * json)) (key : string) :
  absent_or str_or_falsy d key = true ->
  str_or_falsy (dict_field d (lit key) JNull) = true.
Proof.
  unfold absent_or, dict_field. now destruct (dict_get d (lit key)).
Qed.

Lemma field_strings (d : list (pystr * json)) (key : string) :
  absent_or (list_of is_str) d key = true ->
  exists l, dict_field d (lit key) (JList []) = JList (map JStr l).
Proof.
  unfold absent_or, dict_field. destruct (dict_get d (lit key)) as [v|].
  - destruct v; try discriminate. simpl. intros H.
    destruct (strings_of _ H) as [l' ->]. now exists l'.
  - intros _. now exists [].
Qed.

Lemma expected_section_ok (section : json) :
  expected_section section = true ->
  exists ps, normalize_section section = Ok (section_json ps)
             /\ is_nil (sec_bullets ps) = false.
Proof.
  destruct section; try discriminate. simpl. intros H.
  apply andb_true_iff in H as [Hh Hb].
  apply field_str_or_falsy in Hh.
  destruct (or_default_str _ (lit "Section") Hh eq_refl) as (h & Eh & Hn).
  destruct (field_strings _ _ Hb) as (bs & Ebs).
  unfold normalize_section, cleaned_bullets. simpl.
  rewrite Eh, Ebs. simpl. rewrite clean_strings. simpl.
  rewrite py_or_list.
  set (kept := map strip (filter (fun s => negb (blank s)) bs)).
  exists {| sec_heading := h;
            sec_bullets := if is_nil kept then [lit "Details pending."] else kept |}.
  unfold section_json. simpl. split.
  - do 4 f_equal. destruct kept; reflexivity.
  - destruct kept; reflexivity.
Qed.

Lemma expected_sections_ok (l : list json) :
  forallb expected_section l = true ->
  exists pss,
    mapM normalize_section l = Ok (map section_json pss)
    /\ forallb (fun s => negb (is_nil (sec_bullets s))) pss = true
    /\ is_nil pss = is_nil l.
Proof.
  induction l as [|sec l IH]; intros H.
  - now exists [].
  - simpl in H. apply andb_true_iff in H as [Hs Hl].
    destruct (expected_section_ok _ Hs) as (ps & Eps & Hps).
    destruct (IH Hl) as (pss & Epss & Hall & _).
    exists (ps :: pss). simpl. rewrite Eps. simpl. rewrite Epss. simpl.
    rewrite Hps, Hall. auto.
Qed.

Lemma field_sections (d : list (pystr * json)) :
  absent_or (list_of expected_section) d "sections" = true ->
  exists l, dict_field d (lit "sections") (JList []) = JList l
            /\ forallb expected_section l = true.
Proof.
  unfold absent_or, dict_field. destruct (dict_get d (lit "sections")) as [v|].
  - destruct v; try discriminate. simpl. intros H. now exists l.
  - intros _. now exists [].
Qed.

(** C1 (as the code has it): on a JSON object whose title, summary,
    certificate note and headings are strings or values that count as false
    (absent, null, 0, empty), whose sections are absent or a list of objects
    and whose bullets and claims are absent or lists of strings,
    [_normalize_plan] raises nothing and returns a plan that satisfies the
    DocumentationPlan invariants. *)
Theorem normalize_expected_plan (plan : json) (fallback_message : pystr) :
  expected_plan plan = true ->
  exists p : DocumentationPlan,
    _normalize_plan plan fallback_message = Ok (plan_json p)
    /\ plan_invariants p = true.
Proof.
  destruct plan; try discriminate. simpl. intros H.
  repeat (apply andb_true_iff in H as [H ?]).
  repeat match goal with
         | Hf : absent_or str_or_falsy _ _ = true |- _ =>
             apply field_str_or_falsy in Hf
         end.
  destruct (or_default_str _ (lit "ASTHRA Project Documentation") H eq_refl)
    as (title & Et & Htitle).
  destruct (or_default_str
              (dict_field d (lit "summary") JNull)
              (lit "Generated documentation for: " ++ fallback_message))
    as (summary & Es & Hsummary); [assumption|reflexivity|].
  destruct (or_default_str _ (lit "Generated via ASTHRA.") H0 eq_refl)
    as (note & En & Hnote).
  destruct (field_sections _ H2) as (secs & Esecs & Hsecs).
  destruct (expected_sections_ok _ Hsecs) as (pss & Epss & Hall & Hnil).
  destruct (field_strings _ _ H1) as (cl & Ecl).
  set (kept := map strip (filter (fun s => negb (blank s)) cl)).
  exists {| dp_title := title;
            dp_summary := summary;
            dp_sections :=
              if is_nil pss
              then [{| sec_heading := lit "Overview"; sec_bullets := [summary] |}]
              else pss;
            dp_claims :=
              if is_nil kept
              then [lit "Automated documentation generation based on user input."]
              else kept;
            dp_certificate_note := note |}.
  split.
  - unfold _normalize_plan, py_get. cbn [rbind].
    rewrite Et, Es, En, Esecs, Ecl. cbn [rbind py_iter].
    rewrite Epss. cbn [rbind]. rewrite clean_strings. cbn [rbind].
    fold kept. rewrite py_or_list.
    unfold plan_json. cbn [dp_title dp_summary dp_sections dp_claims dp_certificate_note].
    destruct pss, kept; reflexivity.
  - unfold plan_invariants. simpl.
    rewrite Htitle, Hsummary, Hnote. simpl.
    destruct pss as [|ps pss]; simpl.
    + now destruct kept.
    + simpl in Hall. rewrite Hall. now destruct kept.
Qed.

Lemma normalize_expected_plan_witness :
  expected_plan sparse_plan = true
  /\ exists p : DocumentationPlan,
       _normalize_plan sparse_plan (lit "demo") = Ok (plan_json p)
       /\ plan_invariants p = true.
Proof.
  split; [reflexivity|].
  apply (normalize_expected_plan sparse_plan (lit "demo")). reflexivity.
Defined.

(** C1 as stated fails: on [None] and on a JSON value that is not an object
    [_normalize_plan] raises AttributeError, for want of a [get]. *)
Lemma normalize_not_total :
  _normalize_plan JNull (lit "demo") = Raise (no_attribute JNull "get")
  /\ _normalize_plan (JList [JInt 1]) (lit "demo")
     = Raise (no_attribute (JList [JInt 1]) "get").
Proof. split; reflexivity. Qed.

(** C4: a number among the claims, or among a section's bullets, passes the
    filter [str(b).strip()] and then has no [strip]: the call raises
    AttributeError instead of returning the entry as a string. *)
Theorem normalize_number_entry_raises :
  _normalize_plan (JObj [(lit "claims", JList [JInt 1])]) (lit "demo")
  = Raise (no_attribute (JInt 1) "strip")
  /\ _normalize_plan
       (JObj [(lit "sections",
               JList [JObj [(lit "heading", JStr (lit "H"));
                            (lit "bullets", JList [JStr (lit "a"); JInt 2])]])])
       (lit "demo")
     = Raise (no_attribute (JInt 2) "strip").
Proof. split; reflexivity. Qed.

(** ** Sections are kept *)

Lemma sections_of_output (plan out : json) (msg : pystr) (secs_in : list json) :
  _normalize_plan plan msg = Ok out ->
  (secs <- py_get plan (lit "sections") (JList []) ;; py_iter secs)%res = Ok secs_in ->
  exists summary secs_out,
    py_item out "summary" = Ok summary
    /\ py_item out "sections"
       = Ok (JList (if is_nil secs_in
                    then [JObj [(lit "heading", JStr (lit "Overview"));
                                (lit "bullets", JList [summary])]]
                    else secs_out))
    /\ Forall2 (fun sec o => normalize_section sec = Ok o) secs_in secs_out.
Proof.
  intros H Hin.
  destruct (normalize_plan_inv _ _ _ H)
    as (d & secs_in' & secs_out & citems & cleaned & -> & Es & Em & _ & _ & ->).
  unfold py_get in Hin. cbn [rbind] in Hin. rewrite Es in Hin.
  injection Hin as <-.
  eexists. exists secs_out. split; [reflexivity|]. split.
  - rewrite <- (mapM_is_nil _ _ _ Em). reflexivity.
  - now apply mapM_Forall2.
Qed.

(** C3 (as the code has it): bullets made of whitespace only are dropped and
    the others trimmed; a section is never removed: every section of the input
    has its section in the output, in order, and one left without bullets
    gets the bullet "Details pending.". *)
Theorem blank_bullets_dropped_section_kept
        (plan out : json) (msg : pystr) (secs_in : list json) :
  _normalize_plan plan msg = Ok out ->
  (secs <- py_get plan (lit "sections") (JList []) ;; py_iter secs)%res = Ok secs_in ->
  secs_in <> [] ->
  exists secs_out,
    py_item out "sections" = Ok (JList secs_out)
    /\ Forall2
         (fun sec o =>
            forall bs : list pystr,
              py_get sec (lit "bullets") (JList []) = Ok (JList (map JStr bs)) ->
              let kept := map strip (filter (fun b => negb (blank b)) bs) in
              py_item o "bullets"
              = Ok (JList (map JStr (if is_nil kept
                                     then [lit "Details pending."]
                                     else kept))))
         secs_in secs_out.
Proof.
  intros H Hin Hne.
  destruct (sections_of_output _ _ _ _ H Hin) as (summary & secs_out & _ & Hs & Hall).
  exists secs_out. split.
  - rewrite Hs. now destruct secs_in.
  - eapply Forall2_impl; [|exact Hall].
    intros sec o Ho bs Hbs kept.
    destruct (normalize_section_inv _ _ Ho) as (h & kept' & _ & Hk & ->).
    unfold cleaned_bullets in Hk. rewrite Hbs in Hk. cbn [rbind py_iter] in Hk.
    rewrite clean_strings in Hk. injection Hk as <-. fold kept.
    rewrite py_or_list. destruct kept; reflexivity.
Qed.

(** C3 as stated fails: the section whose only bullet is blank is still in
    the output, with the bullet "Details pending.". *)
Lemma blank_section_retained :
  exists out,
    _normalize_plan blank_section_plan (lit "demo") = Ok out
    /\ py_item out "sections" = Ok (JList blank_section_sections).
Proof. eexists. split; reflexivity. Qed.

Lemma blank_bullets_dropped_section_kept_witness :
  _normalize_plan blank_section_plan (lit "demo") = Ok blank_section_out
  /\ exists secs_out,
       py_item blank_section_out "sections" = Ok (JList secs_out)
       /\ Forall2
            (fun sec o =>
               forall bs : list pystr,
                 py_get sec (lit "bullets") (JList []) = Ok (JList (map JStr bs)) ->
                 let kept := map strip (filter (fun b => negb (blank b)) bs) in
                 py_item o "bullets"
                 = Ok (JList (map JStr (if is_nil kept
                                        then [lit "Details pending."]
                                        else kept))))
            [JObj [(lit "heading", JStr (lit "H"));
                   (lit "bullets", JList [JStr (lit "  ")])];
             JObj [(lit "heading", JStr (lit "K"));
                   (lit "bullets", JList [JStr (lit " a "); JStr []])]]
            secs_out.
Proof.
  split; [reflexivity|].
  apply (blank_bullets_dropped_section_kept
           blank_section_plan blank_section_out (lit "demo")).
  - reflexivity.
  - reflexivity.
  - discriminate.
Defined.

(** ** Defaults *)

(** Where the comprehension returns, every item was a string. *)
Lemma clean_returns_strings (items kept : list json) :
  clean items = Ok kept -> exists l, items = map JStr l.
Proof.
  revert kept. induction items as [|b items IH]; intros kept H.
  - now exists [].
  - simpl in H.
    assert (Hr : exists r, clean items = Ok r).
    { destruct (str_strip_truthy b); [|now exists kept].
      destruct (py_strip b); [|discriminate]. cbn [rbind] in H.
      destruct (clean items) as [r|]; [now exists r|discriminate]. }
    destruct Hr as [r Hr]. destruct (IH r Hr) as [l ->].
    destruct b as [| | | |s| |];
      try (cbn [str_strip_truthy py_strip rbind] in H; discriminate H).
    now exists (s :: l).
Qed.

Lemma no_bullet_left (l : list pystr) :
  is_nil (map strip (filter (fun b => negb (blank b)) l)) = forallb blank l.
Proof.
  induction l as [|b l IH]; [reflexivity|].
  simpl. destruct (blank b); [exact IH|reflexivity].
Qed.

(** C9: in the plan that [_normalize_plan] returns, a section of the input
    whose heading counts as false has the heading "Section"; a section all
    of whose bullets are blank (or which has none) has the bullets
    ["Details pending."], any other section its bullets that are not blank,
    trimmed; and when the input has no section the output has exactly one,
    "Overview", whose only bullet is the summary of the output. *)
Theorem section_defaults (plan out : json) (msg : pystr) :
  _normalize_plan plan msg = Ok out ->
  exists summary secs_in secs_out,
    py_item out "summary" = Ok summary
    /\ (secs <- py_get plan (lit "sections") (JList []) ;; py_iter secs)%res
       = Ok secs_in
    /\ py_item out "sections" = Ok (JList secs_out)
    /\ (secs_in = [] ->
        secs_out = [JObj [(lit "heading", JStr (lit "Overview"));
                          (lit "bullets", JList [summary])]])
    /\ (secs_in <> [] ->
        Forall2
          (fun sec o =>
             exists (h : json) (bs : list pystr),
               py_get sec (lit "heading") JNull = Ok h
               /\ (bl <- py_get sec (lit "bullets") (JList []) ;; py_iter bl)%res
                  = Ok (map JStr bs)
               /\ py_item o "heading"
                  = Ok (if truthy h then h else JStr (lit "Section"))
               /\ py_item o "bullets"
                  = Ok (JList (map JStr
                                 (if forallb blank bs
                                  then [lit "Details pending."]
                                  else map strip
                                         (filter (fun b => negb (blank b)) bs)))))
          secs_in secs_out).
Proof.
  intros H.
  destruct (normalize_plan_inv _ _ _ H)
    as (d & secs_in & secs_out & citems & cleaned & Hp & Es & Em & _ & _ & _).
  assert (Hin : (secs <- py_get plan (lit "sections") (JList []) ;; py_iter secs)%res
                = Ok secs_in).
  { rewrite Hp. unfold py_get. cbn [rbind]. exact Es. }
  destruct (sections_of_output _ _ _ _ H Hin) as (summary & outs & Hsum & Hs & Hall).
  exists summary, secs_in.
  eexists. split; [exact Hsum|]. split; [exact Hin|]. split; [exact Hs|].
  split.
  - intros ->. reflexivity.
  - intros Hne. destruct secs_in as [|sec secs_in]; [contradiction|].
    cbn [is_nil]. eapply Forall2_impl; [|exact Hall].
    intros s o Ho.
    destruct (normalize_section_inv _ _ Ho) as (h & kept & Hh & Hk & ->).
    unfold cleaned_bullets in Hk.
    destruct (py_get s (lit "bullets") (JList [])) as [bl|]; [|discriminate Hk].
    cbn [rbind] in Hk |- *.
    destruct (py_iter bl) as [items|]; [|discriminate Hk].
    cbn [rbind] in Hk.
    destruct (clean_returns_strings _ _ Hk) as [bs ->].
    rewrite clean_strings in Hk. injection Hk as <-.
    exists h, bs. repeat split; auto.
    rewrite py_or_list, <- no_bullet_left.
    now destruct (map strip (filter (fun b => negb (blank b)) bs)).
Qed.

Lemma section_defaults_witness :
  _normalize_plan defaults_plan (lit "demo") = Ok defaults_out
  /\ exists first second,
       py_item defaults_out "sections" = Ok (JList [first; second])
       /\ py_item first "heading" = Ok (JStr (lit "Section"))
       /\ py_item first "bullets" = Ok (JList [JStr (lit "Details pending.")])
       /\ py_item second "heading" = Ok (JStr (lit "K"))
       /\ py_item second "bullets" = Ok (JList [JStr (lit "a")]).
Proof.
  split; [reflexivity|].
  destruct (section_defaults defaults_plan defaults_out (lit "demo") eq_refl)
    as (summary & secs_in & secs_out & _ & Hin & Hout & _ & Hall).
  injection Hin as <-.
  specialize (Hall ltac:(discriminate)).
  inversion Hall as [|s1 o1 l1 l1' H1 Hrest]; subst.
  inversion Hrest as [|s2 o2 l2 l2' H2 Hnil]; subst.
  inversion Hnil; subst.
  destruct H1 as (h1 & bs1 & Hh1 & Hb1 & Ho1 & Hk1).
  destruct H2 as (h2 & bs2 & Hh2 & Hb2 & Ho2 & Hk2).
  injection Hh1 as <-. injection Hh2 as <-.
  injection Hb1 as Hb1. injection Hb2 as Hb2.
  destruct bs1 as [|b1 [|? ?]]; try discriminate Hb1. injection Hb1 as <-.
  destruct bs2 as [|b2 [|? ?]]; try discriminate Hb2. injection Hb2 as <-.
  exists o1, o2. repeat split; assumption.
Defined.

(** ** Plans that normalization leaves as they are *)

Lemma trimmed_section_fixed (s : PlanSection) :
  is_nil (sec_heading s) = false ->
  is_nil (sec_bullets s) = false ->
  forallb trimmed (sec_bullets s) = true ->
  normalize_section (section_json s) = Ok (section_json s).
Proof.
  destruct s as [h bs]. simpl. intros Hh Hb Ht.
  unfold normalize_section, cleaned_bullets, section_json, py_get.
  cbn [rbind sec_heading sec_bullets].
  replace (dict_field _ (lit "heading") JNull) with (JStr h) by reflexivity.
  replace (dict_field _ (lit "bullets") (JList [])) with (JList (map JStr bs))
    by reflexivity.
  cbn [py_iter rbind]. rewrite (clean_trimmed _ Ht). cbn [rbind].
  rewrite py_or_list.
  destruct h; [discriminate|]. destruct bs; [discriminate|]. reflexivity.
Qed.

Lemma trimmed_sections_fixed (l : list PlanSection) :
  forallb (fun s => negb (is_nil (sec_bullets s))) l = true ->
  forallb (fun s => negb (is_nil (sec_heading s)) && forallb trimmed (sec_bullets s))
          l = true ->
  mapM normalize_section (map section_json l) = Ok (map section_json l).
Proof.
  induction l as [|s l IH]; intros Hb Ht; [reflexivity|].
  simpl in Hb, Ht.
  apply andb_true_iff in Hb as [Hb Hbl].
  apply andb_true_iff in Ht as [Ht Htl].
  apply andb_true_iff in Ht as [Hh Ht].
  apply negb_true_iff in Hb, Hh.
  cbn [map mapM]. rewrite (trimmed_section_fixed _ Hh Hb Ht). cbn [rbind].
  rewrite (IH Hbl Htl). reflexivity.
Qed.

Lemma trimmed_plan_fixed (p : DocumentationPlan) (fallback_message : pystr) :
  plan_invariants p = true ->
  plan_trimmed p = true ->
  _normalize_plan (plan_json p) fallback_message = Ok (plan_json p).
Proof.
  destruct p as [title summary secs claims note].
  unfold plan_invariants, plan_trimmed.
  cbn [dp_title dp_summary dp_sections dp_claims dp_certificate_note].
  intros Hi Ht.
  apply andb_true_iff in Hi as [Hi Hc].
  apply andb_true_iff in Hi as [Hi Hb].
  apply andb_true_iff in Hi as [Hi Hs].
  apply andb_true_iff in Hi as [Hi Hn].
  apply andb_true_iff in Hi as [Hti Hsu].
  apply andb_true_iff in Ht as [Hsecs Hclaims].
  unfold _normalize_plan, plan_json, py_get.
  cbn [rbind dp_title dp_summary dp_sections dp_claims dp_certificate_note].
  replace (dict_field _ (lit "title") JNull) with (JStr title) by reflexivity.
  replace (dict_field _ (lit "summary") JNull) with (JStr summary) by reflexivity.
  replace (dict_field _ (lit "sections") (JList []))
    with (JList (map section_json secs)) by reflexivity.
  replace (dict_field _ (lit "claims") (JList []))
    with (JList (map JStr claims)) by reflexivity.
  replace (dict_field _ (lit "certificate_note") JNull) with (JStr note)
    by reflexivity.
  cbn [py_iter rbind].
  rewrite (trimmed_sections_fixed _ Hb Hsecs). cbn [rbind].
  rewrite (clean_trimmed _ Hclaims). cbn [rbind].
  rewrite py_or_list.
  destruct title; [discriminate|]. destruct summary; [discriminate|].
  destruct note; [discriminate|]. destruct secs; [discriminate|].
  destruct claims; [discriminate|]. reflexivity.
Qed.

(** *** The converse: what an unchanged plan looks like *)

Lemma map_JStr_inj (a b : list pystr) : map JStr a = map JStr b -> a = b.
Proof.
  revert b; induction a as [|x a IH]; intros [|y b] H; try discriminate; auto.
  simpl in H. injection H as -> H. f_equal. auto.
Qed.

Lemma kept_all_trimmed (bs : list pystr) :
  map strip (filter (fun s => negb (blank s)) bs) = bs ->
  forallb trimmed bs = true.
Proof.
  induction bs as [|b bs IH]; [reflexivity|]. simpl.
  destruct (blank b) eqn:Eb; simpl.
  - intros H. apply (f_equal (@List.length pystr)) in H. rewrite List.length_map in H.
    pose proof (filter_length_le (fun s => negb (blank s)) bs). simpl in H. lia.
  - intros [= Hb Hr]. rewrite (IH Hr), andb_true_r.
    unfold trimmed. rewrite Hb, str_eqb_refl, andb_true_r.
    destruct b; [discriminate|reflexivity].
Qed.

(** The bullets after the comprehension and the default, for strings. *)
Lemma normalize_section_json (s : PlanSection) :
  normalize_section (section_json s)
  = Ok (JObj [(lit "heading", py_or (JStr (sec_heading s)) (JStr (lit "Section")));
              (lit "bullets",
               let kept :=
                 map strip (filter (fun b => negb (blank b)) (sec_bullets s)) in
               JList (map JStr (if is_nil kept
                                then [lit "Details pending."]
                                else kept)))]).
Proof.
  destruct s as [h bs].
  unfold normalize_section, cleaned_bullets, section_json, py_get.
  cbn [rbind sec_heading sec_bullets].
  replace (dict_field _ (lit "heading") JNull) with (JStr h) by reflexivity.
  replace (dict_field _ (lit "bullets") (JList [])) with (JList (map JStr bs))
    by reflexivity.
  cbn [py_iter rbind]. rewrite clean_strings. cbn [rbind].
  rewrite py_or_list.
  destruct (map strip (filter (fun b => negb (blank b)) bs)); reflexivity.
Qed.

Lemma fixed_list_trimmed (bs : list pystr) (default : pystr) :
  trimmed default = true ->
  (let kept := map strip (filter (fun b => negb (blank b)) bs) in
   if is_nil kept then [default] else kept) = bs ->
  is_nil bs = false /\ forallb trimmed bs = true.
Proof.
  intros Hd. cbv zeta.
  destruct (map strip (filter (fun b => negb (blank b)) bs)) as [|k kept] eqn:Ek;
    cbn [is_nil].
  - intros <-. exfalso.
    destruct (trimmed_spec _ Hd) as [Hs Hb].
    simpl in Ek. rewrite Hb in Ek. discriminate.
  - intros H. rewrite H in Ek. split.
    + rewrite <- H. reflexivity.
    + now apply kept_all_trimmed.
Qed.

Lemma fixed_section_trimmed (s : PlanSection) :
  normalize_section (section_json s) = Ok (section_json s) ->
  is_nil (sec_heading s) = false
  /\ is_nil (sec_bullets s) = false
  /\ forallb trimmed (sec_bullets s) = true.
Proof.
  rewrite normalize_section_json. unfold section_json.
  intros [= Hh Hb]. split.
  - destruct (sec_heading s); [discriminate Hh|reflexivity].
  - apply map_JStr_inj in Hb.
    apply (fixed_list_trimmed _ (lit "Details pending.")); [reflexivity|exact Hb].
Qed.

Lemma fixed_sections_trimmed (l : list PlanSection) :
  mapM normalize_section (map section_json l) = Ok (map section_json l) ->
  forallb (fun s => negb (is_nil (sec_bullets s))) l = true
  /\ forallb (fun s => negb (is_nil (sec_heading s)) && forallb trimmed (sec_bullets s))
             l = true.
Proof.
  induction l as [|s l IH]; [auto|].
  cbn [map mapM].
  destruct (normalize_section (section_json s)) as [o|e] eqn:Es; [|discriminate].
  cbn [rbind].
  destruct (mapM normalize_section (map section_json l)) as [os|e] eqn:El;
    [|discriminate].
  cbn [rbind]. intros [= -> ->].
  destruct (fixed_section_trimmed _ Es) as (Hh & Hb & Ht).
  destruct (IH eq_refl) as [Hbl Htl].
  simpl. now rewrite Hh, Hb, Ht, Hbl, Htl.
Qed.

Lemma fixed_plan_trimmed (p : DocumentationPlan) (fallback_message : pystr) :
  _normalize_plan (plan_json p) fallback_message = Ok (plan_json p) ->
  plan_invariants p = true /\ plan_trimmed p = true.
Proof.
  destruct p as [title summary secs claims note].
  unfold _normalize_plan, plan_json, py_get.
  cbn [rbind dp_title dp_summary dp_sections dp_claims dp_certificate_note].
  replace (dict_field _ (lit "title") JNull) with (JStr title) by reflexivity.
  replace (dict_field _ (lit "summary") JNull) with (JStr summary) by reflexivity.
  replace (dict_field _ (lit "sections") (JList []))
    with (JList (map section_json secs)) by reflexivity.
  replace (dict_field _ (lit "claims") (JList []))
    with (JList (map JStr claims)) by reflexivity.
  replace (dict_field _ (lit "certificate_note") JNull) with (JStr note)
    by reflexivity.
  cbn [py_iter rbind].
  destruct (mapM normalize_section (map section_json secs)) as [outs|e] eqn:Em;
    [|discriminate].
  cbn [rbind]. rewrite clean_strings. cbn [rbind]. rewrite py_or_list.
  intros [= Ht Hs Hsec Hc Hn].
  assert (Hsecs : is_nil secs = false /\ outs = map section_json secs).
  { destruct outs as [|o outs]; cbn [is_nil] in Hsec.
    - apply mapM_is_nil in Em. destruct secs; [|discriminate Em].
      discriminate Hsec.
    - split; [|exact Hsec]. destruct secs; [discriminate Hsec|reflexivity]. }
  destruct Hsecs as [Hne ->].
  destruct (fixed_sections_trimmed _ Em) as [Hb Htr].
  assert (Hclaims : is_nil claims = false /\ forallb trimmed claims = true).
  { apply (fixed_list_trimmed
             _ (lit "Automated documentation generation based on user input."));
      [reflexivity|].
    apply map_JStr_inj. cbv zeta.
    destruct (map strip (filter (fun s => negb (blank s)) claims)); exact Hc. }
  destruct Hclaims as [Hcn Hct].
  unfold plan_invariants, plan_trimmed.
  cbn [dp_title dp_summary dp_sections dp_claims dp_certificate_note].
  rewrite Hne, Hb, Htr, Hcn, Hct.
  destruct title; [discriminate Ht|]. destruct summary; [discriminate Hs|].
  destruct note; [discriminate Hn|]. auto.
Qed.

(** C8 (as the code has it): a plan comes back unchanged, whatever the
    fallback message, exactly when it satisfies the DocumentationPlan
    invariants, its headings are non-empty and its bullets and claims are
    non-empty and carry no whitespace at either end. *)
Theorem normalize_unchanged_iff
        (p : DocumentationPlan) (fallback_message : pystr) :
  _normalize_plan (plan_json p) fallback_message = Ok (plan_json p)
  <-> plan_invariants p = true /\ plan_trimmed p = true.
Proof.
  split.
  - apply fixed_plan_trimmed.
  - intros [Hi Ht]. now apply trimmed_plan_fixed.
Qed.

Lemma normalize_unchanged_iff_witness :
  (plan_invariants tidy_plan = true /\ plan_trimmed tidy_plan = true)
  /\ _normalize_plan (plan_json tidy_plan) (lit "demo") = Ok (plan_json tidy_plan).
Proof.
  assert (H : plan_invariants tidy_plan = true /\ plan_trimmed tidy_plan = true)
    by (split; reflexivity).
  split; [exact H|].
  exact (proj2 (normalize_unchanged_iff tidy_plan (lit "demo")) H).
Defined.

(** C8 as stated fails: a plan that satisfies the invariants is changed when
    one of its bullets has whitespace at an end. *)
Lemma normalize_changes_valid_plan :
  plan_invariants untrimmed_plan = true
  /\ _normalize_plan (plan_json untrimmed_plan) (lit "demo")
     = Ok (plan_json untrimmed_plan_normalized)
  /\ plan_json untrimmed_plan_normalized <> plan_json untrimmed_plan.
Proof.
  split; [reflexivity|]. split; [reflexivity|].
  intros H. vm_compute in H. discriminate H.
Qed.

(** ** Computations in [M] *)

Lemma keeps_ret {A} (a : A) : keeps_fetcher_calls (ret a).
Proof. intros st. reflexivity. Qed.

Lemma keeps_lift {A} (r : result A) : keeps_fetcher_calls (lift r).
Proof. intros st. reflexivity. Qed.

Lemma keeps_request {A} (r : result A) : keeps_fetcher_calls (request r).
Proof. intros st. reflexivity. Qed.

Lemma keeps_bind {A B} (m : M A) (k : A -> M B) :
  keeps_fetcher_calls m -> (forall a, keeps_fetcher_calls (k a)) ->
  keeps_fetcher_calls (bind m k).
Proof.
  intros Hm Hk st. unfold bind. specialize (Hm st).
  destruct (m st) as [st1 [a|e]]; simpl in *; [|exact Hm].
  now rewrite (Hk a st1).
Qed.

Lemma raises_ret {A} (a : A) : raises_Exceptions (ret a).
Proof. intros st. exact I. Qed.

Lemma raises_lift {A} (r : result A) :
  raises_Exception r -> raises_Exceptions (lift r).
Proof. intros H st. exact H. Qed.

Lemma raises_request {A} (r : result A) :
  raises_Exception r -> raises_Exceptions (request r).
Proof. intros H st. exact H. Qed.

Lemma raises_bind {A B} (m : M A) (k : A -> M B) :
  raises_Exceptions m -> (forall a, raises_Exceptions (k a)) ->
  raises_Exceptions (bind m k).
Proof.
  intros Hm Hk st. unfold bind. specialize (Hm st).
  destruct (m st) as [st1 [a|e]]; simpl in *; [apply Hk|exact Hm].
Qed.

Lemma raises_Exception_item (v : json) (key : string) :
  raises_Exception (py_item v key).
Proof.
  destruct v; simpl; auto. destruct (dict_get d (lit key)); simpl; auto.
Qed.

Lemma raises_Exception_item0 (v : json) : raises_Exception (py_item0 v).
Proof. destruct v as [| | | |[|]|[|]|]; simpl; auto. Qed.

Lemma raises_Exception_no_attribute {A} (v : json) (attr : string) :
  raises_Exception (@Raise A (no_attribute v attr)).
Proof. reflexivity. Qed.

Lemma plan_or_error_bind {A} (m : M A) (k : A -> M (json * option pystr)) :
  (forall a, plan_or_error (k a)) -> plan_or_error (bind m k).
Proof.
  intros Hk st. unfold bind.
  destruct (m st) as [st1 [a|e]]; simpl; [apply Hk|exact I].
Qed.

Lemma plan_or_error_plan (plan : json) : plan_or_error (ret (plan, None)).
Proof. intros st. now left. Qed.

Lemma plan_or_error_error (err : option pystr) : plan_or_error (ret (JNull, err)).
Proof. intros st. now right. Qed.

Lemma plan_or_error_raise (e : exn) : plan_or_error (lift (Raise e)).
Proof. intros st. exact I. Qed.

Create HintDb fetcher.

#[local] Hint Resolve
  keeps_ret keeps_lift keeps_request keeps_bind
  raises_ret raises_lift raises_request raises_bind
  raises_Exception_item raises_Exception_item0 raises_Exception_no_attribute
  plan_or_error_bind plan_or_error_plan plan_or_error_error plan_or_error_raise
  : fetcher.

(** Split on which provider is selected and which client is there. *)
Ltac by_provider w :=
  unfold _call_ai_plan_try;
  destruct (provider_is w "openai" || provider_is w "azure");
  destruct (provider_is w "gemini");
  destruct (provider_is w "bedrock");
  destruct (client w) eqn:?; destruct (genai w) eqn:?;
  destruct (bedrock_client w) eqn:?.

(** ** The fetcher *)

Section Fetcher.

Variable w : world.
Variable message : pystr.

Lemma try_keeps_fetcher_calls :
  keeps_fetcher_calls (_call_ai_plan_try w message).
Proof. by_provider w; auto 12 with fetcher. Qed.

(** The body of the [try] returns a plan without an error, or an error
    without a plan. *)
Lemma try_plan_or_error : plan_or_error (_call_ai_plan_try w message).
Proof. by_provider w; auto 12 with fetcher. Qed.

Lemma try_raises_Exceptions :
  failures_are_Exceptions w -> raises_Exceptions (_call_ai_plan_try w message).
Proof.
  intros (Hc & Hg & Hb & Hj). by_provider w; eauto 20 with fetcher.
Qed.

Lemma call_ai_plan_disabled (st : counters) :
  AI_ENABLED w = false ->
  _call_ai_plan w message st
  = (entered st, Ok (JNull, Some (AI_STATUS_MSG w))).
Proof.
  intros H. unfold _call_ai_plan, bind, enter_fetcher. now rewrite H.
Qed.

Lemma call_ai_plan_enabled (st : counters) :
  AI_ENABLED w = true ->
  _call_ai_plan w message st
  = try_except (_call_ai_plan_try w message)
               (fun exc => ret (JNull, Some (exn_str exc))) (entered st).
Proof.
  intros H. unfold _call_ai_plan, bind, enter_fetcher. now rewrite H.
Qed.

(** The providers exclude each other. *)
Lemma gemini_selected :
  provider_is w "gemini" = true ->
  provider_is w "openai" || provider_is w "azure" = false.
Proof.
  unfold provider_is. intros H. apply str_eqb_eq in H. now rewrite H.
Qed.

Lemma bedrock_selected :
  provider_is w "bedrock" = true ->
  provider_is w "openai" || provider_is w "azure" = false
  /\ provider_is w "gemini" = false.
Proof.
  unfold provider_is. intros H. apply str_eqb_eq in H. now rewrite H.
Qed.

(** A failure of the provider call is what the body of the [try] raises. *)
Lemma try_raises_failure (e : exn) (st : counters) :
  provider_call_fails w message e ->
  exists st1, _call_ai_plan_try w message st = (st1, Raise e).
Proof.
  intros Hf. unfold _call_ai_plan_try.
  destruct Hf as [create e Hp Hc Hr
                 |create raw e Hp Hc Hr Hj
                 |Hp Hg
                 |generate e Hp Hg Hr
                 |generate raw e Hp Hg Hr Hj
                 |invoke e Hp Hb Hr
                 |invoke body e Hp Hb Hr Hj
                 |invoke body payload e Hp Hb Hr Hj Hx
                 |invoke body payload raw e Hp Hb Hr Hj Hx Hj'].
  - rewrite Hp, Hc. unfold bind, request. rewrite Hr. eexists. reflexivity.
  - rewrite Hp, Hc. unfold bind, request, lift. rewrite Hr, Hj.
    eexists. reflexivity.
  - rewrite (gemini_selected Hp), Hp, Hg. eexists. reflexivity.
  - rewrite (gemini_selected Hp), Hp, Hg. unfold bind, request.
    fold (gemini_prompt message). rewrite Hr. eexists. reflexivity.
  - rewrite (gemini_selected Hp), Hp, Hg. unfold bind, request, lift.
    fold (gemini_prompt message). rewrite Hr, Hj. eexists. reflexivity.
  - destruct (bedrock_selected Hp) as [Ho Hn]. rewrite Ho, Hn, Hp, Hb.
    unfold bind, request. fold (bedrock_prompt message). rewrite Hr.
    eexists. reflexivity.
  - destruct (bedrock_selected Hp) as [Ho Hn]. rewrite Ho, Hn, Hp, Hb.
    unfold bind, request, lift. fold (bedrock_prompt message). rewrite Hr, Hj.
    eexists. reflexivity.
  - destruct (bedrock_selected Hp) as [Ho Hn]. rewrite Ho, Hn, Hp, Hb.
    unfold bind, request, lift. fold (bedrock_prompt message). rewrite Hr, Hj.
    destruct (py_item payload "content") as [content|e1];
      cbn [rbind] in Hx; [|injection Hx as ->; eexists; reflexivity].
    destruct (py_item0 content) as [first|e1];
      cbn [rbind] in Hx; [|injection Hx as ->; eexists; reflexivity].
    rewrite Hx. eexists. reflexivity.
  - destruct (bedrock_selected Hp) as [Ho Hn]. rewrite Ho, Hn, Hp, Hb.
    unfold bind, request, lift. fold (bedrock_prompt message). rewrite Hr, Hj.
    destruct (py_item payload "content") as [content|e1];
      cbn [rbind] in Hx; [|discriminate Hx].
    destruct (py_item0 content) as [first|e1];
      cbn [rbind] in Hx; [|discriminate Hx].
    rewrite Hx, Hj'. eexists. reflexivity.
Qed.

(** C6: when the provider SDKs and [json.loads] fail with Exceptions,
    [_call_ai_plan] always returns a pair, and with the provider enabled
    every failure [e] of the provider call (the request raises: network
    error, timeout, error status; the reply is not JSON; the package of the
    selected provider is missing; the payload has not the expected shape)
    comes back as [(None, str(e))]. *)
Theorem call_ai_plan_catches (st : counters) :
  failures_are_Exceptions w ->
  (exists st' plan err, _call_ai_plan w message st = (st', Ok (plan, err)))
  /\ (AI_ENABLED w = true ->
      forall e,
        provider_call_fails w message e ->
        exists st',
          _call_ai_plan w message st = (st', Ok (JNull, Some (exn_str e)))).
Proof.
  intros Hw. split.
  - destruct (AI_ENABLED w) eqn:En.
    + rewrite (call_ai_plan_enabled st En). unfold try_except.
      pose proof (try_raises_Exceptions Hw (entered st)) as Hs.
      destruct (_call_ai_plan_try w message (entered st)) as [st1 [[plan err]|e]].
      * now exists st1, plan, err.
      * simpl in Hs. rewrite Hs. unfold ret.
        now exists st1, JNull, (Some (exn_str e)).
    + rewrite (call_ai_plan_disabled st En). now do 3 eexists.
  - intros En e Hf.
    rewrite (call_ai_plan_enabled st En). unfold try_except.
    pose proof (try_raises_Exceptions Hw (entered st)) as Hs.
    destruct (try_raises_failure e (entered st) Hf) as [st1 Ht].
    rewrite Ht in Hs |- *. simpl in Hs. rewrite Hs.
    now exists st1.
Qed.

(** A plan comes without an error: every return with an error has [None]
    as the plan. *)
Lemma call_ai_plan_plan_or_error (st st' : counters)
      (plan : json) (err : option pystr) :
  _call_ai_plan w message st = (st', Ok (plan, err)) ->
  err = None \/ plan = JNull.
Proof.
  destruct (AI_ENABLED w) eqn:En.
  - rewrite (call_ai_plan_enabled st En). unfold try_except.
    pose proof (try_plan_or_error (entered st)) as Hs.
    destruct (_call_ai_plan_try w message (entered st)) as [st1 [[p e]|e]].
    + intros [= <- <- <-]. exact Hs.
    + destruct (is_Exception e); [|discriminate].
      intros [= _ <- _]. now right.
  - rewrite (call_ai_plan_disabled st En). intros [= _ <- _]. now right.
Qed.

(** Every call of the fetcher is counted once, whatever its outcome. *)
Lemma call_ai_plan_fetcher_calls (st : counters) :
  fetcher_calls (fst (_call_ai_plan w message st)) = S (fetcher_calls st).
Proof.
  destruct (AI_ENABLED w) eqn:En.
  - rewrite (call_ai_plan_enabled st En). unfold try_except.
    pose proof (try_keeps_fetcher_calls (entered st)) as H.
    destruct (_call_ai_plan_try w message (entered st)) as [st1 [r|e]];
      simpl in *; [assumption|].
    destruct (is_Exception e); assumption.
  - now rewrite (call_ai_plan_disabled st En).
Qed.

End Fetcher.

Lemma stub_world_failures (is_enabled : bool) (provider_name status_msg : string)
      (create : option (pystr -> pystr -> pystr -> result json)) :
  (forall f m s u, create = Some f -> raises_Exception (f m s u)) ->
  failures_are_Exceptions (stub_world is_enabled provider_name status_msg create).
Proof.
  intros H. repeat split; simpl; try discriminate; auto.
  intros v. unfold stub_json_loads.
  destruct v; simpl; auto.
  destruct (str_eqb s (lit "{}")); simpl; auto.
  destruct (str_eqb s title_only_text); simpl; auto.
Qed.

Lemma call_ai_plan_catches_witness :
  failures_are_Exceptions timeout_world
  /\ AI_ENABLED timeout_world = true
  /\ provider_call_fails timeout_world (lit "demo")
       (Exn OtherException (lit "Request timed out."))
  /\ exists st',
       _call_ai_plan timeout_world (lit "demo") fresh
       = (st', Ok (JNull, Some (lit "Request timed out."))).
Proof.
  assert (H : failures_are_Exceptions timeout_world).
  { apply stub_world_failures. intros f m s u [= <-]. reflexivity. }
  assert (Hf : provider_call_fails timeout_world (lit "demo")
                 (Exn OtherException (lit "Request timed out."))).
  { eapply chat_request_fails; reflexivity. }
  split; [exact H|]. split; [reflexivity|]. split; [exact Hf|].
  exact (proj2 (call_ai_plan_catches timeout_world (lit "demo") fresh H)
           eq_refl _ Hf).
Defined.

(** The failures by kind: a timeout of the request, a reply that is not
    JSON, a missing SDK. *)
Example timeout_is_reported :
  _call_ai_plan timeout_world (lit "demo") fresh
  = (one_request, Ok (JNull, Some (lit "Request timed out."))).
Proof. reflexivity. Qed.

Example malformed_json_is_reported :
  _call_ai_plan malformed_world (lit "demo") fresh
  = (one_request,
     Ok (JNull, Some (lit "Expecting value: line 1 column 1 (char 0)"))).
Proof. reflexivity. Qed.

Example missing_sdk_is_reported :
  _call_ai_plan missing_sdk_world (lit "demo") fresh
  = (no_request,
     Ok (JNull, Some (lit "'NoneType' object has no attribute 'GenerativeModel'"))).
Proof. reflexivity. Qed.

(** ** The handler *)

Lemma chat_respond_ai (w : world) (message mode : pystr) (plan : json)
      (ai_error : option pystr) (ai_used : bool) (resp : response) :
  chat_respond w message mode plan ai_error ai_used = Ok resp ->
  mode_requested (ai resp) = mode
  /\ mode_used (ai resp) = (if ai_used then lit "hybrid" else lit "static")
  /\ error (ai resp) = ai_error.
Proof.
  unfold chat_respond. intros H.
  repeat match type of H with
         | context [rbind ?r _] =>
             destruct r; [cbn [rbind] in H|discriminate H]
         end.
  injection H as <-. auto.
Qed.

Section Handler.

Variable w : world.
Variable message : pystr.
Variable file : option upload.

Lemma chat_plan_hybrid (st : counters) :
  chat_plan w message file (lit "hybrid") st
  = match _call_ai_plan w message st with
    | (st1, Ok (ai_plan, ai_error)) =>
        if truthy ai_plan
        then match _normalize_plan ai_plan message with
             | Ok plan => (st1, Ok (plan, ai_error, true))
             | Raise e => (st1, Raise e)
             end
        else (st1, Ok (_fallback_plan message file, ai_error, false))
    | (st1, Raise e) => (st1, Raise e)
    end.
Proof.
  unfold chat_plan. rewrite str_eqb_refl. unfold bind.
  destruct (_call_ai_plan w message st) as [st1 [[ai_plan ai_error]|e]];
    [|reflexivity].
  destruct (truthy ai_plan); [|reflexivity].
  unfold lift, ret. destruct (_normalize_plan ai_plan message); reflexivity.
Qed.

Lemma chat_plan_not_hybrid (mode : pystr) (st : counters) :
  mode <> lit "hybrid" ->
  chat_plan w message file mode st
  = (st, Ok (_fallback_plan message file, None, false)).
Proof.
  intros H. unfold chat_plan.
  destruct (str_eqb mode (lit "hybrid")) eqn:E; [|reflexivity].
  apply str_eqb_eq in E. contradiction.
Qed.

Lemma chat_unfold (mode : pystr) (st : counters) :
  chat w message file mode st
  = match chat_plan w message file mode st with
    | (st', Ok (plan, ai_error, ai_used)) =>
        (st', chat_respond w message mode plan ai_error ai_used)
    | (st', Raise e) => (st', Raise e)
    end.
Proof.
  unfold chat, bind, lift.
  destruct (chat_plan w message file mode st) as [st' [[[plan err] used]|e]];
    reflexivity.
Qed.

(** The counters are those that lines 426-434 leave. *)
Lemma chat_counters (mode : pystr) (st : counters) :
  fst (chat w message file mode st) = fst (chat_plan w message file mode st).
Proof.
  rewrite chat_unfold.
  destruct (chat_plan w message file mode st) as [st' [[[plan err] used]|e]];
    reflexivity.
Qed.

(** With the static plan and working builders there is a response. *)
Lemma chat_respond_fallback (mode : pystr) (ai_error : option pystr) :
  builders_succeed w (_fallback_plan message file) message ->
  exists resp,
    chat_respond w message mode (_fallback_plan message file) ai_error false
    = Ok resp
    /\ reply resp
       = (lit "Generated documentation for: " ++ message)
         ++ match ai_error with
            | Some (c :: e) => newline ++ lit "AI fallback reason: " ++ c :: e
            | _ => []
            end.
Proof.
  intros (H1 & H2 & H3 & H4). unfold chat_respond.
  rewrite H1, H2, H3, H4. cbn [rbind].
  replace (py_item (_fallback_plan message file) "summary")
    with (Ok (JStr (lit "Generated documentation for: " ++ message)))
    by reflexivity.
  cbn [rbind]. unfold reply_lines, annotate, py_join.
  destruct ai_error as [[|c e]|]; cbn [is_nil negb andb join_from rbind];
    eexists; (split; [reflexivity|]); cbn [reply is_nil].
  - now rewrite app_nil_r.
  - reflexivity.
  - now rewrite app_nil_r.
Qed.

Lemma chat_hybrid_fetcher_calls (st : counters) :
  fetcher_calls (fst (chat w message file (lit "hybrid") st))
  = S (fetcher_calls st).
Proof.
  rewrite chat_counters, chat_plan_hybrid.
  pose proof (call_ai_plan_fetcher_calls w message st) as H.
  destruct (_call_ai_plan w message st) as [st1 [[ai_plan ai_error]|e]];
    [|exact H].
  destruct (truthy ai_plan); [|exact H].
  destruct (_normalize_plan ai_plan message); exact H.
Qed.

(** C2 (as the code has it): in hybrid mode the handler enters the fetcher
    once.  When the fetcher's plan counts as true (for a JSON object: it
    has a key) and [_normalize_plan] returns for it, the handler goes on
    with the normalized plan and [ai_used = True], so that a response says
    [mode_used = "hybrid"]; when the plan counts as false ([None], or the
    empty object) the handler keeps the static plan and [ai_used = False].
    In both cases [ai.error] is the fetcher's second component. *)
Theorem hybrid_uses_truthy_plan (st : counters) :
  fetcher_calls (fst (chat w message file (lit "hybrid") st))
  = S (fetcher_calls st)
  /\ forall st1 ai_plan ai_error,
       _call_ai_plan w message st = (st1, Ok (ai_plan, ai_error)) ->
       (truthy ai_plan = true ->
        forall plan,
          _normalize_plan ai_plan message = Ok plan ->
          chat_plan w message file (lit "hybrid") st
          = (st1, Ok (plan, ai_error, true))
          /\ chat w message file (lit "hybrid") st
             = (st1, chat_respond w message (lit "hybrid") plan ai_error true)
          /\ forall resp,
               chat_respond w message (lit "hybrid") plan ai_error true
               = Ok resp ->
               mode_used (ai resp) = lit "hybrid"
               /\ error (ai resp) = ai_error)
       /\ (truthy ai_plan = false ->
           chat_plan w message file (lit "hybrid") st
           = (st1, Ok (_fallback_plan message file, ai_error, false))
           /\ chat w message file (lit "hybrid") st
              = (st1, chat_respond w message (lit "hybrid")
                        (_fallback_plan message file) ai_error false)
           /\ forall resp,
                chat_respond w message (lit "hybrid")
                  (_fallback_plan message file) ai_error false = Ok resp ->
                mode_used (ai resp) = lit "static"
                /\ error (ai resp) = ai_error).
Proof.
  split; [apply chat_hybrid_fetcher_calls|].
  intros st1 ai_plan ai_error Hf. split.
  - intros Ht plan Hn.
    assert (Hp : chat_plan w message file (lit "hybrid") st
                 = (st1, Ok (plan, ai_error, true))).
    { rewrite chat_plan_hybrid, Hf, Ht, Hn. reflexivity. }
    split; [exact Hp|]. split.
    + rewrite chat_unfold, Hp. reflexivity.
    + intros resp Hr. apply chat_respond_ai in Hr as (_ & Hm & He). auto.
  - intros Ht.
    assert (Hp : chat_plan w message file (lit "hybrid") st
                 = (st1, Ok (_fallback_plan message file, ai_error, false))).
    { rewrite chat_plan_hybrid, Hf, Ht. reflexivity. }
    split; [exact Hp|]. split.
    + rewrite chat_unfold, Hp. reflexivity.
    + intros resp Hr. apply chat_respond_ai in Hr as (_ & Hm & He). auto.
Qed.


(** C7: after lines 426-434 [ai_used] is true only with [ai_error] being
    [None]: lines 447-450 never take the "AI warning" branch, and a
    response with [mode_used = "hybrid"] has a null error. *)
Theorem ai_used_excludes_ai_error
        (mode : pystr) (st st' : counters) (plan : json)
        (ai_error : option pystr) (ai_used : bool) :
  chat_plan w message file mode st = (st', Ok (plan, ai_error, ai_used)) ->
  (ai_used = true -> ai_error = None)
  /\ (forall e, annotate ai_error ai_used <> AIWarning e)
  /\ (forall resp,
        chat_respond w message mode plan ai_error ai_used = Ok resp ->
        mode_used (ai resp) = lit "hybrid" -> error (ai resp) = None).
Proof.
  intros H.
  assert (Hx : ai_used = true -> ai_error = None).
  { intros ->. unfold chat_plan in H.
    destruct (str_eqb mode (lit "hybrid")); [|discriminate].
    unfold bind in H.
    destruct (_call_ai_plan w message st) as [st1 [[ai_plan err]|e]] eqn:Ef;
      [|discriminate].
    destruct (truthy ai_plan) eqn:Et; [|discriminate].
    unfold lift, ret in H.
    destruct (_normalize_plan ai_plan message); [|discriminate].
    injection H as _ _ <-.
    destruct (call_ai_plan_plan_or_error _ _ _ _ _ _ Ef) as [Hn | ->];
      [assumption|discriminate]. }
  split; [exact Hx|]. split.
  - intros e. unfold annotate. destruct ai_used.
    + rewrite (Hx eq_refl). discriminate.
    + destruct ai_error as [[|c s]|]; discriminate.
  - intros resp Hr Hm. apply chat_respond_ai in Hr as (_ & Hu & He).
    rewrite He. apply Hx. destruct ai_used; [reflexivity|].
    rewrite Hu in Hm. discriminate Hm.
Qed.

(** C10: with any mode other than "hybrid" the handler keeps the static
    plan and leaves both counters as they were (the fetcher is not
    entered); a response has [mode_used = "static"], a null error and the
    submitted mode as [mode_requested], and there is a response when the
    builders succeed. *)
Theorem other_modes_are_static (mode : pystr) (st : counters) :
  mode <> lit "hybrid" ->
  chat_plan w message file mode st
  = (st, Ok (_fallback_plan message file, None, false))
  /\ fst (chat w message file mode st) = st
  /\ (forall st' resp,
        chat w message file mode st = (st', Ok resp) ->
        mode_used (ai resp) = lit "static"
        /\ error (ai resp) = None
        /\ mode_requested (ai resp) = mode)
  /\ (builders_succeed w (_fallback_plan message file) message ->
      exists resp,
        chat w message file mode st = (st, Ok resp)
        /\ mode_used (ai resp) = lit "static"
        /\ error (ai resp) = None
        /\ mode_requested (ai resp) = mode
        /\ reply resp = lit "Generated documentation for: " ++ message).
Proof.
  intros Hm.
  pose proof (chat_plan_not_hybrid mode st Hm) as Hp.
  split; [exact Hp|]. split; [rewrite chat_counters, Hp; reflexivity|]. split.
  - intros st' resp. rewrite chat_unfold, Hp. intros [= _ Hr].
    apply chat_respond_ai in Hr as (Hq & Hu & He). auto.
  - intros Hb. rewrite chat_unfold, Hp.
    destruct (chat_respond_fallback mode None Hb) as (resp & Hr & Hreply).
    exists resp. rewrite Hr. split; [reflexivity|].
    rewrite Hreply, app_nil_r.
    apply chat_respond_ai in Hr as (Hq & Hu & He). auto.
Qed.

End Handler.

(** *** The handler on the test doubles *)

Lemma hybrid_uses_truthy_plan_witness :
  _call_ai_plan titled_world (lit "demo") fresh
  = (one_request, Ok (JObj [(lit "title", JStr (lit "T"))], None))
  /\ chat_plan titled_world (lit "demo") None (lit "hybrid") fresh
     = (one_request, Ok (titled_plan, None, true)).
Proof.
  split; [reflexivity|].
  destruct (proj2 (hybrid_uses_truthy_plan titled_world (lit "demo") None fresh)
              one_request (JObj [(lit "title", JStr (lit "T"))]) None eq_refl)
    as [Htrue _].
  destruct (Htrue eq_refl titled_plan eq_refl) as [Hplan _].
  exact Hplan.
Defined.

(** C2 as stated fails: the fetcher returns the empty object, which is not
    null, and the handler answers with the static plan and
    [mode_used = "static"]. *)
Lemma empty_object_plan_not_used :
  _call_ai_plan empty_object_world (lit "demo") fresh
  = (one_request, Ok (JObj [], None))
  /\ chat_plan empty_object_world (lit "demo") None (lit "hybrid") fresh
     = (one_request, Ok (_fallback_plan (lit "demo") None, None, false))
  /\ exists resp,
       chat empty_object_world (lit "demo") None (lit "hybrid") fresh
       = (one_request, Ok resp)
       /\ mode_used (ai resp) = lit "static".
Proof.
  split; [reflexivity|]. split; [reflexivity|].
  eexists. split; reflexivity.
Qed.


Lemma ai_used_excludes_ai_error_witness :
  chat_plan titled_world (lit "demo") None (lit "hybrid") fresh
  = (one_request, Ok (titled_plan, None, true))
  /\ (true = true -> @None pystr = None)
  /\ (forall e, annotate None true <> AIWarning e)
  /\ (forall resp,
        chat_respond titled_world (lit "demo") (lit "hybrid") titled_plan None true
        = Ok resp ->
        mode_used (ai resp) = lit "hybrid" -> error (ai resp) = None).
Proof.
  split; [reflexivity|].
  apply (ai_used_excludes_ai_error titled_world (lit "demo") None (lit "hybrid")
           fresh one_request titled_plan None true).
  reflexivity.
Defined.

Lemma other_modes_are_static_witness :
  (lit "HYBRID" <> lit "hybrid"
   /\ builders_succeed timeout_world (_fallback_plan (lit "demo") None) (lit "demo"))
  /\ exists resp,
       chat timeout_world (lit "demo") None (lit "HYBRID") fresh = (fresh, Ok resp)
       /\ mode_used (ai resp) = lit "static"
       /\ error (ai resp) = None
       /\ mode_requested (ai resp) = lit "HYBRID"
       /\ reply resp = lit "Generated documentation for: " ++ lit "demo".
Proof.
  assert (Hm : lit "HYBRID" <> lit "hybrid") by discriminate.
  assert (Hb : builders_succeed timeout_world
                 (_fallback_plan (lit "demo") None) (lit "demo")).
  { repeat split. }
  split; [split; [exact Hm|exact Hb]|].
  destruct (other_modes_are_static timeout_world (lit "demo") None (lit "HYBRID")
              fresh Hm)
    as (_ & _ & _ & Hresp).
  exact (Hresp Hb).
Defined.

(** A timeout in hybrid mode: the static summary, then the reason. *)
Example timeout_reply :
  exists resp,
    chat timeout_world (lit "demo") None (lit "hybrid") fresh
    = (one_request, Ok resp)
    /\ mode_used (ai resp) = lit "static"
    /\ error (ai resp) = Some (lit "Request timed out.")
    /\ reply resp
       = lit "Generated documentation for: demo" ++ newline
         ++ lit "AI fallback reason: Request timed out.".
Proof. eexists. repeat split. Qed.

(** * Further properties *)

(** ** Start-up: [_init_ai_provider] *)

(** Case analysis on a run of [init_selected] that is given as [H]. *)
Ltac break_init H :=
  unfold init_selected in H;
  repeat match type of H with
         | context [if str_eqb ?a ?b then _ else _] =>
             let E := fresh "Ep" in
             destruct (str_eqb a b) eqn:E; [apply str_eqb_eq in E|]
         | context [rbind ?r _] => destruct r eqn:?; cbn [rbind] in H
         | context [match ?x with _ => _ end] => destruct x eqn:?
         end;
  try discriminate H.

Lemma auto_detect_known (env : environ) (p : pystr) :
  auto_detect env = Some p ->
  p = lit "azure" \/ p = lit "gemini" \/ p = lit "bedrock" \/ p = lit "openai".
Proof.
  unfold auto_detect.
  repeat match goal with
         | |- context [if ?b then _ else _] => destruct b
         end; intros [= <-]; auto.
Qed.

(** The set-up of a provider leaves [AI_PROVIDER] and the rest of the world
    as they are. *)
Lemma init_selected_keeps (env : environ) (pk : packages) (p : pystr)
      (w w' : world) :
  init_selected env pk p w = Ok w' ->
  AI_PROVIDER w' = AI_PROVIDER w
  /\ genai w' = genai w
  /\ json_loads w' = json_loads w
  /\ _build_report_pdf w' = _build_report_pdf w
  /\ _build_ppt w' = _build_ppt w
  /\ _build_patent_pdf w' = _build_patent_pdf w
  /\ _build_certificates_zip w' = _build_certificates_zip w.
Proof.
  intros H. break_init H; injection H as <-; repeat split; cbn; auto.
Qed.

(** What an enabled start-up has set, by provider. *)
Lemma init_selected_enabled (env : environ) (pk : packages) (p : pystr)
      (w w' : world) :
  AI_ENABLED w = false ->
  init_selected env pk p w = Ok w' ->
  AI_ENABLED w' = true ->
  (p = lit "openai" /\ client w' <> None)
  \/ (p = lit "azure" /\ client w' <> None)
  \/ (p = lit "gemini" /\ genai w' <> None)
  \/ (p = lit "bedrock" /\ bedrock_client w' <> None).
Proof.
  intros Hd H He.
  break_init H; injection H as <-; cbn in He; try congruence.
  - left. split; [assumption|discriminate].
  - right; left. split; [assumption|discriminate].
  - right; right; left. split; [assumption|]. cbn. congruence.
  - right; right; right. split; [assumption|discriminate].
Qed.

Lemma init_auto (env : environ) (pk : packages) (w : world) :
  AI_PROVIDER w = lit "auto" ->
  _init_ai_provider env pk w
  = match auto_detect env with
    | Some p => init_selected env pk p (set_provider w p)
    | None =>
        Ok (set_status w (lit "No AI credentials found; running in static mode"))
    end.
Proof. intros H. unfold _init_ai_provider. now rewrite H. Qed.

Lemma init_explicit (env : environ) (pk : packages) (w : world) :
  AI_PROVIDER w <> lit "auto" ->
  _init_ai_provider env pk w = init_selected env pk (AI_PROVIDER w) w.
Proof.
  intros H. unfold _init_ai_provider.
  destruct (str_eqb (AI_PROVIDER w) (lit "auto")) eqn:E; [|reflexivity].
  apply str_eqb_eq in E. contradiction.
Qed.

(** X1: auto-detection goes by priority Azure, Gemini, Bedrock, OpenAI: the
    first of them whose variables are set (and not empty) becomes
    [AI_PROVIDER], whatever is set for the ones after it; with none set the
    module stays on "auto", as it was, with the message of static mode. *)
Theorem auto_detect_priority (env : environ) (pk : packages) (w w' : world) :
  AI_PROVIDER w = lit "auto" ->
  _init_ai_provider env pk w = Ok w' ->
  let azure := is_set (getenv env "AZURE_OPENAI_ENDPOINT")
               && is_set (getenv env "AZURE_OPENAI_API_KEY") in
  let gemini := is_set (getenv env "GEMINI_API_KEY") in
  let bedrock := is_set (getenv env "AWS_ACCESS_KEY_ID")
                 || is_set (getenv env "AWS_SESSION_TOKEN") in
  let openai := is_set (getenv env "OPENAI_API_KEY") in
  (azure = true -> AI_PROVIDER w' = lit "azure")
  /\ (azure = false -> gemini = true -> AI_PROVIDER w' = lit "gemini")
  /\ (azure = false -> gemini = false -> bedrock = true ->
      AI_PROVIDER w' = lit "bedrock")
  /\ (azure = false -> gemini = false -> bedrock = false -> openai = true ->
      AI_PROVIDER w' = lit "openai")
  /\ (azure = false -> gemini = false -> bedrock = false -> openai = false ->
      w' = set_status w (lit "No AI credentials found; running in static mode")).
Proof.
  intros Ha H. rewrite (init_auto env pk w Ha) in H. cbv zeta.
  unfold auto_detect in H.
  destruct (is_set (getenv env "AZURE_OPENAI_ENDPOINT")
            && is_set (getenv env "AZURE_OPENAI_API_KEY"));
    [|destruct (is_set (getenv env "GEMINI_API_KEY"));
      [|destruct (is_set (getenv env "AWS_ACCESS_KEY_ID")
                  || is_set (getenv env "AWS_SESSION_TOKEN"));
        [|destruct (is_set (getenv env "OPENAI_API_KEY"))]]];
    repeat split; intros; try discriminate;
    try (apply init_selected_keeps in H as [H _]; exact H).
  now injection H as <-.
Qed.

Lemma auto_detect_priority_witness :
  (AI_PROVIDER (unconfigured azure_full) = lit "auto"
   /\ _init_ai_provider azure_full all_packages (unconfigured azure_full)
      = Ok (started azure_full))
  /\ is_set (getenv azure_full "GEMINI_API_KEY") = true
  /\ is_set (getenv azure_full "OPENAI_API_KEY") = true
  /\ AI_PROVIDER (started azure_full) = lit "azure".
Proof.
  split; [split; reflexivity|]. split; [reflexivity|]. split; [reflexivity|].
  apply (auto_detect_priority azure_full all_packages (unconfigured azure_full)
           (started azure_full) eq_refl eq_refl).
  reflexivity.
Defined.

(** X2: auto-detection never falls back: once it has picked a provider the
    start-up is the one of that provider set explicitly, so a picked
    provider that cannot be set up leaves the module disabled even when a
    provider of lower priority is fully configured. *)
Theorem auto_is_explicit_choice (env : environ) (pk : packages) (w : world)
        (p : pystr) :
  AI_PROVIDER w = lit "auto" ->
  auto_detect env = Some p ->
  _init_ai_provider env pk w = _init_ai_provider env pk (set_provider w p).
Proof.
  intros Ha Hp. rewrite (init_auto env pk w Ha), Hp.
  rewrite init_explicit; [reflexivity|].
  cbn. destruct (auto_detect_known env p Hp) as [-> | [-> | [-> | ->]]];
    discriminate.
Qed.

Lemma auto_is_explicit_choice_witness :
  (AI_PROVIDER (unconfigured azure_half_set) = lit "auto"
   /\ auto_detect azure_half_set = Some (lit "azure"))
  /\ is_set (getenv azure_half_set "OPENAI_API_KEY") = true
  /\ _init_ai_provider azure_half_set all_packages (unconfigured azure_half_set)
     = _init_ai_provider azure_half_set all_packages
         (set_provider (unconfigured azure_half_set) (lit "azure"))
  /\ AI_ENABLED (started azure_half_set) = false
  /\ AI_STATUS_MSG (started azure_half_set)
     = lit "Azure OpenAI env vars missing (endpoint/key/deployment)".
Proof.
  split; [split; reflexivity|]. split; [reflexivity|]. split.
  - apply (auto_is_explicit_choice azure_half_set all_packages
             (unconfigured azure_half_set) (lit "azure")); reflexivity.
  - split; reflexivity.
Defined.



(** X4: every start-up that returns has replaced the initial message by a
    message that is not empty, so that [/status] shows that message and
    never its own "AI ready" or "AI disabled"; from a disabled module the
    result is enabled exactly when the message is one of the four "ready"
    messages. *)
Theorem init_status_message (env : environ) (pk : packages) (w w' : world) :
  AI_ENABLED w = false ->
  _init_ai_provider env pk w = Ok w' ->
  AI_STATUS_MSG w' <> []
  /\ AI_STATUS_MSG w' <> lit "AI not initialized"
  /\ sb_message (status_route w') = AI_STATUS_MSG w'
  /\ AI_ENABLED w' = ready_message (AI_STATUS_MSG w').
Proof.
  intros Hd H.
  assert (Hsel : (w' = set_status w
                         (lit "No AI credentials found; running in static mode"))
                 \/ exists p w0,
                      AI_ENABLED w0 = false
                      /\ init_selected env pk p w0 = Ok w').
  { unfold _init_ai_provider in H.
    destruct (str_eqb (AI_PROVIDER w) (lit "auto")).
    - destruct (auto_detect env) as [p|].
      + right. exists p, (set_provider w p). auto.
      + left. now injection H.
    - right. exists (AI_PROVIDER w), w. auto. }
  assert (Hmsg : AI_STATUS_MSG w' <> []
                 /\ AI_STATUS_MSG w' <> lit "AI not initialized"
                 /\ AI_ENABLED w' = ready_message (AI_STATUS_MSG w')).
  { destruct Hsel as [-> | (p & w0 & Hd0 & Hs)].
    - cbn. rewrite Hd. repeat split; discriminate.
    - break_init Hs; injection Hs as <-; cbn; rewrite ?Hd0;
        repeat split; try discriminate; reflexivity. }
  destruct Hmsg as (Hne & Hinit & Hready).
  repeat split; try assumption.
  unfold status_route. cbn. destruct (AI_STATUS_MSG w'); [contradiction|reflexivity].
Qed.

Lemma init_status_message_witness :
  (AI_ENABLED (unconfigured empty_environ) = false
   /\ _init_ai_provider empty_environ all_packages (unconfigured empty_environ)
      = Ok (started empty_environ))
  /\ sb_message (status_route (started empty_environ))
     = lit "No AI credentials found; running in static mode"
  /\ AI_ENABLED (started empty_environ) = false.
Proof.
  split; [split; reflexivity|].
  destruct (init_status_message empty_environ all_packages
              (unconfigured empty_environ) (started empty_environ)
              eq_refl eq_refl) as (_ & _ & Hs & He).
  split; [exact Hs|exact He].
Defined.



(** X6: a provider that is named explicitly is never replaced by
    auto-detection, whatever credentials are set; a name other than the four
    known ones (and "auto") leaves everything as it was, except for the
    message, which quotes the name. *)
Theorem explicit_provider_kept (env : environ) (pk : packages) (w w' : world) :
  AI_PROVIDER w <> lit "auto" ->
  _init_ai_provider env pk w = Ok w' ->
  AI_PROVIDER w' = AI_PROVIDER w
  /\ (AI_PROVIDER w <> lit "openai" -> AI_PROVIDER w <> lit "azure" ->
      AI_PROVIDER w <> lit "gemini" -> AI_PROVIDER w <> lit "bedrock" ->
      w' = set_status w
             (lit "Unknown AI_PROVIDER '" ++ AI_PROVIDER w ++ lit "'")).
Proof.
  intros Ha H. rewrite (init_explicit env pk w Ha) in H. split.
  - now apply init_selected_keeps in H.
  - intros H1 H2 H3 H4. unfold init_selected in H.
    repeat match type of H with
           | context [if str_eqb ?a ?b then _ else _] =>
               let E := fresh "Ep" in
               destruct (str_eqb a b) eqn:E; [apply str_eqb_eq in E; contradiction|]
           end.
    now injection H.
Qed.

Lemma explicit_provider_kept_witness :
  (AI_PROVIDER (module_globals azure_full (lit "openai") disabled_world)
   <> lit "auto"
   /\ exists w',
        _init_ai_provider azure_full all_packages
          (module_globals azure_full (lit "openai") disabled_world) = Ok w'
        /\ AI_ENABLED w' = true /\ AI_PROVIDER w' = lit "openai").
Proof.
  split; [discriminate|].
  eexists. split; [reflexivity|]. split; [reflexivity|].
  refine (proj1 (explicit_provider_kept azure_full all_packages
                   (module_globals azure_full (lit "openai") disabled_world)
                   _ _ eq_refl)).
  discriminate.
Defined.

(** ** Requests to the provider *)

Lemma keeps_calls_ret {A} (a : A) : keeps_provider_calls (ret a).
Proof. intros st. reflexivity. Qed.

Lemma keeps_calls_lift {A} (r : result A) : keeps_provider_calls (lift r).
Proof. intros st. reflexivity. Qed.

Lemma keeps_calls_bind {A B} (m : M A) (k : A -> M B) :
  keeps_provider_calls m -> (forall a, keeps_provider_calls (k a)) ->
  keeps_provider_calls (bind m k).
Proof.
  intros Hm Hk st. unfold bind. specialize (Hm st).
  destruct (m st) as [st1 [a|e]]; simpl in *; [|exact Hm].
  now rewrite (Hk a st1).
Qed.

Lemma one_call_request {A B} (r : result A) (k : A -> M B) :
  (forall a, keeps_provider_calls (k a)) ->
  one_provider_call (bind (request r) k).
Proof.
  intros Hk st. unfold bind, request. destruct r as [a|e]; [|reflexivity].
  now rewrite (Hk a).
Qed.

Create HintDb requests.

#[local] Hint Resolve
  keeps_calls_ret keeps_calls_lift keeps_calls_bind one_call_request : requests.

(** The body of the [try] makes one request or none. *)
Lemma try_one_or_none (w : world) (message : pystr) :
  one_provider_call (_call_ai_plan_try w message)
  \/ keeps_provider_calls (_call_ai_plan_try w message).
Proof.
  by_provider w;
    first [left; solve [auto 12 with requests]
          | right; solve [auto 12 with requests]].
Qed.

(** The requests of a call are those of the body of the [try], if the
    provider is enabled. *)
Lemma call_ai_plan_provider_calls (w : world) (message : pystr) (st : counters) :
  provider_calls (fst (_call_ai_plan w message st))
  = if AI_ENABLED w
    then provider_calls (fst (_call_ai_plan_try w message (entered st)))
    else provider_calls st.
Proof.
  destruct (AI_ENABLED w) eqn:En.
  - rewrite (call_ai_plan_enabled w message st En). unfold try_except.
    destruct (_call_ai_plan_try w message (entered st)) as [st1 [r|e]];
      [reflexivity|].
    destruct (is_Exception e); reflexivity.
  - now rewrite (call_ai_plan_disabled w message st En).
Qed.

(** X7: a call of the fetcher makes at most one request to a provider, and
    the handler with it: nothing is retried; in static mode, and with the
    provider disabled, no request is made. *)
Theorem at_most_one_request (w : world) (message : pystr)
        (file : option upload) (mode : pystr) (st : counters) :
  let after := provider_calls (fst (chat w message file mode st)) in
  (after = provider_calls st \/ after = S (provider_calls st))
  /\ (AI_ENABLED w = false -> after = provider_calls st)
  /\ (mode <> lit "hybrid" -> after = provider_calls st).
Proof.
  cbv zeta. rewrite chat_counters.
  assert (Hf : provider_calls (fst (chat_plan w message file (lit "hybrid") st))
               = provider_calls (fst (_call_ai_plan w message st))).
  { rewrite chat_plan_hybrid.
    destruct (_call_ai_plan w message st) as [st1 [[ai_plan ai_error]|e]];
      [|reflexivity].
    destruct (truthy ai_plan); [|reflexivity].
    destruct (_normalize_plan ai_plan message); reflexivity. }
  assert (Hn : mode <> lit "hybrid" ->
               provider_calls (fst (chat_plan w message file mode st))
               = provider_calls st).
  { intros Hm. now rewrite (chat_plan_not_hybrid w message file mode st Hm). }
  destruct (str_eqb mode (lit "hybrid")) eqn:Em;
    [apply str_eqb_eq in Em; subst mode
    |assert (Hm : mode <> lit "hybrid")
       by (intros ->; rewrite str_eqb_refl in Em; discriminate)].
  - rewrite Hf, call_ai_plan_provider_calls. repeat split.
    + destruct (AI_ENABLED w); [|now left].
      destruct (try_one_or_none w message) as [H1 | H0].
      * right. exact (H1 (entered st)).
      * left. exact (H0 (entered st)).
    + now intros ->.
    + intros Hm. contradiction.
  - rewrite (Hn Hm). repeat split; auto.
Qed.

Lemma at_most_one_request_witness :
  AI_ENABLED disabled_world = false
  /\ provider_calls
       (fst (chat disabled_world (lit "demo") None (lit "hybrid") fresh))
     = provider_calls fresh.
Proof.
  split; [reflexivity|].
  apply (proj1 (proj2 (at_most_one_request disabled_world (lit "demo") None
                         (lit "hybrid") fresh))).
  reflexivity.
Defined.

(** Evaluate the comparisons of two literals. *)
Ltac eval_str_eqb :=
  repeat match goal with
         | |- context [str_eqb (lit ?a) (lit ?b)] =>
             let v := eval vm_compute in (str_eqb (lit a) (lit b)) in
             change (str_eqb (lit a) (lit b)) with v
         end.

Lemma try_one_openai (w : world) (message : pystr) :
  AI_PROVIDER w = lit "openai" \/ AI_PROVIDER w = lit "azure" ->
  client w <> None ->
  one_provider_call (_call_ai_plan_try w message).
Proof.
  intros Hp Hc. unfold _call_ai_plan_try, provider_is.
  destruct Hp as [-> | ->]; eval_str_eqb; cbn [orb];
    (destruct (client w); [auto 12 with requests|contradiction]).
Qed.

Lemma try_one_gemini (w : world) (message : pystr) :
  AI_PROVIDER w = lit "gemini" ->
  genai w <> None ->
  one_provider_call (_call_ai_plan_try w message).
Proof.
  intros Hp Hc. unfold _call_ai_plan_try, provider_is.
  rewrite Hp. eval_str_eqb. cbn [orb].
  destruct (genai w); [auto 12 with requests|contradiction].
Qed.

Lemma try_one_bedrock (w : world) (message : pystr) :
  AI_PROVIDER w = lit "bedrock" ->
  bedrock_client w <> None ->
  one_provider_call (_call_ai_plan_try w message).
Proof.
  intros Hp Hc. unfold _call_ai_plan_try, provider_is.
  rewrite Hp. eval_str_eqb. cbn [orb].
  destruct (bedrock_client w); [auto 12 with requests|contradiction].
Qed.

(** The provider and its client after an enabled start-up. *)
Lemma init_enabled_config (env : environ) (pk : packages) (w w' : world) :
  AI_ENABLED w = false ->
  _init_ai_provider env pk w = Ok w' ->
  AI_ENABLED w' = true ->
  ((AI_PROVIDER w' = lit "openai" \/ AI_PROVIDER w' = lit "azure")
   /\ client w' <> None)
  \/ (AI_PROVIDER w' = lit "gemini" /\ genai w' <> None)
  \/ (AI_PROVIDER w' = lit "bedrock" /\ bedrock_client w' <> None).
Proof.
  intros Hd H He.
  assert (Hsel : exists p w0,
             AI_ENABLED w0 = false /\ AI_PROVIDER w0 = p
             /\ init_selected env pk p w0 = Ok w').
  { unfold _init_ai_provider in H.
    destruct (str_eqb (AI_PROVIDER w) (lit "auto")).
    - destruct (auto_detect env) as [p|].
      + exists p, (set_provider w p). auto.
      + injection H as <-. cbn in He. congruence.
    - exists (AI_PROVIDER w), w. auto. }
  destruct Hsel as (p & w0 & Hd0 & Hp0 & Hs).
  destruct (init_selected_keeps env pk p w0 w' Hs) as [Hk _].
  rewrite Hk, Hp0.
  destruct (init_selected_enabled env pk p w0 w' Hd0 Hs He)
    as [[-> Hc] | [[-> Hc] | [[-> Hc] | [-> Hc]]]]; auto.
Qed.

(** X8: after a start-up from a disabled module, every call of the fetcher
    makes exactly one request to the provider when the result is enabled, and
    none when it is not: the return "Unsupported provider or client not
    initialized" is never reached. *)
Theorem started_fetcher_requests (env : environ) (pk : packages) (w w' : world)
        (message : pystr) (st : counters) :
  AI_ENABLED w = false ->
  _init_ai_provider env pk w = Ok w' ->
  provider_calls (fst (_call_ai_plan w' message st))
  = if AI_ENABLED w' then S (provider_calls st) else provider_calls st.
Proof.
  intros Hd H. rewrite call_ai_plan_provider_calls.
  destruct (AI_ENABLED w') eqn:He; [|reflexivity].
  destruct (init_enabled_config env pk w w' Hd H He)
    as [[Hp Hc] | [[Hp Hc] | [Hp Hc]]].
  - exact (try_one_openai w' message Hp Hc (entered st)).
  - exact (try_one_gemini w' message Hp Hc (entered st)).
  - exact (try_one_bedrock w' message Hp Hc (entered st)).
Qed.

Lemma started_fetcher_requests_witness :
  (AI_ENABLED (unconfigured azure_full) = false
   /\ _init_ai_provider azure_full all_packages (unconfigured azure_full)
      = Ok (started azure_full))
  /\ provider_calls (fst (_call_ai_plan (started azure_full) (lit "demo") fresh))
     = 1.
Proof.
  split; [split; reflexivity|].
  exact (started_fetcher_requests azure_full all_packages
           (unconfigured azure_full) (started azure_full) (lit "demo") fresh
           eq_refl eq_refl).
Defined.

(** X9: without credentials, and no provider named, the start-up returns
    with the provider disabled, and a request in hybrid mode is then answered
    from the static plan: the reply is the static summary followed by the
    line "AI fallback reason: No AI credentials found; running in static
    mode", and no request goes to a provider. *)
Theorem no_credentials_reply (env : environ) (pk : packages) (w : world)
        (message : pystr) (file : option upload) (st : counters) :
  AI_ENABLED w = false ->
  AI_PROVIDER w = lit "auto" ->
  auto_detect env = None ->
  builders_succeed w (_fallback_plan message file) message ->
  exists w' resp,
    _init_ai_provider env pk w = Ok w'
    /\ chat w' message file (lit "hybrid") st = (entered st, Ok resp)
    /\ reply resp
       = lit "Generated documentation for: " ++ message ++ newline
         ++ lit "AI fallback reason: No AI credentials found; running in static mode"
    /\ mode_used (ai resp) = lit "static"
    /\ error (ai resp)
       = Some (lit "No AI credentials found; running in static mode").
Proof.
  intros Hd Ha Hn Hb.
  set (msg := lit "No AI credentials found; running in static mode").
  exists (set_status w msg).
  assert (Hd' : AI_ENABLED (set_status w msg) = false) by exact Hd.
  pose proof (call_ai_plan_disabled (set_status w msg) message st Hd') as Hf.
  change (AI_STATUS_MSG (set_status w msg)) with msg in Hf.
  destruct (chat_respond_fallback (set_status w msg) message file (lit "hybrid")
              (Some msg) Hb) as (resp & Hr & Hreply).
  exists resp. split.
  - rewrite (init_auto env pk w Ha), Hn. reflexivity.
  - split.
    + rewrite chat_unfold, chat_plan_hybrid, Hf. cbn [truthy]. now rewrite Hr.
    + split.
      * rewrite Hreply. rewrite <- app_assoc. reflexivity.
      * apply chat_respond_ai in Hr as (_ & Hm & He). auto.
Qed.

Lemma no_credentials_reply_witness :
  (AI_ENABLED (unconfigured empty_environ) = false
   /\ AI_PROVIDER (unconfigured empty_environ) = lit "auto"
   /\ auto_detect empty_environ = None
   /\ builders_succeed (unconfigured empty_environ)
        (_fallback_plan (lit "demo") None) (lit "demo"))
  /\ exists w' resp,
       _init_ai_provider empty_environ all_packages (unconfigured empty_environ)
       = Ok w'
       /\ chat w' (lit "demo") None (lit "hybrid") fresh = (entered fresh, Ok resp)
       /\ reply resp
          = lit "Generated documentation for: " ++ lit "demo" ++ newline
            ++ lit "AI fallback reason: No AI credentials found; running in static mode"
       /\ mode_used (ai resp) = lit "static"
       /\ error (ai resp)
          = Some (lit "No AI credentials found; running in static mode").
Proof.
  assert (Hb : builders_succeed (unconfigured empty_environ)
                 (_fallback_plan (lit "demo") None) (lit "demo"))
    by (repeat split).
  split; [repeat split|].
  exact (no_credentials_reply empty_environ all_packages
           (unconfigured empty_environ) (lit "demo") None fresh
           eq_refl eq_refl eq_refl Hb).
Defined.

(** ** More on [strip] and the normalizer *)

Lemma lstrip_starts_clean (s : pystr) : starts_clean (lstrip s) = true.
Proof.
  induction s as [|c s IH]; [reflexivity|]. simpl.
  destruct (is_space c) eqn:E; [assumption|]. simpl. now rewrite E.
Qed.

Lemma lstrip_clean (s : pystr) : starts_clean s = true -> lstrip s = s.
Proof.
  destruct s as [|c s]; [reflexivity|]. simpl. intros H.
  apply negb_true_iff in H. now rewrite H.
Qed.

Lemma lstrip_snoc (l : pystr) (c : N) :
  is_space c = false -> lstrip (l ++ [c]) = lstrip l ++ [c].
Proof.
  intros Hc. induction l as [|a l IH]; simpl.
  - now rewrite Hc.
  - destruct (is_space a); [assumption|reflexivity].
Qed.

Lemma rstrip_starts_clean (s : pystr) :
  starts_clean s = true -> starts_clean (rstrip s) = true.
Proof.
  destruct s as [|c s]; [reflexivity|]. simpl. intros H.
  apply negb_true_iff in H. unfold rstrip. simpl.
  rewrite (lstrip_snoc _ c H), rev_app_distr. simpl. now rewrite H.
Qed.

Lemma lstrip_idem (s : pystr) : lstrip (lstrip s) = lstrip s.
Proof. apply lstrip_clean, lstrip_starts_clean. Qed.

Lemma rstrip_idem (s : pystr) : rstrip (rstrip s) = rstrip s.
Proof. unfold rstrip. now rewrite rev_involutive, lstrip_idem. Qed.

(** [strip] leaves nothing for a second [strip]. *)
Lemma strip_idem (s : pystr) : strip (strip s) = strip s.
Proof.
  unfold strip.
  rewrite (lstrip_clean (rstrip (lstrip s))).
  - apply rstrip_idem.
  - apply rstrip_starts_clean, lstrip_starts_clean.
Qed.

Lemma strip_trimmed (s : pystr) : blank s = false -> trimmed (strip s) = true.
Proof.
  intros H. unfold trimmed.
  rewrite is_nil_strip, H, strip_idem, str_eqb_refl. reflexivity.
Qed.

Lemma kept_trimmed (bs : list pystr) :
  forallb trimmed (map strip (filter (fun s => negb (blank s)) bs)) = true.
Proof.
  induction bs as [|b bs IH]; [reflexivity|]. simpl.
  destruct (blank b) eqn:E; simpl; [assumption|].
  now rewrite (strip_trimmed b E), IH.
Qed.

Lemma expected_section_trimmed (section : json) :
  expected_section section = true ->
  exists ps, normalize_section section = Ok (section_json ps)
             /\ is_nil (sec_heading ps) = false
             /\ is_nil (sec_bullets ps) = false
             /\ forallb trimmed (sec_bullets ps) = true.
Proof.
  destruct section; try discriminate. simpl. intros H.
  apply andb_true_iff in H as [Hh Hb].
  apply field_str_or_falsy in Hh.
  destruct (or_default_str _ (lit "Section") Hh eq_refl) as (h & Eh & Hn).
  destruct (field_strings _ _ Hb) as (bs & Ebs).
  unfold normalize_section, cleaned_bullets. simpl.
  rewrite Eh, Ebs. simpl. rewrite clean_strings. simpl.
  rewrite py_or_list.
  pose proof (kept_trimmed bs) as Hk.
  set (kept := map strip (filter (fun s => negb (blank s)) bs)) in *.
  exists {| sec_heading := h;
            sec_bullets := if is_nil kept then [lit "Details pending."] else kept |}.
  unfold section_json. simpl. destruct kept; auto.
Qed.

Lemma expected_sections_trimmed (l : list json) :
  forallb expected_section l = true ->
  exists pss,
    mapM normalize_section l = Ok (map section_json pss)
    /\ forallb (fun s => negb (is_nil (sec_bullets s))) pss = true
    /\ forallb (fun s => negb (is_nil (sec_heading s))
                         && forallb trimmed (sec_bullets s)) pss = true
    /\ is_nil pss = is_nil l.
Proof.
  induction l as [|sec l IH]; intros H.
  - now exists [].
  - simpl in H. apply andb_true_iff in H as [Hs Hl].
    destruct (expected_section_trimmed _ Hs) as (ps & Eps & Hh & Hb & Ht).
    destruct (IH Hl) as (pss & Epss & Hall & Htr & _).
    exists (ps :: pss). simpl. rewrite Eps. simpl. rewrite Epss. simpl.
    rewrite Hh, Hb, Ht, Hall, Htr. auto.
Qed.

(** X10: on an input of the expected types the claims of the result, and
    the bullets that come from the input, are non-empty and carry no
    whitespace at either end.  A second normalization returns the result
    unchanged exactly when the input had a section or the summary of the
    result is itself trimmed: the bullet of the "Overview" section is the
    summary as it is, which a second pass trims. *)
Theorem normalize_twice (plan : json) (seed seed' : pystr) :
  expected_plan plan = true ->
  exists p : DocumentationPlan,
    _normalize_plan plan seed = Ok (plan_json p)
    /\ forallb trimmed (dp_claims p) = true
    /\ (has_sections plan = true -> plan_trimmed p = true)
    /\ (_normalize_plan (plan_json p) seed' = Ok (plan_json p)
        <-> has_sections plan = true \/ trimmed (dp_summary p) = true).
Proof.
  destruct plan; try discriminate. simpl. intros H.
  repeat (apply andb_true_iff in H as [H ?]).
  repeat match goal with
         | Hf : absent_or str_or_falsy _ _ = true |- _ =>
             apply field_str_or_falsy in Hf
         end.
  destruct (or_default_str _ (lit "ASTHRA Project Documentation") H eq_refl)
    as (title & Et & Htitle).
  destruct (or_default_str
              (dict_field d (lit "summary") JNull)
              (lit "Generated documentation for: " ++ seed))
    as (summary & Es & Hsummary); [assumption|reflexivity|].
  destruct (or_default_str _ (lit "Generated via ASTHRA.") H0 eq_refl)
    as (note & En & Hnote).
  destruct (field_sections _ H2) as (secs & Esecs & Hsecs).
  destruct (expected_sections_trimmed _ Hsecs) as (pss & Epss & Hall & Htr & Hnil).
  destruct (field_strings _ _ H1) as (cl & Ecl).
  pose proof (kept_trimmed cl) as Hk.
  set (kept := map strip (filter (fun s => negb (blank s)) cl)) in *.
  set (p := {| dp_title := title;
               dp_summary := summary;
               dp_sections :=
                 if is_nil pss
                 then [{| sec_heading := lit "Overview"; sec_bullets := [summary] |}]
                 else pss;
               dp_claims :=
                 if is_nil kept
                 then [lit "Automated documentation generation based on user input."]
                 else kept;
               dp_certificate_note := note |}).
  assert (Hclaims : forallb trimmed (dp_claims p) = true).
  { unfold p. cbn [dp_claims]. destruct kept; [reflexivity|exact Hk]. }
  assert (Hinv : plan_invariants p = true).
  { unfold plan_invariants, p. simpl.
    rewrite Htitle, Hsummary, Hnote. simpl.
    destruct pss as [|ps pss]; simpl.
    - now destruct kept.
    - simpl in Hall. rewrite Hall. now destruct kept. }
  assert (Hhas : (match dict_field d (lit "sections") (JList []) with
                  | JList (_ :: _) => true
                  | _ => false
                  end) = negb (is_nil pss)).
  { rewrite Esecs, Hnil. now destruct secs. }
  assert (Htrim : plan_trimmed p
                  = (negb (is_nil pss) || trimmed summary)).
  { unfold plan_trimmed. rewrite Hclaims, andb_true_r. unfold p.
    cbn [dp_sections]. destruct pss as [|ps pss].
    - cbn. now rewrite !andb_true_r.
    - cbn [is_nil negb orb]. exact Htr. }
  exists p. split.
  - unfold _normalize_plan, py_get. cbn [rbind].
    rewrite Et, Es, En, Esecs, Ecl. cbn [rbind py_iter].
    rewrite Epss. cbn [rbind]. rewrite clean_strings. cbn [rbind].
    fold kept. rewrite py_or_list.
    unfold plan_json, p.
    cbn [dp_title dp_summary dp_sections dp_claims dp_certificate_note].
    destruct pss, kept; reflexivity.
  - split; [exact Hclaims|]. rewrite Hhas. split.
    + intros Hs. rewrite Htrim, Hs. reflexivity.
    + split.
      * intros Hfix. apply fixed_plan_trimmed in Hfix as [_ Hfix].
        rewrite Htrim in Hfix. apply orb_true_iff in Hfix. exact Hfix.
      * intros Hor. apply trimmed_plan_fixed; [exact Hinv|].
        rewrite Htrim. apply orb_true_iff. exact Hor.
Qed.

Lemma normalize_twice_witness :
  expected_plan title_only = true
  /\ exists p : DocumentationPlan,
       _normalize_plan title_only (lit "demo ") = Ok (plan_json p)
       /\ forallb trimmed (dp_claims p) = true
       /\ (has_sections title_only = true -> plan_trimmed p = true)
       /\ (_normalize_plan (plan_json p) (lit "again") = Ok (plan_json p)
           <-> has_sections title_only = true \/ trimmed (dp_summary p) = true).
Proof.
  split; [reflexivity|].
  apply (normalize_twice title_only (lit "demo ") (lit "again")). reflexivity.
Defined.

(** A message that ends with a space: the second normalization differs. *)
Example normalize_twice_differs :
  exists once twice,
    _normalize_plan title_only (lit "demo ") = Ok once
    /\ _normalize_plan once (lit "demo ") = Ok twice
    /\ once <> twice.
Proof.
  do 2 eexists. split; [reflexivity|]. split; [reflexivity|].
  intros H. vm_compute in H. discriminate H.
Qed.

(** ** The static plan *)

(** Evaluate [trimmed] and [is_nil] on literals. *)
Ltac eval_literals :=
  repeat match goal with
         | |- context [trimmed (lit ?s)] =>
             let v := eval vm_compute in (trimmed (lit s)) in
             change (trimmed (lit s)) with v
         | |- context [is_nil (lit ?s)] =>
             let v := eval vm_compute in (is_nil (lit s)) in
             change (is_nil (lit s)) with v
         end.

(** X11: the static plan satisfies the DocumentationPlan invariants for
    every message and upload, and the normalizer returns it unchanged when
    there is no upload; with an upload it does so exactly when the line
    "Uploaded file: <name>" carries no whitespace at its end (an empty name,
    or one that ends with a space, gets the line trimmed). *)
Theorem fallback_plan_valid (message : pystr) (file : option upload)
        (seed : pystr) :
  exists p : DocumentationPlan,
    _fallback_plan message file = plan_json p
    /\ plan_invariants p = true
    /\ (_normalize_plan (_fallback_plan message file) seed
        = Ok (_fallback_plan message file)
        <-> match file with
            | None => True
            | Some f => trimmed (lit "Uploaded file: " ++ printed_filename f) = true
            end).
Proof.
  set (file_note :=
         match file with
         | Some f => lit "Uploaded file: " ++ printed_filename f
         | None => lit "No upload provided."
         end).
  set (p :=
         {| dp_title := lit "ASTHRA Project Documentation";
            dp_summary := lit "Generated documentation for: " ++ message;
            dp_sections :=
              [{| sec_heading := lit "Overview";
                  sec_bullets := [lit "Project statement received and logged.";
                                  lit "ASTHRA generated offline demo content.";
                                  file_note] |};
               {| sec_heading := lit "Objectives";
                  sec_bullets :=
                    [lit "Demonstrate PDF, PPT, patent draft, and certificates.";
                     lit "Content is sample-only when AI is disabled."] |};
               {| sec_heading := lit "Next Steps";
                  sec_bullets :=
                    [lit "Enable AI (set OPENAI_API_KEY) for richer drafts.";
                     lit "Refine requirements and rerun generation."] |}];
            dp_claims :=
              [lit "A system that generates multiple documentation artifacts from one input.";
               lit "Automated slide and patent-style drafting based on project descriptions."];
            dp_certificate_note :=
              lit "Demo certificate generated in offline mode." |}).
  assert (Hp : _fallback_plan message file = plan_json p).
  { unfold p, file_note, printed_filename. destruct file as [f|]; reflexivity. }
  assert (Hinv : plan_invariants p = true) by reflexivity.
  assert (Htrim : plan_trimmed p = trimmed file_note).
  { unfold plan_trimmed, p.
    cbn [dp_sections dp_claims forallb sec_heading sec_bullets].
    eval_literals. cbn [negb andb]. now rewrite !andb_true_r. }
  exists p. split; [exact Hp|]. split; [exact Hinv|].
  rewrite Hp.
  assert (Hiff : _normalize_plan (plan_json p) seed = Ok (plan_json p)
                 <-> trimmed file_note = true).
  { rewrite <- Htrim. split.
    - intros H. now apply fixed_plan_trimmed in H.
    - intros H. now apply trimmed_plan_fixed. }
  rewrite Hiff. unfold file_note. destruct file as [f|]; [reflexivity|].
  split; [auto|reflexivity].
Qed.

Lemma fallback_plan_valid_witness :
  exists p : DocumentationPlan,
    _fallback_plan (lit "demo") (Some spaced_upload) = plan_json p
    /\ plan_invariants p = true
    /\ (_normalize_plan (_fallback_plan (lit "demo") (Some spaced_upload))
          (lit "demo")
        = Ok (_fallback_plan (lit "demo") (Some spaced_upload))
        <-> trimmed (lit "Uploaded file: " ++ printed_filename spaced_upload)
            = true).
Proof.
  exact (fallback_plan_valid (lit "demo") (Some spaced_upload) (lit "demo")).
Defined.

(** ** The reply *)

Lemma join_two (s t : pystr) :
  py_join newline [JStr s; JStr t] = Ok (s ++ newline ++ t).
Proof. reflexivity. Qed.

Lemma join_one_inv (v : json) (text : pystr) :
  py_join newline [v] = Ok text -> v = JStr text.
Proof.
  unfold py_join. simpl. destruct v; try discriminate.
  intros [= <-]. reflexivity.
Qed.

Lemma join_two_inv (v : json) (t text : pystr) :
  py_join newline [v; JStr t] = Ok text ->
  exists s, v = JStr s /\ text = s ++ newline ++ t.
Proof.
  unfold py_join. simpl. destruct v; try discriminate.
  intros [= <-]. now exists s.
Qed.

(** X12: every response comes from a plan whose summary is a string: the
    reply is that summary, followed by one more line exactly when the
    fetcher's error is a string that is not empty, "AI fallback reason: "
    and the error (the plan in use being the static one).  An empty error
    string adds no line, and a plan whose summary is not a string gets no
    response. *)
Theorem reply_shape (w : world) (message : pystr) (file : option upload)
        (mode : pystr) (st st' : counters) (resp : response) :
  chat w message file mode st = (st', Ok resp) ->
  exists plan summary ai_used,
    chat_plan w message file mode st = (st', Ok (plan, error (ai resp), ai_used))
    /\ py_item plan "summary" = Ok (JStr summary)
    /\ reply resp
       = summary
         ++ match error (ai resp) with
            | Some (c :: e) => newline ++ lit "AI fallback reason: " ++ c :: e
            | _ => []
            end
    /\ (is_set (error (ai resp)) = true ->
        ai_used = false /\ plan = _fallback_plan message file).
Proof.
  rewrite chat_unfold.
  destruct (chat_plan w message file mode st)
    as [st1 [[[plan ai_error] ai_used]|e]] eqn:Hp; [|discriminate].
  intros [= -> Hr].
  destruct (chat_respond_ai w message mode plan ai_error ai_used resp Hr)
    as (_ & _ & He).
  rewrite He.
  assert (Hu : is_set ai_error = true ->
               ai_used = false /\ plan = _fallback_plan message file).
  { intros Hs. unfold chat_plan in Hp.
    destruct (str_eqb mode (lit "hybrid")).
    - unfold bind in Hp.
      destruct (_call_ai_plan w message st) as [st1 [[ai_plan err]|e]] eqn:Ef;
        [|discriminate].
      destruct (call_ai_plan_plan_or_error w message st st1 ai_plan err Ef)
        as [-> | ->].
      + destruct (truthy ai_plan).
        * unfold lift, ret in Hp.
          destruct (_normalize_plan ai_plan message); [|discriminate].
          injection Hp as _ _ <- _. discriminate Hs.
        * injection Hp as _ _ <- _. discriminate Hs.
      + cbn [truthy] in Hp. now injection Hp as _ <- _ <-.
    - now injection Hp as _ <- _ <-. }
  exists plan.
  unfold chat_respond in Hr.
  repeat match type of Hr with
         | context [rbind (_build_report_pdf ?a ?b) _] =>
             destruct (_build_report_pdf a b); [cbn [rbind] in Hr|discriminate Hr]
         | context [rbind (_build_ppt ?a ?b) _] =>
             destruct (_build_ppt a b); [cbn [rbind] in Hr|discriminate Hr]
         | context [rbind (_build_patent_pdf ?a ?b ?c) _] =>
             destruct (_build_patent_pdf a b c); [cbn [rbind] in Hr|discriminate Hr]
         | context [rbind (_build_certificates_zip ?a ?b ?c) _] =>
             destruct (_build_certificates_zip a b c);
               [cbn [rbind] in Hr|discriminate Hr]
         end.
  destruct (py_item plan "summary") as [sv|e]; [cbn [rbind] in Hr|discriminate Hr].
  destruct (py_join newline (reply_lines sv ai_error ai_used)) as [text|e] eqn:Hj;
    [cbn [rbind] in Hr|discriminate Hr].
  injection Hr as <-. cbn [reply].
  unfold reply_lines, annotate in Hj.
  destruct ai_error as [[|c e]|]; cbn [is_nil negb andb] in Hj.
  - apply join_one_inv in Hj as ->. exists text, ai_used.
    rewrite app_nil_r. auto.
  - destruct (Hu eq_refl) as [-> Hplan]. cbn [negb] in Hj.
    apply join_two_inv in Hj as (s & -> & ->). exists s, false. auto.
  - apply join_one_inv in Hj as ->. exists text, ai_used.
    rewrite app_nil_r. auto.
Qed.

Lemma reply_shape_witness :
  exists resp,
    chat timeout_world (lit "demo") None (lit "hybrid") fresh
    = (one_request, Ok resp)
    /\ exists plan summary ai_used,
         chat_plan timeout_world (lit "demo") None (lit "hybrid") fresh
         = (one_request, Ok (plan, error (ai resp), ai_used))
         /\ py_item plan "summary" = Ok (JStr summary)
         /\ reply resp
            = summary
              ++ match error (ai resp) with
                 | Some (c :: e) => newline ++ lit "AI fallback reason: " ++ c :: e
                 | _ => []
                 end
         /\ (is_set (error (ai resp)) = true ->
             ai_used = false /\ plan = _fallback_plan (lit "demo") None).
Proof.
  eexists. split; [reflexivity|].
  apply (reply_shape timeout_world (lit "demo") None (lit "hybrid")
           fresh one_request).
  reflexivity.
Defined.

(** ** The document builders *)

Section Builders.

Import Render.

Variable library : list call -> call -> option exn.
Variable textwrap_wrap : json -> Z -> result (list pystr).
Variable str_other : json -> pystr.
Variable FILES_DIR : pystr.

Lemma emits_rret (Q : call -> Prop) {A} (P : A -> Prop) (a : A) :
  P a -> emits_with Q P (rret a).
Proof. intros H log. exists []. rewrite app_nil_r. simpl. auto. Qed.

Lemma emits_rlift (Q : call -> Prop) {A} (r : result A) :
  emits_only Q (rlift r).
Proof.
  intros log. exists []. rewrite app_nil_r. simpl.
  repeat split; auto. now destruct r.
Qed.

Lemma emits_emit (Q : call -> Prop) (c : call) :
  Q c -> emits_only Q (emit library c).
Proof.
  intros H log. exists [c]. simpl. repeat split; auto.
  now destruct (library log c).
Qed.

Lemma emits_rthen (Q : call -> Prop) {A B} (P : A -> Prop) (P' : B -> Prop)
      (m : R A) (k : A -> R B) :
  emits_with Q P m -> (forall a, P a -> emits_with Q P' (k a)) ->
  emits_with Q P' (rthen m k).
Proof.
  intros Hm Hk log. unfold rthen.
  destruct (Hm log) as (added & E & Ha & Hp).
  destruct (m log) as [log' [a|e]]; simpl in E, Hp; subst log'.
  - destruct (Hk a Hp (log ++ added)) as (added' & E' & Ha' & Hp').
    exists (added ++ added'). rewrite E', app_assoc.
    repeat split; auto. now apply Forall_app.
  - exists added. simpl. auto.
Qed.

Lemma emits_for_each (Q : call -> Prop) {A S} (Inv : S -> Prop)
      (items : list A) (body : S -> A -> R S) (s : S) :
  (forall s a, Inv s -> emits_with Q Inv (body s a)) ->
  Inv s -> emits_with Q Inv (for_each items body s).
Proof.
  intros Hb. revert s. induction items as [|a items IH]; intros s Hs; simpl.
  - now apply emits_rret.
  - apply (emits_rthen Q Inv Inv); auto.
Qed.

Lemma page_breaks_app (a b : list call) :
  page_breaks (a ++ b) = page_breaks a + page_breaks b.
Proof. unfold page_breaks. now rewrite filter_app, List.length_app. Qed.

Lemma breaks_weaken (n n' : nat) {A} (m : R A) :
  n <= n' -> breaks_at_most n m -> breaks_at_most n' m.
Proof.
  intros Hn Hm log. destruct (Hm log) as (added & E & Ha).
  exists added. split; [assumption|lia].
Qed.

Lemma breaks_rret {A} (a : A) : breaks_at_most 0 (rret a).
Proof. intros log. exists []. now rewrite app_nil_r. Qed.

Lemma breaks_rlift {A} (r : result A) : breaks_at_most 0 (rlift r).
Proof. intros log. exists []. now rewrite app_nil_r. Qed.

Lemma breaks_emit (c : call) :
  c <> ShowPage -> breaks_at_most 0 (emit library c).
Proof.
  intros H log. exists [c]. split; [reflexivity|].
  destruct c; try contradiction; cbn; lia.
Qed.

Lemma breaks_show_page : breaks_at_most 1 (emit library ShowPage).
Proof. intros log. exists [ShowPage]. split; [reflexivity|]. cbn. lia. Qed.

Lemma breaks_rthen (n1 n2 : nat) {A B} (m : R A) (k : A -> R B) :
  breaks_at_most n1 m -> (forall a, breaks_at_most n2 (k a)) ->
  breaks_at_most (n1 + n2) (rthen m k).
Proof.
  intros Hm Hk log. unfold rthen.
  destruct (Hm log) as (added & E & Ha).
  destruct (m log) as [log' [a|e]]; simpl in E; subst log'.
  - destruct (Hk a (log ++ added)) as (added' & E' & Ha').
    exists (added ++ added'). rewrite E', app_assoc. split; [reflexivity|].
    rewrite page_breaks_app. lia.
  - exists added. split; [reflexivity|lia].
Qed.

Lemma breaks_for_each (n : nat) {A S} (items : list A)
      (body : S -> A -> R S) (s : S) :
  (forall s a, breaks_at_most n (body s a)) ->
  breaks_at_most (n * List.length items) (for_each items body s).
Proof.
  intros Hb. revert s. induction items as [|a items IH]; intros s; simpl.
  - rewrite Nat.mul_0_r. apply breaks_rret.
  - apply (breaks_weaken (n + n * List.length items)); [lia|].
    apply breaks_rthen; auto.
Qed.

Lemma breaks_rlift_ok (n : nat) {A B} (a : A) (k : A -> R B) :
  breaks_at_most n (k a) -> breaks_at_most n (rthen (rlift (Ok a)) k).
Proof. intros H log. exact (H log). Qed.

(** The steps of a proof that a sequence of calls makes no page break. *)
Ltac no_breaks :=
  repeat first
    [ apply breaks_rret
    | apply breaks_rlift
    | apply breaks_emit; discriminate
    | apply (breaks_rthen 0 0); [|intros ?] ].

Lemma draw_lines_emits (Q : call -> Prop) (x step : Z) (lines : list pystr) (y : Z) :
  (forall y t, Q (DrawString x y t)) ->
  emits_only Q (draw_lines library x step lines y).
Proof.
  intros H. unfold draw_lines.
  apply (emits_for_each Q (fun _ => True)); [|exact I]. intros s a _.
  apply (emits_rthen Q (fun _ => True) (fun _ => True));
    [apply emits_emit, H|intros ? _; now apply emits_rret].
Qed.

Lemma draw_lines_breaks (x step : Z) (lines : list pystr) (y : Z) :
  breaks_at_most 0 (draw_lines library x step lines y).
Proof.
  unfold draw_lines.
  apply (breaks_weaken (0 * List.length lines)); [lia|].
  apply breaks_for_each. intros s a. no_breaks.
Qed.

Lemma draw_header_breaks (title : json) :
  breaks_at_most 0 (_draw_header library title).
Proof. unfold _draw_header. no_breaks. Qed.

Lemma draw_paragraph_breaks (text : json) (y width : Z) :
  breaks_at_most 0 (_draw_paragraph library textwrap_wrap text y width).
Proof.
  unfold _draw_paragraph. apply (breaks_rthen 0 0); [apply breaks_rlift|].
  intros lines. apply draw_lines_breaks.
Qed.

(** What [draw_lines] has done when it returns. *)
Lemma draw_lines_returns (x step : Z) (lines : list pystr) (y y' : Z)
      (log log' : list call) :
  draw_lines library x step lines y log = (log', Ok y') ->
  log' = log ++ drawn x step lines y
  /\ y' = (y - step * Z.of_nat (List.length lines))%Z.
Proof.
  unfold draw_lines. revert y log.
  induction lines as [|line lines IH]; intros y log; simpl.
  - unfold rret. intros [= <- <-]. rewrite app_nil_r. split; [reflexivity|lia].
  - unfold rthen at 1. unfold rthen at 1. unfold emit at 1.
    destruct (library log (DrawString x y (JStr line))); [discriminate|].
    unfold rret at 1. intros H. apply IH in H as [-> ->].
    rewrite <- app_assoc. split; [reflexivity|lia].
Qed.

(** X13: a paragraph that [_draw_paragraph] has drawn is the lines that
    [textwrap.wrap] made of the text, at x = 60, one every 16 points from [y]
    downwards, and the result is [y] less 16 for every line; for a text that
    counts as false (the empty string) [textwrap.wrap] is not called, nothing
    is drawn and [y] comes back.  No position is checked against the page. *)
Theorem draw_paragraph_returns (text : json) (y width y' : Z)
        (log log' : list call) :
  _draw_paragraph library textwrap_wrap text y width log = (log', Ok y') ->
  exists lines,
    _wrap_lines textwrap_wrap text width = Ok lines
    /\ (truthy text = false -> lines = [])
    /\ log' = log ++ drawn 60 16 lines y
    /\ y' = (y - 16 * Z.of_nat (List.length lines))%Z.
Proof.
  unfold _draw_paragraph, rthen, rlift.
  destruct (_wrap_lines textwrap_wrap text width) as [lines|e] eqn:Hw;
    [|discriminate].
  intros H. apply draw_lines_returns in H as [-> ->].
  exists lines. repeat split.
  intros Ht. unfold _wrap_lines in Hw. rewrite Ht in Hw. now injection Hw.
Qed.

Lemma draw_bullet_emits (y : Z) (bullet : json) :
  emits_only heading_in_page (draw_bullet library textwrap_wrap str_other y bullet).
Proof.
  unfold draw_bullet.
  apply (emits_rthen _ (fun _ => True) (fun _ => True)); [apply emits_rlift|].
  intros lines _. apply draw_lines_emits. intros; exact I.
Qed.

Lemma draw_bullet_breaks (y : Z) (bullet : json) :
  breaks_at_most 0 (draw_bullet library textwrap_wrap str_other y bullet).
Proof.
  unfold draw_bullet. apply (breaks_rthen 0 0); [apply breaks_rlift|].
  intros lines. apply draw_lines_breaks.
Qed.

(** The page check of lines 313-315 leaves a position that is on the
    page. *)
Lemma page_check_emits (y : Z) :
  emits_with heading_in_page (fun y0 => (120 <= y0)%Z)
    (if (y <? 120)%Z
     then rthen (emit library ShowPage)
                (fun _ => _draw_header library (JStr (lit "ASTHRA Report (cont.)")))
     else rret y).
Proof.
  destruct (Z.ltb_spec y 120).
  - apply (emits_rthen _ (fun _ => True)); [apply emits_emit; exact I|].
    intros _ _. unfold _draw_header.
    apply (emits_rthen _ (fun _ => True)); [apply emits_emit; exact I|].
    intros _ _.
    apply (emits_rthen _ (fun _ => True)); [apply emits_emit; cbn; lia|].
    intros _ _.
    apply (emits_rthen _ (fun _ => True)); [apply emits_emit; exact I|].
    intros _ _. apply emits_rret. lia.
  - now apply emits_rret.
Qed.

Lemma draw_section_emits (y : Z) (section : json) :
  emits_only heading_in_page
             (draw_section library textwrap_wrap str_other y section).
Proof.
  unfold draw_section.
  apply (emits_rthen _ (fun _ => True)); [apply emits_rlift|]. intros heading _.
  apply (emits_rthen _ (fun _ => True)); [apply emits_rlift|]. intros bullets _.
  apply (emits_rthen _ (fun y0 => (120 <= y0)%Z)); [apply page_check_emits|].
  intros y0 Hy0.
  apply (emits_rthen _ (fun _ => True)); [apply emits_emit; exact I|]. intros _ _.
  apply (emits_rthen _ (fun _ => True)); [apply emits_emit; exact Hy0|].
  intros _ _.
  apply (emits_rthen _ (fun _ => True)); [apply emits_emit; exact I|]. intros _ _.
  apply (emits_rthen _ (fun _ => True)); [apply emits_rlift|]. intros items _.
  apply (emits_rthen _ (fun _ => True)); [|intros ? _; now apply emits_rret].
  apply (emits_for_each _ (fun _ => True)); [|exact I].
  intros s a _. apply draw_bullet_emits.
Qed.

Lemma draw_section_breaks (y : Z) (section : json) :
  breaks_at_most 1 (draw_section library textwrap_wrap str_other y section).
Proof.
  unfold draw_section.
  apply (breaks_rthen 0 1); [apply breaks_rlift|]. intros heading.
  apply (breaks_rthen 0 1); [apply breaks_rlift|]. intros bullets.
  apply (breaks_rthen 1 0).
  - destruct (y <? 120)%Z.
    + apply (breaks_rthen 1 0); [apply breaks_show_page|].
      intros _. apply draw_header_breaks.
    + apply (breaks_weaken 0); [lia|apply breaks_rret].
  - intros y0.
    apply (breaks_rthen 0 0); [apply breaks_emit; discriminate|]. intros _.
    apply (breaks_rthen 0 0); [apply breaks_emit; discriminate|]. intros _.
    apply (breaks_rthen 0 0); [apply breaks_emit; discriminate|]. intros _.
    apply (breaks_rthen 0 0); [apply breaks_rlift|]. intros items.
    apply (breaks_rthen 0 0); [|intros ?; apply breaks_rret].
    apply (breaks_weaken (0 * List.length items)); [lia|].
    apply breaks_for_each. intros s a. apply draw_bullet_breaks.
Qed.

(** X14: whatever the sections, the libraries and the start position,
    [_draw_sections] draws nothing at the left margin (x = 60: the headings
    and the header of a new page) below y = 120, and it starts at most one
    new page per section: only a heading is checked against the page, the
    lines of the bullets under it are not. *)
Theorem draw_sections_pages (sections : json) (start_y : Z) :
  emits_only heading_in_page
             (_draw_sections library textwrap_wrap str_other sections start_y)
  /\ forall items,
       py_iter sections = Ok items ->
       breaks_at_most (List.length items)
         (_draw_sections library textwrap_wrap str_other sections start_y).
Proof.
  unfold _draw_sections. split.
  - apply (emits_rthen _ (fun _ => True)); [apply emits_rlift|]. intros items _.
    apply (emits_rthen _ (fun _ => True)); [|intros ? _; now apply emits_rret].
    apply (emits_for_each _ (fun _ => True)); [|exact I].
    intros s a _. apply draw_section_emits.
  - intros items Hi. rewrite Hi. apply breaks_rlift_ok.
    apply (breaks_weaken (1 * List.length items + 0)); [lia|].
    apply breaks_rthen; [|intros ?; apply breaks_rret].
    apply breaks_for_each. apply draw_section_breaks.
Qed.

Lemma draw_claim_breaks (state : nat * Z) (claim : json) :
  breaks_at_most 0 (draw_claim library textwrap_wrap str_other state claim).
Proof.
  destruct state as [idx y]. unfold draw_claim.
  apply (breaks_rthen 0 0); [apply breaks_rlift|]. intros lines.
  apply (breaks_rthen 0 0); [apply draw_lines_breaks|]. intros y'.
  apply breaks_rret.
Qed.

(** X15: the patent draft is one page: whatever the plan, the message, the
    number of claims and the libraries, [_build_patent_pdf] never calls
    [showPage]; the lines of the claims go down by 14 points each without a
    check. *)
Theorem patent_pdf_is_one_page (plan : json) (message path : pystr) :
  breaks_at_most 0
    (_build_patent_pdf library textwrap_wrap str_other plan message path).
Proof.
  unfold _build_patent_pdf.
  apply (breaks_rthen 0 0); [apply breaks_emit; discriminate|]. intros _.
  apply (breaks_rthen 0 0); [apply draw_header_breaks|]. intros y.
  apply (breaks_rthen 0 0); [apply breaks_emit; discriminate|]. intros _.
  apply (breaks_rthen 0 0); [apply draw_paragraph_breaks|]. intros y0.
  apply (breaks_rthen 0 0); [apply breaks_emit; discriminate|]. intros _.
  apply (breaks_rthen 0 0); [apply breaks_emit; discriminate|]. intros _.
  apply (breaks_rthen 0 0); [apply breaks_emit; discriminate|]. intros _.
  apply (breaks_rthen 0 0); [apply breaks_rlift|]. intros claims.
  apply (breaks_rthen 0 0); [apply breaks_rlift|]. intros items.
  apply (breaks_rthen 0 0); [|intros ?; apply breaks_emit; discriminate].
  apply (breaks_weaken (0 * List.length items)); [lia|].
  apply breaks_for_each. apply draw_claim_breaks.
Qed.

Lemma slides_app (a b : list call) : slides (a ++ b) = slides a + slides b.
Proof. unfold slides. now rewrite filter_app, List.length_app. Qed.

Lemma adds_emit_last (c : call) :
  slides [c] = 0 -> adds_slides 0 (emit library c).
Proof.
  intros H log log' a. unfold emit. intros [= <- _]. now exists [c].
Qed.

Lemma adds_rret {A} (a : A) : adds_slides 0 (rret a).
Proof. intros log log' b [= <- _]. exists []. now rewrite app_nil_r. Qed.

Lemma adds_emit_then (c : call) (n : nat) {B} (k : unit -> R B) :
  adds_slides n (k tt) ->
  adds_slides (slides [c] + n) (rthen (emit library c) k).
Proof.
  intros Hk log log' b. unfold rthen, emit.
  destruct (library log c); [discriminate|].
  intros H. apply Hk in H as (added & -> & Hn).
  exists (c :: added). split.
  - now rewrite <- app_assoc.
  - change (c :: added) with ([c] ++ added). rewrite slides_app. lia.
Qed.

Lemma adds_rlift_then (n : nat) {A B} (r : result A) (k : A -> R B) :
  (forall a, r = Ok a -> adds_slides n (k a)) ->
  adds_slides n (rthen (rlift r) k).
Proof.
  intros Hk log log' b. unfold rthen, rlift.
  destruct r as [a|e]; [|discriminate]. now apply Hk.
Qed.

Lemma adds_for_each (c : nat) {A S} (items : list A) (body : S -> A -> R S)
      (s : S) :
  (forall s a, adds_slides c (body s a)) ->
  adds_slides (c * List.length items) (for_each items body s).
Proof.
  intros Hb. revert s. induction items as [|a items IH]; intros s; simpl.
  - rewrite Nat.mul_0_r. apply adds_rret.
  - intros log log' b. unfold rthen.
    destruct (body s a log) as [log1 [s1|e]] eqn:E1; [|discriminate].
    apply Hb in E1 as (added1 & -> & H1).
    intros H. apply IH in H as (added2 & -> & H2).
    exists (added1 ++ added2). split; [now rewrite app_assoc|].
    rewrite slides_app. lia.
Qed.

Lemma adds_for_each_then (c n : nat) {A S B} (items : list A)
      (body : S -> A -> R S) (s : S) (k : S -> R B) :
  (forall s a, adds_slides c (body s a)) ->
  (forall s', adds_slides n (k s')) ->
  adds_slides (c * List.length items + n) (rthen (for_each items body s) k).
Proof.
  intros Hb Hk log log' b. unfold rthen.
  destruct (for_each items body s log) as [log1 [s1|e]] eqn:E1; [|discriminate].
  apply (adds_for_each c items body s Hb) in E1 as (added1 & -> & H1).
  intros H. apply Hk in H as (added2 & -> & H2).
  exists (added1 ++ added2). split; [now rewrite app_assoc|].
  rewrite slides_app. lia.
Qed.

Lemma add_bullet_slides (u : unit) (text : json) :
  adds_slides 0 (add_bullet library u text).
Proof. unfold add_bullet. now apply adds_emit_last. Qed.

Lemma add_section_slide_slides (u : unit) (section : json) :
  adds_slides 1 (add_section_slide library u section).
Proof.
  unfold add_section_slide.
  apply (adds_emit_then (AddSlide 1) 0).
  apply adds_rlift_then. intros heading _.
  apply (adds_emit_then (SetTitle heading) 0).
  apply (adds_emit_then ClearText 0).
  apply adds_rlift_then. intros bullets _.
  apply adds_rlift_then. intros items _.
  replace 0 with (0 * List.length items) by lia.
  apply adds_for_each. apply add_bullet_slides.
Qed.

(** What a computation that returned went through. *)
Lemma rthen_returned {A B} (m : R A) (k : A -> R B) (log log' : list call) (b : B) :
  rthen m k log = (log', Ok b) ->
  exists log1 a, m log = (log1, Ok a) /\ k a log1 = (log', Ok b).
Proof.
  unfold rthen. destruct (m log) as [log1 [a|e]]; [|discriminate].
  intros H. now exists log1, a.
Qed.

Lemma emit_returned (c : call) (log log' : list call) (u : unit) :
  emit library c log = (log', Ok u) -> log' = log ++ [c].
Proof. unfold emit. now intros [= <- _]. Qed.

Lemma rlift_returned {A} (r : result A) (log log' : list call) (a : A) :
  rlift r log = (log', Ok a) -> log' = log /\ r = Ok a.
Proof. unfold rlift. now intros [= <- ->]. Qed.

Lemma slide_marks_app (a b : list call) :
  slide_marks (a ++ b) = slide_marks a ++ slide_marks b.
Proof. apply filter_app. Qed.

(** The bullets of a slide add no slide and set no title. *)
Lemma bullets_marks (items : list json) (log log' : list call) (u : unit) :
  for_each items (add_bullet library) tt log = (log', Ok u) ->
  exists added, log' = log ++ added /\ slide_marks added = [].
Proof.
  revert log. induction items as [|text items IH]; intros log; simpl.
  - intros [= <- _]. exists []. now rewrite app_nil_r.
  - intros H. apply rthen_returned in H as (log1 & [] & H1 & H).
    apply emit_returned in H1 as ->.
    apply IH in H as (added & -> & Hm).
    exists (AddParagraph text 0 :: added). split.
    + now rewrite <- app_assoc.
    + exact Hm.
Qed.

(** A section adds one slide and sets its title to the heading. *)
Lemma section_slide_marks (section : json) (log log' : list call) (u u' : unit) :
  add_section_slide library u section log = (log', Ok u') ->
  exists heading added,
    py_item section "heading" = Ok heading
    /\ log' = log ++ added
    /\ slide_marks added = [AddSlide 1; SetTitle heading].
Proof.
  unfold add_section_slide. intros H.
  apply rthen_returned in H as (log1 & [] & H1 & H).
  apply emit_returned in H1 as ->.
  apply rthen_returned in H as (log1 & heading & H1 & H).
  apply rlift_returned in H1 as [-> Hh].
  apply rthen_returned in H as (log1 & [] & H1 & H).
  apply emit_returned in H1 as ->.
  apply rthen_returned in H as (log1 & [] & H1 & H).
  apply emit_returned in H1 as ->.
  apply rthen_returned in H as (log1 & bullets & H1 & H).
  apply rlift_returned in H1 as [-> _].
  apply rthen_returned in H as (log1 & items & H1 & H).
  apply rlift_returned in H1 as [-> _].
  destruct u'. apply bullets_marks in H as (added & -> & Hm).
  exists heading, ([AddSlide 1; SetTitle heading; ClearText] ++ added).
  split; [exact Hh|]. split.
  - now rewrite <- !app_assoc.
  - rewrite slide_marks_app, Hm. reflexivity.
Qed.

Lemma sections_slide_marks (items : list json) (log log' : list call) (u : unit) :
  for_each items (add_section_slide library) tt log = (log', Ok u) ->
  exists headings added,
    Forall2 (fun section heading => py_item section "heading" = Ok heading)
            items headings
    /\ log' = log ++ added
    /\ slide_marks added
       = flat_map (fun heading => [AddSlide 1; SetTitle heading]) headings.
Proof.
  revert log. induction items as [|section items IH]; intros log; simpl.
  - intros [= <- _]. exists [], []. rewrite app_nil_r. auto.
  - intros H. apply rthen_returned in H as (log1 & [] & H1 & H).
    apply section_slide_marks in H1 as (heading & added1 & Hh & -> & Hm1).
    apply IH in H as (headings & added & Hall & -> & Hm).
    exists (heading :: headings), (added1 ++ added). split; [|split].
    + now constructor.
    + now rewrite app_assoc.
    + rewrite slide_marks_app, Hm1, Hm. reflexivity.
Qed.

(** X16: a presentation that [_build_ppt] has built has one slide per
    section of the plan and two more.  The slides are, in this order: the
    title slide (layout 0) with the title of the plan, one slide (layout 1)
    for each section, in the order of the plan and with its heading as the
    title, and the slide "Patent-style Claims" (layout 1), whatever the
    number of bullets and claims. *)
Theorem ppt_slide_count (plan sections : json) (items : list json)
        (path : pystr) (log log' : list call) :
  py_item plan "sections" = Ok sections ->
  py_iter sections = Ok items ->
  _build_ppt library plan path log = (log', Ok tt) ->
  exists added title headings,
    log' = log ++ added
    /\ slides added = List.length items + 2
    /\ py_item plan "title" = Ok title
    /\ Forall2 (fun section heading => py_item section "heading" = Ok heading)
               items headings
    /\ slide_marks added
       = [AddSlide 0; SetTitle title]
         ++ flat_map (fun heading => [AddSlide 1; SetTitle heading]) headings
         ++ [AddSlide 1; SetTitle (JStr (lit "Patent-style Claims"))].
Proof.
  intros Hs Hi H.
  assert (Hn : adds_slides (0 + (1 + (0 + (0 + (1 * List.length items
                              + (1 + (0 + (0 + (0 * 0 + 0)))))))))
                 (_build_ppt library plan path)).
  { unfold _build_ppt.
    apply (adds_emit_then NewPresentation).
    apply (adds_emit_then (AddSlide 0)).
    apply adds_rlift_then. intros title _.
    apply (adds_emit_then (SetTitle title)).
    apply adds_rlift_then. intros summary _.
    apply (adds_emit_then (SetSubtitle summary)).
    apply (adds_emit_then (SetSubtitleSize 18)).
    apply adds_rlift_then. intros sections' Hs'.
    apply adds_rlift_then. intros items' Hi'.
    assert (items' = items) as -> by congruence.
    apply adds_for_each_then; [apply add_section_slide_slides|]. intros _.
    apply (adds_emit_then (AddSlide 1)).
    apply (adds_emit_then (SetTitle (JStr (lit "Patent-style Claims")))).
    apply (adds_emit_then ClearText).
    apply adds_rlift_then. intros claims _.
    apply adds_rlift_then. intros citems _.
    replace (0 * 0 + 0) with (0 * List.length citems + 0) by lia.
    apply adds_for_each_then; [apply add_bullet_slides|]. intros _.
    now apply adds_emit_last. }
  destruct (Hn _ _ _ H) as (added0 & E0 & Hc).
  unfold _build_ppt in H.
  apply rthen_returned in H as (log1 & [] & H1 & H).
  apply emit_returned in H1 as ->.
  apply rthen_returned in H as (log1 & [] & H1 & H).
  apply emit_returned in H1 as ->.
  apply rthen_returned in H as (log1 & title & H1 & H).
  apply rlift_returned in H1 as [-> Ht].
  apply rthen_returned in H as (log1 & [] & H1 & H).
  apply emit_returned in H1 as ->.
  apply rthen_returned in H as (log1 & summary & H1 & H).
  apply rlift_returned in H1 as [-> _].
  apply rthen_returned in H as (log1 & [] & H1 & H).
  apply emit_returned in H1 as ->.
  apply rthen_returned in H as (log1 & [] & H1 & H).
  apply emit_returned in H1 as ->.
  apply rthen_returned in H as (log1 & sections' & H1 & H).
  apply rlift_returned in H1 as [-> Hs'].
  apply rthen_returned in H as (log1 & items' & H1 & H).
  apply rlift_returned in H1 as [-> Hi'].
  assert (items' = items) as -> by congruence.
  apply rthen_returned in H as (log1 & [] & H1 & H).
  apply sections_slide_marks in H1 as (headings & added1 & Hall & -> & Hm1).
  apply rthen_returned in H as (log1 & [] & H1 & H).
  apply emit_returned in H1 as ->.
  apply rthen_returned in H as (log1 & [] & H1 & H).
  apply emit_returned in H1 as ->.
  apply rthen_returned in H as (log1 & [] & H1 & H).
  apply emit_returned in H1 as ->.
  apply rthen_returned in H as (log1 & claims & H1 & H).
  apply rlift_returned in H1 as [-> _].
  apply rthen_returned in H as (log1 & citems & H1 & H).
  apply rlift_returned in H1 as [-> _].
  apply rthen_returned in H as (log1 & [] & H1 & H).
  apply bullets_marks in H1 as (added2 & -> & Hm2).
  apply emit_returned in H as ->.
  set (added :=
         [NewPresentation; AddSlide 0; SetTitle title; SetSubtitle summary;
          SetSubtitleSize 18]
         ++ added1
         ++ [AddSlide 1; SetTitle (JStr (lit "Patent-style Claims")); ClearText]
         ++ added2 ++ [SavePresentation path]).
  assert (E : log ++ added0 = log ++ added).
  { rewrite <- E0. unfold added. now rewrite <- !app_assoc. }
  apply app_inv_head in E. subst added0.
  exists added, title, headings.
  split; [unfold added; now rewrite <- !app_assoc|].
  split; [rewrite Hc; lia|].
  split; [exact Ht|]. split; [exact Hall|].
  unfold added. rewrite !slide_marks_app, Hm1, Hm2. reflexivity.
Qed.

Lemma entries_rret {A} (a : A) : writes_entries [] (rret a).
Proof. intros log log' b [= <- _]. exists []. now rewrite app_nil_r. Qed.

Lemma entries_emit_last (c : call) :
  writes_entries (zip_entries [c]) (emit library c).
Proof. intros log log' a. unfold emit. intros [= <- _]. now exists [c]. Qed.

Lemma zip_entries_app (a b : list call) :
  zip_entries (a ++ b) = zip_entries a ++ zip_entries b.
Proof. unfold zip_entries. apply flat_map_app. Qed.

Lemma entries_rthen (names1 names2 : list pystr) {A B} (m : R A) (k : A -> R B) :
  writes_entries names1 m -> (forall a, writes_entries names2 (k a)) ->
  writes_entries (names1 ++ names2) (rthen m k).
Proof.
  intros Hm Hk log log' b. unfold rthen.
  destruct (m log) as [log1 [a|e]] eqn:E1; [|discriminate].
  apply Hm in E1 as (added1 & -> & H1).
  intros H. apply Hk in H as (added2 & -> & H2).
  exists (added1 ++ added2). split; [now rewrite app_assoc|].
  now rewrite zip_entries_app, H1, H2.
Qed.

Lemma entries_emit_then (c : call) (names : list pystr) {B} (k : unit -> R B) :
  writes_entries names (k tt) ->
  writes_entries (zip_entries [c] ++ names) (rthen (emit library c) k).
Proof.
  intros Hk. apply entries_rthen; [|intros []; exact Hk].
  intros log log' a. unfold emit. intros [= <- _]. now exists [c].
Qed.

Lemma entries_rlift_then (names : list pystr) {A B} (r : result A) (k : A -> R B) :
  (forall a, writes_entries names (k a)) ->
  writes_entries names (rthen (rlift r) k).
Proof.
  intros Hk log log' b. unfold rthen, rlift.
  destruct r as [a|e]; [|discriminate]. apply Hk.
Qed.

Lemma entries_with_zip (names : list pystr) (path : pystr) (body : R unit) :
  writes_entries names body ->
  writes_entries names (with_zip library path body).
Proof.
  intros Hb. unfold with_zip.
  apply (entries_emit_then (ZipOpen path) names). intros log log' a.
  destruct (body log) as [log1 [u|e]] eqn:E1.
  - apply Hb in E1 as (added & -> & Hn).
    unfold emit. intros [= <- _]. exists (added ++ [ZipClose]).
    split; [now rewrite app_assoc|].
    rewrite zip_entries_app, Hn. apply app_nil_r.
  - destruct (emit library ZipClose log1) as [log2 [u|e']]; discriminate.
Qed.

Lemma build_certificate_entry (plan : json) (message : pystr) (u : unit) (i : nat) :
  writes_entries [lit "certificate_" ++ decimal i ++ lit ".pdf"]
    (build_certificate library FILES_DIR plan message u i).
Proof.
  unfold build_certificate. cbv zeta.
  apply (entries_emit_then (NewCanvas _)).
  apply (entries_emit_then (SetFont _ _)).
  apply (entries_emit_then (DrawString _ _ _)).
  apply (entries_emit_then (SetFont _ _)).
  apply (entries_emit_then (DrawString _ _ _)).
  apply entries_rlift_then. intros note.
  apply (entries_emit_then (DrawString _ _ _)).
  apply (entries_emit_then Save).
  apply entries_emit_last.
Qed.

(** Without the note no certificate is finished. *)
Lemma build_certificate_needs_note (plan : json) (message : pystr) (u : unit)
      (i : nat) (log log' : list call) (a : unit) :
  build_certificate library FILES_DIR plan message u i log = (log', Ok a) ->
  exists note, py_item plan "certificate_note" = Ok note.
Proof.
  unfold build_certificate, rthen, rlift, emit. cbv zeta.
  destruct (py_item plan "certificate_note") as [note|e]; [eauto|].
  repeat match goal with
         | |- context [match library ?l ?c with _ => _ end] =>
             destruct (library l c)
         end; discriminate.
Qed.

(** X17: a zip file that [_build_certificates_zip] has written holds the
    three certificates, under the names certificate_1.pdf, certificate_2.pdf
    and certificate_3.pdf and in this order, whatever the plan and the
    message; of the plan only [certificate_note] is read, which has to be
    there. *)
Theorem certificates_zip_entries (plan : json) (message path : pystr)
        (log log' : list call) :
  _build_certificates_zip library FILES_DIR plan message path log = (log', Ok tt) ->
  exists note added,
    py_item plan "certificate_note" = Ok note
    /\ log' = log ++ added
    /\ zip_entries added
       = [lit "certificate_1.pdf"; lit "certificate_2.pdf"; lit "certificate_3.pdf"].
Proof.
  intros H.
  assert (Hnote : exists note, py_item plan "certificate_note" = Ok note).
  { unfold _build_certificates_zip, with_zip in H. cbn [for_each] in H.
    unfold rthen at 1 in H. unfold emit at 1 in H.
    destruct (library log (ZipOpen path)); [discriminate|].
    unfold rthen at 1 in H.
    destruct (build_certificate library FILES_DIR plan message tt 1
                (log ++ [ZipOpen path])) as [log1 [u|e]] eqn:E1.
    - now apply build_certificate_needs_note in E1.
    - destruct (emit library ZipClose log1) as [log2 [u|e']]; discriminate. }
  destruct Hnote as [note Hnote]. exists note.
  assert (Hw : writes_entries
                 ([lit "certificate_" ++ decimal 1 ++ lit ".pdf"]
                  ++ [lit "certificate_" ++ decimal 2 ++ lit ".pdf"]
                  ++ [lit "certificate_" ++ decimal 3 ++ lit ".pdf"] ++ [])
                 (_build_certificates_zip library FILES_DIR plan message path)).
  { unfold _build_certificates_zip. apply entries_with_zip. cbn [for_each].
    apply entries_rthen; [apply build_certificate_entry|]. intros u1.
    apply entries_rthen; [apply build_certificate_entry|]. intros u2.
    apply entries_rthen; [apply build_certificate_entry|]. intros u3.
    apply entries_rret. }
  apply Hw in H as (added & -> & Hn).
  exists added. split; [exact Hnote|]. split; [reflexivity|exact Hn].
Qed.

End Builders.

(** *** The builders on the stand-ins *)

Lemma draw_paragraph_returns_witness :
  Render._draw_paragraph quiet_library one_line (JStr (lit "Hello")) 740 90 []
  = ([Render.DrawString 60 740 (JStr (lit "Hello"))], Ok 724%Z)
  /\ exists lines,
       Render._wrap_lines one_line (JStr (lit "Hello")) 90 = Ok lines
       /\ (truthy (JStr (lit "Hello")) = false -> lines = [])
       /\ [Render.DrawString 60 740 (JStr (lit "Hello"))]
          = [] ++ Render.drawn 60 16 lines 740
       /\ 724%Z = (740 - 16 * Z.of_nat (List.length lines))%Z.
Proof.
  split; [reflexivity|].
  apply (draw_paragraph_returns quiet_library one_line (JStr (lit "Hello"))
           740 90 724 []).
  reflexivity.
Defined.

Lemma draw_sections_pages_witness :
  py_iter one_section
  = Ok [JObj [(lit "heading", JStr (lit "H"));
              (lit "bullets", JList [JStr (lit "a")])]]
  /\ Render.breaks_at_most 1
       (Render._draw_sections quiet_library one_line plain_str one_section 100).
Proof.
  split; [reflexivity|].
  exact (proj2 (draw_sections_pages quiet_library one_line plain_str
                  one_section 100)
           [JObj [(lit "heading", JStr (lit "H"));
                  (lit "bullets", JList [JStr (lit "a")])]]
           eq_refl).
Defined.

Lemma ppt_slide_count_witness :
  exists sections items log',
    py_item (_fallback_plan (lit "demo") None) "sections" = Ok sections
    /\ py_iter sections = Ok items
    /\ Render._build_ppt quiet_library (_fallback_plan (lit "demo") None)
         (lit "slides.pptx") [] = (log', Ok tt)
    /\ exists added title headings,
         log' = [] ++ added
         /\ Render.slides added = List.length items + 2
         /\ py_item (_fallback_plan (lit "demo") None) "title" = Ok title
         /\ Forall2 (fun section heading => py_item section "heading" = Ok heading)
                    items headings
         /\ Render.slide_marks added
            = [Render.AddSlide 0; Render.SetTitle title]
              ++ flat_map (fun heading =>
                             [Render.AddSlide 1; Render.SetTitle heading])
                          headings
              ++ [Render.AddSlide 1;
                  Render.SetTitle (JStr (lit "Patent-style Claims"))].
Proof.
  do 3 eexists. split; [reflexivity|]. split; [reflexivity|].
  split; [reflexivity|].
  exact (ppt_slide_count quiet_library (_fallback_plan (lit "demo") None)
           _ _ (lit "slides.pptx") [] _ eq_refl eq_refl eq_refl).
Defined.

Lemma certificates_zip_entries_witness :
  exists log',
    Render._build_certificates_zip quiet_library (lit "generated_files")
      (_fallback_plan (lit "demo") None) (lit "demo") (lit "certificates.zip") []
    = (log', Ok tt)
    /\ exists note added,
         py_item (_fallback_plan (lit "demo") None) "certificate_note" = Ok note
         /\ log' = [] ++ added
         /\ Render.zip_entries added
            = [lit "certificate_1.pdf"; lit "certificate_2.pdf";
               lit "certificate_3.pdf"].
Proof.
  eexists. split; [reflexivity|].
  exact (certificates_zip_entries quiet_library (lit "generated_files")
           (_fallback_plan (lit "demo") None) (lit "demo")
           (lit "certificates.zip") [] _ eq_refl).
Defined.

(** A section with sixty bullets that starts at y = 130: the last line is
    drawn far below the page, and no new page is started. *)
Example long_section_overflows :
  let section :=
    JObj [(lit "heading", JStr (lit "H"));
          (lit "bullets", JList (repeat (JStr (lit "a")) 60))] in
  let calls :=
    fst (Render._draw_sections quiet_library one_line plain_str
           (JList [section]) 130 []) in
  Render.page_breaks calls = 0
  /\ last calls Render.Save
     = Render.DrawString 70 (-714) (JStr (Render.bullet_mark ++ lit "a")).
Proof. split; reflexivity. Qed.

(** ** More on the normalizer and the handler *)

(** X18: for an object whose [claims] is a list of strings, the claims of
    the result are those strings in their order, each trimmed, without the
    ones made of whitespace only, or the one default claim when none is
    left. *)
Theorem claims_cleaned (d : list (pystr * json)) (seed : pystr)
        (cl : list pystr) (out : json) :
  dict_get d (lit "claims") = Some (JList (map JStr cl)) ->
  _normalize_plan (JObj d) seed = Ok out ->
  let kept := map strip (filter (fun c => negb (blank c)) cl) in
  py_item out "claims"
  = Ok (JList (map JStr
                 (if is_nil kept
                  then [lit "Automated documentation generation based on user input."]
                  else kept))).
Proof.
  intros Hc H. cbv zeta.
  destruct (normalize_plan_inv _ _ _ H)
    as (d' & secs_in & secs_out & citems & cleaned & Hd & _ & _ & Hi & Hk & ->).
  injection Hd as <-.
  unfold dict_field in Hi. rewrite Hc in Hi. cbn [py_iter] in Hi.
  injection Hi as <-. rewrite clean_strings in Hk. injection Hk as <-.
  rewrite py_or_list.
  destruct (map strip (filter (fun c => negb (blank c)) cl)); reflexivity.
Qed.

Lemma claims_cleaned_witness :
  exists out,
    (dict_get [(lit "claims", JList (map JStr [lit " a "; lit "  "; lit "b"]))]
              (lit "claims")
     = Some (JList (map JStr [lit " a "; lit "  "; lit "b"]))
     /\ _normalize_plan
          (JObj [(lit "claims", JList (map JStr [lit " a "; lit "  "; lit "b"]))])
          (lit "demo") = Ok out)
    /\ py_item out "claims" = Ok (JList (map JStr [lit "a"; lit "b"])).
Proof.
  eexists. split; [split; reflexivity|].
  exact (claims_cleaned
           [(lit "claims", JList (map JStr [lit " a "; lit "  "; lit "b"]))]
           (lit "demo") [lit " a "; lit "  "; lit "b"] _ eq_refl eq_refl).
Defined.

Lemma clean_characters (s : pystr) :
  clean (map (fun c => JStr [c]) s)
  = Ok (map (fun c => JStr [c]) (filter (fun c => negb (is_space c)) s)).
Proof.
  induction s as [|c s IH]; [reflexivity|].
  cbn [map clean str_strip_truthy py_strip].
  rewrite is_nil_strip. cbn [blank forallb]. rewrite andb_true_r.
  destruct (is_space c) eqn:E; cbn [negb filter]; rewrite ?E; cbn [negb].
  - exact IH.
  - rewrite IH. cbn [rbind map]. do 3 f_equal.
    unfold strip, rstrip. cbn [lstrip]. rewrite E. cbn [rev app lstrip].
    now rewrite E.
Qed.

(** X19: a section whose [bullets] is a string, not a list, is accepted:
    the string is taken character by character, so that the section gets one
    bullet for each character that is not whitespace, or "Details pending."
    when there is none. *)
Theorem string_bullets_by_character (d : list (pystr * json)) (s : pystr)
        (out : json) :
  dict_get d (lit "bullets") = Some (JStr s) ->
  normalize_section (JObj d) = Ok out ->
  let kept := filter (fun c => negb (is_space c)) s in
  py_item out "bullets"
  = Ok (JList (if is_nil kept
               then [JStr (lit "Details pending.")]
               else map (fun c => JStr [c]) kept)).
Proof.
  intros Hb H. cbv zeta.
  destruct (normalize_section_inv _ _ H) as (h & kept & _ & Hk & ->).
  unfold cleaned_bullets, py_get, dict_field in Hk. rewrite Hb in Hk.
  cbn [rbind py_iter] in Hk. rewrite clean_characters in Hk.
  injection Hk as <-. rewrite py_or_list.
  destruct (filter (fun c => negb (is_space c)) s); reflexivity.
Qed.

Lemma string_bullets_by_character_witness :
  exists out,
    normalize_section string_bullets = Ok out
    /\ py_item out "bullets" = Ok (JList [JStr (lit "a"); JStr (lit "b")]).
Proof.
  eexists. split; [reflexivity|].
  exact (string_bullets_by_character
           [(lit "heading", JStr (lit "H")); (lit "bullets", JStr (lit "a b"))]
           (lit "a b") _ eq_refl eq_refl).
Defined.

(** The fetcher returns when the libraries fail with Exceptions only. *)
Lemma call_ai_plan_returns (w : world) (message : pystr) (st : counters) :
  failures_are_Exceptions w ->
  exists st' plan err, _call_ai_plan w message st = (st', Ok (plan, err)).
Proof.
  intros Hw. destruct (AI_ENABLED w) eqn:En.
  - rewrite (call_ai_plan_enabled w message st En). unfold try_except.
    pose proof (try_raises_Exceptions w message Hw (entered st)) as Hs.
    destruct (_call_ai_plan_try w message (entered st)) as [st1 [[plan err]|e]].
    + now exists st1, plan, err.
    + simpl in Hs. rewrite Hs. unfold ret. eauto.
  - rewrite (call_ai_plan_disabled w message st En). eauto.
Qed.

(** X20: a failure of the provider never fails the request: when the
    libraries fail with Exceptions only and the builders return for the
    static plan, a request in hybrid mode either gets a response or the
    provider has delivered a plan that counts as true (which is then
    normalized and rendered in place of the static one). *)
Theorem provider_failure_keeps_request (w : world) (message : pystr)
        (file : option upload) (st : counters) :
  failures_are_Exceptions w ->
  builders_succeed w (_fallback_plan message file) message ->
  (exists st' resp,
     chat w message file (lit "hybrid") st = (st', Ok resp)
     /\ mode_used (ai resp) = lit "static")
  \/ (exists st' ai_plan,
        _call_ai_plan w message st = (st', Ok (ai_plan, None))
        /\ truthy ai_plan = true).
Proof.
  intros Hw Hb.
  destruct (call_ai_plan_returns w message st Hw) as (st' & plan & err & Hf).
  destruct (truthy plan) eqn:Ht.
  - right. exists st', plan. split; [|exact Ht].
    destruct (call_ai_plan_plan_or_error w message st st' plan err Hf)
      as [-> | ->]; [exact Hf|discriminate Ht].
  - left. destruct (chat_respond_fallback w message file (lit "hybrid") err Hb)
      as (resp & Hr & _).
    exists st', resp. split.
    + rewrite chat_unfold, chat_plan_hybrid, Hf, Ht. now rewrite Hr.
    + now apply chat_respond_ai in Hr as (_ & Hm & _).
Qed.

Lemma provider_failure_keeps_request_witness :
  (failures_are_Exceptions timeout_world
   /\ builders_succeed timeout_world (_fallback_plan (lit "demo") None) (lit "demo"))
  /\ ((exists st' resp,
         chat timeout_world (lit "demo") None (lit "hybrid") fresh = (st', Ok resp)
         /\ mode_used (ai resp) = lit "static")
      \/ (exists st' ai_plan,
            _call_ai_plan timeout_world (lit "demo") fresh
            = (st', Ok (ai_plan, None))
            /\ truthy ai_plan = true)).
Proof.
  assert (Hw : failures_are_Exceptions timeout_world).
  { apply stub_world_failures. intros f m s u [= <-]. reflexivity. }
  assert (Hb : builders_succeed timeout_world
                 (_fallback_plan (lit "demo") None) (lit "demo"))
    by (repeat split).
  split; [split; assumption|].
  exact (provider_failure_keeps_request timeout_world (lit "demo") None fresh
           Hw Hb).
Defined.
